(** * digitalregistrar: the extraction orchestrator and the result normaliser

    A shallow embedding of [pipeline.py], [models/common.py],
    [models/modellist.py], [util/predictiondump.py], [util/logger.py] and
    the batch driver of [experiment.py], with the properties of the
    specification checked against it.

    Conventions.  The text of a report, which the code splits and strips,
    is a [text]: a list of code points.  Keys, names and messages, which
    the code only compares, prefixes and concatenates, are [string]s.  A
    Python [dict] is an association list in insertion order, written to
    only through [dict_set], which overwrites in place or appends, as the
    interpreter does.  Exceptions are values of [exn] carried by [result];
    a [try]/[except Exception] is a match on the result that lets through
    what does not derive from [Exception]. *)

From Stdlib Require Import String Ascii List ZArith NArith Bool Lia.
From Stdlib Require Import SpecFloat.
Import ListNotations.
Open Scope string_scope.
Open Scope list_scope.

(** ** Python strings *)

(** A string as a list of code points. *)
Definition text : Type := list N.

Module PyStr.

Definition newline : N := 10%N.

Definition is_newline (c : N) : bool := N.eqb c newline.

(** [str.isspace] on one code point: U+0009..U+000D, U+001C..U+0020,
    U+0085, U+00A0, U+1680, U+2000..U+200A, U+2028, U+2029, U+202F, U+205F
    and U+3000. *)
Definition is_space (c : N) : bool :=
  (N.leb 9 c && N.leb c 13) || (N.leb 28 c && N.leb c 32)
  || N.eqb c 133 || N.eqb c 160 || N.eqb c 5760
  || (N.leb 8192 c && N.leb c 8202)
  || N.eqb c 8232 || N.eqb c 8233 || N.eqb c 8239 || N.eqb c 8287
  || N.eqb c 12288.

(** [s.lstrip()] *)
Fixpoint lstrip (s : text) : text :=
  match s with
  | [] => []
  | c :: r => if is_space c then lstrip r else s
  end.

(** [s.rstrip()] *)
Fixpoint rstrip (s : text) : text :=
  match s with
  | [] => []
  | c :: r =>
      match rstrip r with
      | [] => if is_space c then [] else [c]
      | r' => c :: r'
      end
  end.

(** [s.strip()] *)
Definition strip (s : text) : text := rstrip (lstrip s).

(** Truth value of a text: [bool(s)]. *)
Definition nonempty (s : text) : bool :=
  match s with [] => false | _ => true end.

(** Truth value of a string: [bool(s)]. *)
Definition truthy (s : string) : bool :=
  match s with EmptyString => false | _ => true end.

(** [s.split('\n\n')]: the pieces between the occurrences of two
    consecutive newlines, found from the left and not overlapping.  [cur]
    is the piece being read. *)
Fixpoint split_from (cur s : text) : list text :=
  match s with
  | [] => [cur]
  | c :: rest =>
      match rest with
      | [] => [cur ++ [c]]
      | c' :: rest' =>
          if is_newline c && is_newline c'
          then cur :: split_from [] rest'
          else split_from (cur ++ [c]) rest
      end
  end.

Definition split_blank (s : text) : list text := split_from [] s.

Definition blank_line : text := [newline; newline].

(** [s.startswith(p)] *)
Definition startswith (p s : string) : bool := String.prefix p s.

(** [s.startswith((p1, ..., pn))] *)
Definition startswith_any (ps : list string) (s : string) : bool :=
  existsb (fun p => startswith p s) ps.

(** The text of a string whose characters are code points below 256. *)
Definition of_string (s : string) : text :=
  map N_of_ascii (list_ascii_of_string s).

End PyStr.

(** [paragraphs] of [CancerPipeline.forward]:
    [report.split('\n\n')] then [[p.strip() for p in paragraphs if p.strip()]]. *)
Definition paragraphs_of (report : text) : list text :=
  map PyStr.strip
      (filter (fun p => PyStr.nonempty (PyStr.strip p)) (PyStr.split_blank report)).

(** *** The paragraphs in the words of the specification

    Said without the functions above: what a split on blank-line
    boundaries is, what the trimmed form of a piece is, and which pieces
    are dropped. *)

(** [sep.join(l)] *)
Fixpoint join (sep : text) (l : list text) : text :=
  match l with
  | [] => []
  | [x] => x
  | x :: rest => x ++ sep ++ join sep rest
  end.

(** ['\n\n' in s] *)
Fixpoint contains_blank (s : text) : bool :=
  match s with
  | [] => false
  | c :: r =>
      match r with
      | [] => false
      | c' :: _ =>
          (PyStr.is_newline c && PyStr.is_newline c') || contains_blank r
      end
  end.

(** [s.endswith('\n')] *)
Fixpoint ends_with_newline (s : text) : bool :=
  match s with
  | [] => false
  | c :: r =>
      match r with
      | [] => PyStr.is_newline c
      | _ :: _ => ends_with_newline r
      end
  end.

(** [s.startswith('\n')] *)
Definition starts_with_newline (s : text) : bool :=
  match s with
  | [] => false
  | c :: _ => PyStr.is_newline c
  end.

(** The whitespace characters: the controls from the tabulation to the
    carriage return and from the file separator to the unit separator, the
    space, the next line, the no-break space, the ogham space mark, the
    spaces from the en quad to the hair space, the line and paragraph
    separators, the narrow no-break space, the medium mathematical space
    and the ideographic space. *)
Definition whitespace_points : list N :=
  [9; 10; 11; 12; 13; 28; 29; 30; 31; 32; 133; 160; 5760;
   8192; 8193; 8194; 8195; 8196; 8197; 8198; 8199; 8200; 8201; 8202;
   8232; 8233; 8239; 8287; 12288]%N.

Definition is_whitespace (c : N) : bool := existsb (N.eqb c) whitespace_points.

Arguments is_whitespace : simpl never.

(** [s] has no character other than whitespace. *)
Definition all_space (s : text) : bool := forallb is_whitespace s.

(** No piece but the last ends with a newline. *)
Fixpoint inner_pieces_closed (pieces : list text) : Prop :=
  match pieces with
  | [] => True
  | [_] => True
  | piece :: rest =>
      ends_with_newline piece = false /\ inner_pieces_closed rest
  end.

(** [pieces] is the report cut at its blank-line boundaries, taken from
    the left: the pieces joined by two newlines are the report, no piece
    has a blank line inside, and no boundary could start one character
    earlier. *)
Definition blank_line_split (report : text) (pieces : list text) : Prop :=
  pieces <> []
  /\ join PyStr.blank_line pieces = report
  /\ Forall (fun piece => contains_blank piece = false) pieces
  /\ inner_pieces_closed pieces.

(** [p] is [piece] without the whitespace at its two ends, and is not
    empty: its first and last characters are not whitespace. *)
Definition trimmed_from (piece p : text) : Prop :=
  exists before after,
    piece = before ++ p ++ after
    /\ all_space before = true /\ all_space after = true
    /\ (exists c r, p = c :: r /\ is_whitespace c = false)
    /\ (exists r c, p = r ++ [c] /\ is_whitespace c = false).

(** The paragraphs of a list of pieces: a piece of whitespace only is
    dropped, any other gives its trimmed form, in order. *)
Inductive trimmed_kept : list text -> list text -> Prop :=
| kept_nil : trimmed_kept [] []
| kept_drop piece rest ps :
    all_space piece = true -> trimmed_kept rest ps ->
    trimmed_kept (piece :: rest) ps
| kept_keep piece p rest ps :
    trimmed_from piece p -> trimmed_kept rest ps ->
    trimmed_kept (piece :: rest) (p :: ps).

(** The paragraph sequence of a report, as the specification has it. *)
Definition spec_paragraphs (report : text) (ps : list text) : Prop :=
  exists pieces, blank_line_split report pieces /\ trimmed_kept pieces ps.

Definition example_report : text :=
  PyStr.of_string "A" ++ PyStr.blank_line ++ PyStr.of_string "B"
  ++ PyStr.blank_line ++ PyStr.of_string "  " ++ PyStr.blank_line
  ++ PyStr.of_string "C".

(** ** Python values *)

(** Exceptions: the class, the text [str(e)] gives, and whether the class
    derives from [Exception]: [KeyboardInterrupt], [SystemExit] and
    [GeneratorExit] derive from [BaseException] only, and an
    [except Exception] lets them through. *)
Record exn : Type := Exn {
  exc_class : string;
  exc_msg : string;
  is_exception : bool      (* isinstance(e, Exception) *)
}.

Inductive result (A : Type) : Type :=
| Ok (a : A)
| Raise (e : exn).

Arguments Ok {A} a.
Arguments Raise {A} e.

(** Keys of a dict.  The code tests [isinstance(k, str)] and calls
    [k.startswith], so the keys that are not strings are kept apart: an
    int, a bytes object, which has a [startswith] of its own, and a key of
    any other type without that method, given by the name of its type and
    its [repr]. *)
Inductive pykey : Type :=
| KStr (s : string)
| KInt (z : Z)
| KBytes (b : string)
| KOther (type_name : string) (repr : string).

Definition pykey_eqb (a b : pykey) : bool :=
  match a, b with
  | KStr s, KStr t => String.eqb s t
  | KInt x, KInt y => Z.eqb x y
  | KBytes x, KBytes y => String.eqb x y
  | KOther t x, KOther u y => String.eqb t u && String.eqb x y
  | _, _ => false
  end.

(** What [isinstance] can tell about an object that is neither a primitive
    nor a container. *)
Inductive pyclass : Type :=
| ClsDatetime      (* datetime.datetime *)
| ClsDate          (* datetime.date *)
| ClsDecimal       (* decimal.Decimal *)
| ClsNpInteger     (* numpy.integer *)
| ClsNpFloating    (* numpy.floating, other than float64 which is a float *)
| ClsNdarray       (* numpy.ndarray *)
| ClsBaseModel     (* pydantic.BaseModel *)
| ClsDataclass     (* an instance of a dataclass *)
| ClsOther.

(** A value as the normaliser sees it.  [VPrediction] is a DSPy
    [Prediction] with its [_store]; [VDict] is a [dict]; [VMapping] is a
    [Mapping] that is not a [dict] (a [UserDict], a [MappingProxyType]),
    with its items; [VSet] lists the elements in iteration order.  An
    object, and a mapping that is not a dict, carries the zero-argument
    conversions it answers to, each with what the call gives, a value or
    an exception: its callable attributes by name ([dict], [to_dict],
    [model_dump]) and, for a dataclass instance, [asdict] for
    [dataclasses.asdict(obj)].  An object also carries its class and a
    text that identifies it. *)
#[warnings="-register-all"]
Inductive value : Type :=
| VNone
| VBool (b : bool)
| VInt (z : Z)
| VFloat (f : spec_float)
| VStr (s : string)
| VPrediction (store : list (pykey * value))
| VDict (items : list (pykey * value))
| VMapping (items : list (pykey * value)) (calls : list (string * result value))
| VList (elems : list value)
| VTuple (elems : list value)
| VSet (elems : list value)
| VObject (cls : pyclass) (ident : string) (calls : list (string * result value)).

Definition dict : Type := list (pykey * value).

(** *** Induction over values, through the containers *)

Section ValueInduction.

Variable P : value -> Prop.

Hypothesis HNone : P VNone.
Hypothesis HBool : forall b, P (VBool b).
Hypothesis HInt : forall z, P (VInt z).
Hypothesis HFloat : forall f, P (VFloat f).
Hypothesis HStr : forall s, P (VStr s).
Hypothesis HPrediction :
  forall store, Forall (fun kv => P (snd kv)) store -> P (VPrediction store).
Hypothesis HDict :
  forall items, Forall (fun kv => P (snd kv)) items -> P (VDict items).
Hypothesis HMapping :
  forall items calls,
    Forall (fun kv => P (snd kv)) items ->
    Forall (fun c => forall v, snd c = Ok v -> P v) calls ->
    P (VMapping items calls).
Hypothesis HList : forall elems, Forall P elems -> P (VList elems).
Hypothesis HTuple : forall elems, Forall P elems -> P (VTuple elems).
Hypothesis HSet : forall elems, Forall P elems -> P (VSet elems).
Hypothesis HObject :
  forall cls ident calls,
    Forall (fun c => forall v, snd c = Ok v -> P v) calls ->
    P (VObject cls ident calls).

Fixpoint value_induction (v : value) : P v :=
  let entries :=
    fix go (l : list (pykey * value)) : Forall (fun kv => P (snd kv)) l :=
      match l with
      | [] => Forall_nil _
      | (k, x) :: rest =>
          @Forall_cons _ (fun kv => P (snd kv)) (k, x) rest
                       (value_induction x) (go rest)
      end in
  let elements :=
    fix go (l : list value) : Forall P l :=
      match l with
      | [] => Forall_nil _
      | x :: rest => @Forall_cons _ P x rest (value_induction x) (go rest)
      end in
  let outcomes :=
    fix go (l : list (string * result value))
      : Forall (fun c => forall v, snd c = Ok v -> P v) l :=
      match l with
      | [] => Forall_nil _
      | (name, outcome) :: rest =>
          @Forall_cons _ (fun c => forall v, snd c = Ok v -> P v)
            (name, outcome) rest
            (match outcome as o return forall v, o = Ok v -> P v with
             | Ok x =>
                 fun v (H : Ok x = Ok v) =>
                   match H in _ = o
                         return match o with
                                | Ok y => P y
                                | Raise _ => True
                                end with
                   | eq_refl => value_induction x
                   end
             | Raise e =>
                 fun v (H : Raise e = Ok v) =>
                   match H in _ = o
                         return match o with
                                | Ok y => P y
                                | Raise _ => True
                                end with
                   | eq_refl => I
                   end
             end)
            (go rest)
      end in
  match v with
  | VNone => HNone
  | VBool b => HBool b
  | VInt z => HInt z
  | VFloat f => HFloat f
  | VStr s => HStr s
  | VPrediction store => HPrediction store (entries store)
  | VDict items => HDict items (entries items)
  | VMapping items calls => HMapping items calls (entries items) (outcomes calls)
  | VList elems => HList elems (elements elems)
  | VTuple elems => HTuple elems (elements elems)
  | VSet elems => HSet elems (elements elems)
  | VObject cls ident calls => HObject cls ident calls (outcomes calls)
  end.

End ValueInduction.

(** *** dict operations *)

(** [d[k]] / [d.get(k)] *)
Fixpoint dict_get (d : dict) (k : pykey) : option value :=
  match d with
  | [] => None
  | (k', v) :: rest => if pykey_eqb k' k then Some v else dict_get rest k
  end.

(** [d[k] = v]: overwrite where the key is, append otherwise. *)
Fixpoint dict_set (d : dict) (k : pykey) (v : value) : dict :=
  match d with
  | [] => [(k, v)]
  | (k', v') :: rest =>
      if pykey_eqb k' k then (k', v) :: rest else (k', v') :: dict_set rest k v
  end.

(** [d.update(other)] *)
Definition dict_update (d other : dict) : dict :=
  fold_left (fun acc kv => dict_set acc (fst kv) (snd kv)) other d.

Definition dict_keys (d : dict) : list pykey := map fst d.

(** *** The result normaliser, [util/predictiondump.py] *)

(** What [k.startswith] raises on a key without the method. *)
Definition no_startswith_error (type_name : string) : exn :=
  Exn "AttributeError"
      ("'" ++ type_name ++ "' object has no attribute 'startswith'") true.

(** What [bytes.startswith] raises on a string or a tuple of strings. *)
Definition bytes_startswith_error : exn :=
  Exn "TypeError" "a bytes-like object is required, not 'str'" true.

(** [dataclasses.asdict] on what is not a dataclass instance. *)
Definition asdict_error : exn :=
  Exn "TypeError" "asdict() should be called on dataclass instances" true.

(** [obj.dict()] on a pydantic model without the method. *)
Definition no_dict_error : exn :=
  Exn "AttributeError" "object has no attribute 'dict'" true.

Definition bookkeeping_prefixes : list string :=
  ["_lm_usage"; "_inputs"; "_completions"].

(** [k.startswith(("_lm_usage", "_inputs", "_completions"))], called on
    the key whatever its type. *)
Definition prediction_key_excluded (k : pykey) : result bool :=
  match k with
  | KStr s => Ok (PyStr.startswith_any bookkeeping_prefixes s)
  | KInt _ => Raise (no_startswith_error "int")
  | KBytes _ => Raise bytes_startswith_error
  | KOther type_name _ => Raise (no_startswith_error type_name)
  end.

(** [isinstance(k, str) and k.startswith("_")] *)
Definition mapping_key_excluded (k : pykey) : result bool :=
  match k with
  | KStr s => Ok (PyStr.startswith "_" s)
  | _ => Ok false
  end.

(** [{k: f(v) for k, v in items if not excluded(k)}], entry by entry: the
    condition, then the value, then the store into the dict being built. *)
Definition dict_comprehension
    (excluded : pykey -> result bool) (f : value -> result value)
  : list (pykey * value) -> dict -> result dict :=
  fix go (items : list (pykey * value)) (acc : dict) : result dict :=
    match items with
    | [] => Ok acc
    | (k, v) :: rest =>
        match excluded k with
        | Raise e => Raise e
        | Ok true => go rest acc
        | Ok false =>
            match f v with
            | Raise e => Raise e
            | Ok v' => go rest (dict_set acc k v')
            end
        end
    end.

(** [[f(v) for v in elems]] *)
Definition list_comprehension (f : value -> result value)
  : list value -> result (list value) :=
  fix go (elems : list value) : result (list value) :=
    match elems with
    | [] => Ok []
    | v :: rest =>
        match f v with
        | Raise e => Raise e
        | Ok v' =>
            match go rest with
            | Raise e => Raise e
            | Ok rest' => Ok (v' :: rest')
            end
        end
    end.

(** [hasattr(obj, attr) and callable(getattr(obj, attr))], then
    [f(getattr(obj, attr)())]: [None] when the object has no such callable,
    otherwise what the call followed by [f] gives. *)
Definition call_then (f : value -> result value) (attr : string)
  : list (string * result value) -> option (result value) :=
  fix find (calls : list (string * result value)) : option (result value) :=
    match calls with
    | [] => None
    | (name, outcome) :: rest =>
        if String.eqb name attr
        then Some match outcome with
                  | Ok v => f v
                  | Raise e => Raise e
                  end
        else find rest
    end.

(** [for attr in attrs: if hasattr(obj, attr) and callable(...):
    try: return f(getattr(obj, attr)()) / except Exception: pass], then
    [otherwise]: an exception that does not derive from [Exception] is not
    caught. *)
Definition try_exports (f : value -> result value)
    (calls : list (string * result value)) (otherwise : result value)
  : list string -> result value :=
  fix go (attrs : list string) : result value :=
    match attrs with
    | [] => otherwise
    | attr :: rest =>
        match call_then f attr calls with
        | Some (Ok r) => Ok r
        | Some (Raise e) => if is_exception e then go rest else Raise e
        | None => go rest
        end
    end.

Arguments try_exports : simpl never.

(** [to_plain], the recursive worker of [dump_prediction_plain]. *)
Fixpoint to_plain (obj : value) : result value :=
  match obj with
  | VNone | VBool _ | VInt _ | VFloat _ | VStr _ => Ok obj
  | VPrediction store =>
      match dict_comprehension prediction_key_excluded to_plain store [] with
      | Ok d => Ok (VDict d)
      | Raise e => Raise e
      end
  | VDict items | VMapping items _ =>
      match dict_comprehension mapping_key_excluded to_plain items [] with
      | Ok d => Ok (VDict d)
      | Raise e => Raise e
      end
  | VList elems | VTuple elems | VSet elems =>
      match list_comprehension to_plain elems with
      | Ok l => Ok (VList l)
      | Raise e => Raise e
      end
  | VObject _ _ calls =>
      try_exports to_plain calls (Ok obj) ["dict"; "to_dict"]
  end.

(** [dump_prediction_plain]: a result that is not a dict is wrapped. *)
Definition dump_prediction_plain (pred : value) : result dict :=
  match to_plain pred with
  | Raise e => Raise e
  | Ok (VDict d) => Ok d
  | Ok r => Ok [(KStr "value", r)]
  end.

(** Plain structures: primitives, mappings whose keys all satisfy [key_ok],
    and sequences. *)
Fixpoint structure_of (key_ok : pykey -> bool) (v : value) : bool :=
  match v with
  | VNone | VBool _ | VInt _ | VFloat _ | VStr _ => true
  | VDict items | VMapping items _ =>
      forallb (fun '(k, x) => key_ok k && structure_of key_ok x) items
  | VList elems | VTuple elems | VSet elems =>
      forallb (structure_of key_ok) elems
  | VPrediction _ | VObject _ _ _ => false
  end.

(** A string key that does not start with the internal marker. *)
Definition public_str_key (k : pykey) : bool :=
  match k with
  | KStr s => negb (PyStr.startswith "_" s)
  | _ => false
  end.

Definition plain_structure : value -> bool := structure_of public_str_key.

(** The export named [attr] gives no result: the object has no such
    callable, or the call or the normalisation of what it returns raises an
    exception that the [except Exception] around it catches. *)
Definition export_fails (f : value -> result value) (attr : string)
    (calls : list (string * result value)) : Prop :=
  match call_then f attr calls with
  | Some (Ok _) => False
  | Some (Raise e) => is_exception e = true
  | None => True
  end.

(** ** The classifier's signature and the model registry *)

(** The output fields of [is_cancer], [models/common.py]. *)
Record classification : Type := Classification {
  cancer_excision_report : bool;
  cancer_category : option string;
  cancer_category_others_description : option string
}.

(** The [Literal] of [is_cancer.cancer_category]. *)
Definition cancer_categories : list string :=
  ["stomach"; "colorectal"; "breast"; "esophagus"; "lung"; "prostate";
   "thyroid"; "pancreas"; "cervix"; "liver"; "others"].

Definition registry : Type := list (string * list string).

(** [organmodels], [models/modellist.py]. *)
Definition organmodels : registry :=
  [("lung", ["LungCancerNonnested"; "LungCancerStaging"; "LungCancerMargins";
             "LungCancerLN"; "LungCancerBiomarkers"; "LungCancerOthernested"]);
   ("colorectal", ["ColonCancerNonnested"; "ColonCancerStaging";
                   "ColonCancerMargins"; "ColonCancerLN";
                   "ColonCancerBiomarkers"]);
   ("prostate", ["ProstateCancerNonnested"; "ProstateCancerStaging";
                 "ProstateCancerMargins"; "ProstateCancerLN"]);
   ("esophagus", ["EsophagusCancerNonnested"; "EsophagusCancerStaging";
                  "EsophagusCancerMargins"; "EsophagusCancerLN"]);
   ("breast", ["BreastCancerNonnested"; "DCIS"; "BreastCancerGrading";
               "BreastCancerStaging"; "BreastCancerMargins"; "BreastCancerLN";
               "BreastCancerBiomarkers"]);
   ("pancreas", ["PancreasCancerNonnested"; "PancreasCancerStaging";
                 "PancreasCancerMargins"; "PancreasCancerLN"]);
   ("thyroid", ["ThyroidCancerNonnested"; "ThyroidCancerStaging";
                "ThyroidCancerMargins"; "ThyroidCancerLN"]);
   ("cervix", ["CervixCancerNonnested"; "CervixCancerStaging";
               "CervixCancerMargins"; "CervixCancerLN"]);
   ("liver", ["LiverCancerNonnested"; "LiverCancerExtent";
              "LiverCancerVascularInvasion"; "LiverCancerStaging";
              "LiverCancerMargins"; "LiverCancerLN"]);
   ("stomach", ["StomachCancerNonnested"; "StomachCancerStaging";
                "StomachCancerMargins"; "StomachCancerLN"])].

(** [reg.get(category, [])]: [None] is a key no registry has. *)
Fixpoint registry_get (reg : registry) (category : option string) : list string :=
  match category, reg with
  | Some c, (k, models) :: rest =>
      if String.eqb k c then models else registry_get rest category
  | _, _ => []
  end.

(** ** The orchestrator, [pipeline.py] *)

(** What a run does to the outside: what it prints and logs, and the calls
    it makes to the backend. *)
Inductive event : Type :=
| Print (line : string)
| PrintJson (doc : value)          (* print(json.dumps(doc, ...)) *)
| LogInfo (line : string)
| LogError (line : string)
| ClassifierCall (paragraphs : list text)
| JsonizeCall (paragraphs : list text) (category : option string)
| ExtractorCall (cls_name : string) (report : text) (report_jsonized : value).

Definition is_log_error (e : event) : bool :=
  match e with LogError _ => true | _ => false end.

Definition is_extractor_call (e : event) : bool :=
  match e with ExtractorCall _ _ _ => true | _ => false end.

Definition is_classifier_call (e : event) : bool :=
  match e with ClassifierCall _ => true | _ => false end.

Definition is_later_stage_call (e : event) : bool :=
  match e with
  | JsonizeCall _ _ | ExtractorCall _ _ _ => true
  | _ => false
  end.

(** [str(x)] of an optional string, for the f-strings. *)
Definition str_of (x : option string) : string :=
  match x with Some s => s | None => "None" end.

Definition value_of (x : option string) : value :=
  match x with Some s => VStr s | None => VNone end.

Definition opt_is (x : option string) (s : string) : bool :=
  match x with Some t => String.eqb t s | None => false end.

Definition opt_truthy (x : option string) : bool :=
  match x with Some t => PyStr.truthy t | None => false end.

Definition cancer_data_key : pykey := KStr "cancer_data".

(** The output document of the eligible branch once [cancer_data] holds
    [data]. *)
Definition document_with (c : classification) (data : dict) : value :=
  VDict [(KStr "cancer_excision_report", VBool true);
         (KStr "cancer_category", value_of (cancer_category c));
         (KStr "cancer_category_others_description",
          value_of (cancer_category_others_description c));
         (cancer_data_key, VDict data)].

(** The output document of the eligible branch, before the fan-out. *)
Definition eligible_report (c : classification) : value :=
  VDict [(KStr "cancer_excision_report", VBool true);
         (KStr "cancer_category", value_of (cancer_category c));
         (KStr "cancer_category_others_description",
          value_of (cancer_category_others_description c));
         (cancer_data_key, VDict [])].

(** [doc[name]] of an output document. *)
Definition doc_get (doc : value) (name : string) : option value :=
  match doc with
  | VDict d => dict_get d (KStr name)
  | _ => None
  end.

(** [doc["cancer_data"]] *)
Definition cancer_data_of (doc : value) : option dict :=
  match doc_get doc "cancer_data" with
  | Some (VDict data) => Some data
  | _ => None
  end.

(** The output document of the other branch. *)
Definition not_eligible_report : value :=
  VDict [(KStr "cancer_excision_report", VBool false);
         (KStr "cancer_category", VNone);
         (cancer_data_key, VDict [])].

Section Orchestrator.

Set Implicit Arguments.

(** The generative backend and the module's globals are outside the
    repository.  The backend has a state of its own, so that two calls
    with the same arguments may answer differently. *)
Variable world : Type.
Variable signature : Type.
(** [cls.__name__] *)
Variable cls_name : signature -> string.
(** [self.analyzer_is_cancer(report=paragraphs)] *)
Variable analyzer_is_cancer :
  list text -> world -> result classification * world.
(** [self.jsonize(report=..., cancer_category=...).output] *)
Variable jsonize :
  list text -> option string -> world -> result value * world.
(** [globals().get(items)] *)
Variable globals_get : string -> option signature.
(** [dspy.Predict(cls)(report=..., report_jsonized=...)]: building the
    predictor from a resolved class is taken not to raise, the call may. *)
Variable predict :
  signature -> text -> value -> world -> result value * world.
(** [time.strftime('%Y-%m-%d %H:%M:%S')] *)
Variable strftime : world -> string.

Record state : Type := State { st_world : world; st_trace : list event }.

(** Computations that read and write the state and may raise. *)
Definition M (A : Type) : Type := state -> result A * state.

Definition ret {A} (a : A) : M A := fun st => (Ok a, st).

Definition raise {A} (e : exn) : M A := fun st => (Raise e, st).

Definition bind {A B} (m : M A) (k : A -> M B) : M B :=
  fun st =>
    match m st with
    | (Ok a, st') => k a st'
    | (Raise e, st') => (Raise e, st')
    end.

(** [try: body / except Exception as e: handler]: what the body did to
    the state before it raised stays done, and an exception that does not
    derive from [Exception] goes on. *)
Definition try_except {A} (body : M A) (handler : exn -> M A) : M A :=
  fun st =>
    match body st with
    | (Ok a, st') => (Ok a, st')
    | (Raise e, st') =>
        if is_exception e then handler e st' else (Raise e, st')
    end.

Definition emit (e : event) : M unit :=
  fun st => (Ok tt, State (st_world st) (st_trace st ++ [e])).

Definition backend {A} (call : world -> result A * world) : M A :=
  fun st =>
    let (r, w) := call (st_world st) in (r, State w (st_trace st)).

Definition clock : M string :=
  fun st => (Ok (strftime (st_world st)), st).

Definition lift {A} (r : result A) : M A := fun st => (r, st).

Notation "x <- m ;; k" := (bind m (fun x => k))
  (at level 61, m at next level, right associativity).
Notation "m ;; k" := (bind m (fun _ => k))
  (at level 61, right associativity).

(** [output_report["cancer_data"].update(organ_data)] *)
Definition update_cancer_data (output_report : value) (organ_data : dict)
  : result value :=
  match output_report with
  | VDict d =>
      match dict_get d cancer_data_key with
      | Some (VDict cancer_data) =>
          Ok (VDict (dict_set d cancer_data_key
                       (VDict (dict_update cancer_data organ_data))))
      | Some _ => Raise (Exn "AttributeError" "no attribute 'update'" true)
      | None => Raise (Exn "KeyError" "'cancer_data'" true)
      end
  | _ => Raise (Exn "TypeError" "object is not subscriptable" true)
  end.

(** The body of the loop over the registry's list, for one identifier. *)
Definition organ_step (report : text) (fname : string)
    (category : option string)
    (json_report : value) (output_report : value) (items : string)
  : M value :=
  match globals_get items with
  | None =>
      emit (LogError ("Model class " ++ items ++ " not found."));;
      ret output_report
  | Some cls =>
      now <- clock;;
      emit (LogInfo ("Processing organ-specific model: " ++ cls_name cls
                     ++ " at " ++ now ++ " for " ++ str_of category
                     ++ " cancer for " ++ fname));;
      try_except
        (emit (ExtractorCall (cls_name cls) report json_report);;
         organ_response <- backend (predict cls report json_report);;
         organ_data <- lift (dump_prediction_plain organ_response);;
         lift (update_cancer_data output_report organ_data))
        (fun e =>
           emit (LogError ("Error processing " ++ cls_name cls ++ ": "
                           ++ exc_msg e));;
           ret output_report)
  end.

(** [for items in ids: ...] *)
Fixpoint fan_out (report : text) (fname : string) (category : option string)
    (json_report : value) (ids : list string) (output_report : value)
  : M value :=
  match ids with
  | [] => ret output_report
  | items :: rest =>
      output_report' <-
        organ_step report fname category json_report output_report items;;
      fan_out report fname category json_report rest output_report'
  end.

(** [CancerPipeline.forward], over the registry [reg]. *)
Definition forward_with (reg : registry) (report : text) (fname : string)
  : M value :=
  emit (Print ("Processing report: " ++ fname));;
  emit (LogInfo ("Processing report: " ++ fname));;
  let paragraphs := paragraphs_of report in
  emit (ClassifierCall paragraphs);;
  context_response <- backend (analyzer_is_cancer paragraphs);;
  if cancer_excision_report context_response then
    let output_report := eligible_report context_response in
    let category := cancer_category context_response in
    emit (LogInfo "This is a cancer excision report.");;
    (if opt_is category "others" then
       emit (LogInfo ("Cancer category is "
                      ++ str_of (cancer_category_others_description
                                   context_response)
                      ++ ", Currently not implemented."))
     else if opt_truthy category then
       emit (LogInfo ("Cancer category is " ++ str_of category ++ "."))
     else ret tt);;
    json_report <-
      try_except
        (emit (JsonizeCall paragraphs category);;
         backend (jsonize paragraphs category))
        (fun _ => ret (VDict []));;
    fan_out report fname category json_report
            (registry_get reg category) output_report
  else
    emit (LogInfo "This is NOT a cancer excision report.");;
    let output_report := not_eligible_report in
    emit (PrintJson output_report);;
    ret output_report.

(** [CancerPipeline.forward] with the registry the module imports. *)
Definition forward : text -> string -> M value := forward_with organmodels.

(** *** One extractor at a time

    What the loop body does with one identifier, told apart from the
    bookkeeping: the identifier does not resolve; or the call or the
    normalisation of its answer raises, an exception that the handler
    catches or one that leaves the loop; or a normalised result is merged. *)
Inductive attempt : Type :=
| Unresolved (items : string)
| Failed (cls : signature) (e : exn)
| Aborted (cls : signature) (e : exn)
| Merged (cls : signature) (organ_data : dict).

(** What an exception raised inside the [try] makes of the attempt. *)
Definition raised (cls : signature) (e : exn) : attempt :=
  if is_exception e then Failed cls e else Aborted cls e.

Definition attempt_of (report : text) (json_report : value)
    (items : string) (w : world) : attempt * world :=
  match globals_get items with
  | None => (Unresolved items, w)
  | Some cls =>
      match predict cls report json_report w with
      | (Raise e, w') => (raised cls e, w')
      | (Ok organ_response, w') =>
          match dump_prediction_plain organ_response with
          | Raise e => (raised cls e, w')
          | Ok organ_data => (Merged cls organ_data, w')
          end
      end
  end.

Definition is_aborted (a : attempt) : bool :=
  match a with Aborted _ _ => true | _ => false end.

(** The attempts over a list of identifiers, each from the world the
    previous one left, up to the one that leaves the loop. *)
Fixpoint attempts (report : text) (json_report : value)
    (ids : list string) (w : world) : list attempt * world :=
  match ids with
  | [] => ([], w)
  | items :: rest =>
      let (a, w') := attempt_of report json_report items w in
      if is_aborted a then ([a], w')
      else let (l, w'') := attempts report json_report rest w' in
           (a :: l, w'')
  end.

(** The exception that left the loop, if one did. *)
Fixpoint interruption (l : list attempt) : option exn :=
  match l with
  | [] => None
  | Aborted _ e :: _ => Some e
  | _ :: rest => interruption rest
  end.

Definition merged_data (a : attempt) : dict :=
  match a with
  | Merged _ organ_data => organ_data
  | _ => []
  end.

(** The union, in list order, of what the successful attempts produced. *)
Definition merge_all (data : dict) (l : list attempt) : dict :=
  fold_left (fun acc a => dict_update acc (merged_data a)) l data.

(** The normalised results of the successful attempts, in order. *)
Definition successes (l : list attempt) : list dict :=
  flat_map (fun a => match a with Merged _ d => [d] | _ => [] end) l.

(** [a] is an attempt at the identifier [items]. *)
Definition attempt_for (items : string) (a : attempt) : Prop :=
  match a with
  | Unresolved i => i = items /\ globals_get items = None
  | Failed cls _ | Aborted cls _ | Merged cls _ =>
      globals_get items = Some cls
  end.

(** The error an attempt leaves in the log: the handler logs what it
    catches. *)
Definition failure_log (a : attempt) : list event :=
  match a with
  | Unresolved items =>
      [LogError ("Model class " ++ items ++ " not found.")]
  | Failed cls e =>
      [LogError ("Error processing " ++ cls_name cls ++ ": " ++ exc_msg e)]
  | Aborted _ _ | Merged _ _ => []
  end.

(** The backend call an attempt makes. *)
Definition attempt_call (report : text) (json_report : value)
    (a : attempt) : list event :=
  match a with
  | Unresolved _ => []
  | Failed cls _ | Aborted cls _ | Merged cls _ =>
      [ExtractorCall (cls_name cls) report json_report]
  end.

(** Everything an attempt leaves in the trace, [w] being the world before
    the call. *)
Definition attempt_events (report : text) (fname : string)
    (category : option string)
    (json_report : value) (a : attempt) (w : world) : list event :=
  match a with
  | Unresolved _ => []
  | Failed cls _ | Aborted cls _ | Merged cls _ =>
      [LogInfo ("Processing organ-specific model: " ++ cls_name cls
                ++ " at " ++ strftime w ++ " for " ++ str_of category
                ++ " cancer for " ++ fname);
       ExtractorCall (cls_name cls) report json_report]
  end ++ failure_log a.

(** The trace of the whole loop. *)
Fixpoint fan_out_trace (report : text) (fname : string)
    (category : option string)
    (json_report : value) (ids : list string) (w : world) : list event :=
  match ids with
  | [] => []
  | items :: rest =>
      let (a, w') := attempt_of report json_report items w in
      attempt_events report fname category json_report a w
      ++ (if is_aborted a then []
          else fan_out_trace report fname category json_report rest w')
  end.

(** What [forward] does before it has a classification. *)
Definition prologue (report : text) (fname : string) : list event :=
  [Print ("Processing report: " ++ fname);
   LogInfo ("Processing report: " ++ fname);
   ClassifierCall (paragraphs_of report)].

(** The lines logged about the category of an eligible report. *)
Definition category_log (c : classification) : list event :=
  LogInfo "This is a cancer excision report."
  :: (if opt_is (cancer_category c) "others" then
        [LogInfo ("Cancer category is "
                  ++ str_of (cancer_category_others_description c)
                  ++ ", Currently not implemented.")]
      else if opt_truthy (cancer_category c) then
        [LogInfo ("Cancer category is " ++ str_of (cancer_category c) ++ ".")]
      else []).

(** The structuring stage seen from the fan-out: the document the
    extractors receive and the world they start from, or the exception
    that the handler does not catch. *)
Definition structuring (paragraphs : list text) (category : option string)
    (w : world) : result value * world :=
  match jsonize paragraphs category w with
  | (Ok json_report, w') => (Ok json_report, w')
  | (Raise e, w') =>
      if is_exception e then (Ok (VDict []), w') else (Raise e, w')
  end.

(** What the loop returns after the attempts [l], from the document of the
    classification [c] whose [cancer_data] held [data]: the exception that
    left the loop, or the document with everything merged. *)
Definition fan_out_result (c : classification) (data : dict)
    (l : list attempt) : result value :=
  match interruption l with
  | Some e => Raise e
  | None => Ok (document_with c (merge_all data l))
  end.

End Orchestrator.

Unset Implicit Arguments.

(** ** The extended normaliser, [dump_prediction] *)

(** [try: return convert(x) / except Exception: pass], then [return x]. *)
Definition converted_or (x : value) (r : result value) : result value :=
  match r with
  | Ok v => Ok v
  | Raise e => if is_exception e then Ok x else Raise e
  end.

(** The value [make] builds from what a conversion returns. *)
Definition result_map {A} (make : A -> value) (r : result A) : result value :=
  match r with
  | Ok a => Ok (make a)
  | Raise e => Raise e
  end.

Section ExtendedNormaliser.

(** Conversions of the Python library, applied to the object itself; each
    may raise. *)
Variable isoformat : value -> result string.       (* x.isoformat() *)
Variable to_float : value -> result spec_float.    (* float(x) *)
Variable to_int : value -> result Z.               (* int(x) *)
Variable tolist : value -> result value.           (* x.tolist() *)

(** [_to_json_safe].  The date and decimal conversions are outside any
    [try]; the numpy ones are inside the one that guards the import.  An
    object of a numpy class exists only where numpy can be imported, so the
    import itself does not raise for it. *)
Definition _to_json_safe (x : value) : result value :=
  match x with
  | VObject ClsDatetime _ _ | VObject ClsDate _ _ =>
      result_map VStr (isoformat x)
  | VObject ClsDecimal _ _ => result_map VFloat (to_float x)
  | VObject ClsNpInteger _ _ => converted_or x (result_map VInt (to_int x))
  | VObject ClsNpFloating _ _ =>
      converted_or x (result_map VFloat (to_float x))
  | VObject ClsNdarray _ _ => converted_or x (tolist x)
  | _ => Ok x
  end.

(** The keyword arguments, passed on unchanged to every recursive call.
    The predicate is a Python callable: it may raise. *)
Variable exclude_private : bool.
Variable exclude_keys : list string.
Variable custom_predicate : option (pykey -> value -> result bool).

(** [k in exclude_keys] *)
Definition in_exclude_keys (k : pykey) : bool :=
  match k with
  | KStr s => existsb (String.eqb s) exclude_keys
  | _ => false
  end.

(** [isinstance(k, str) and k.startswith("_")] *)
Definition is_private (k : pykey) : bool :=
  match k with
  | KStr s => PyStr.startswith "_" s
  | _ => false
  end.

(** [custom_predicate and not custom_predicate(k, v)] *)
Definition vetoed (k : pykey) (v : value) : result bool :=
  match custom_predicate with
  | Some p =>
      match p k v with
      | Ok b => Ok (negb b)
      | Raise e => Raise e
      end
  | None => Ok false
  end.

(** The three [continue] tests of the loop over a Prediction's store, in
    the order of the code: the predicate is called only for an entry the
    first two let through. *)
Definition store_entry_skipped (k : pykey) (v : value) : result bool :=
  if in_exclude_keys k then Ok true
  else if exclude_private && is_private k then Ok true
  else vetoed k v.

(** The tests of the loop over a dict: made for string keys only. *)
Definition dict_entry_skipped (k : pykey) (v : value) : result bool :=
  match k with
  | KStr _ => store_entry_skipped k v
  | _ => Ok false
  end.

(** [out = {}; for k, v in items: if skipped: continue; out[k] = f(v)] *)
Definition dict_loop
    (skipped : pykey -> value -> result bool) (f : value -> result value)
  : list (pykey * value) -> dict -> result dict :=
  fix go (items : list (pykey * value)) (out : dict) : result dict :=
    match items with
    | [] => Ok out
    | (k, v) :: rest =>
        match skipped k v with
        | Raise e => Raise e
        | Ok true => go rest out
        | Ok false =>
            match f v with
            | Raise e => Raise e
            | Ok v' => go rest (dict_set out k v')
            end
        end
    end.

Fixpoint dump_prediction (obj : value) : result value :=
  match obj with
  | VNone | VBool _ | VInt _ | VFloat _ | VStr _ => Ok obj
  | VPrediction store =>
      match dict_loop store_entry_skipped dump_prediction store [] with
      | Ok out => Ok (VDict out)
      | Raise e => Raise e
      end
  | VDict items =>
      (* isinstance(obj, dict) *)
      match dict_loop dict_entry_skipped dump_prediction items [] with
      | Ok out => Ok (VDict out)
      | Raise e => Raise e
      end
  | VList elems | VTuple elems | VSet elems =>
      match list_comprehension dump_prediction elems with
      | Ok l => Ok (VList l)
      | Raise e => Raise e
      end
  | VMapping _ calls =>
      (* not a dict: left to the exports and the fallback *)
      try_exports dump_prediction calls (_to_json_safe obj) ["to_dict"; "dict"]
  | VObject cls _ calls =>
      let exported :=
        (* for meth in ("to_dict", "dict"): try ... except Exception: pass *)
        try_exports dump_prediction calls (_to_json_safe obj)
                    ["to_dict"; "dict"] in
      match cls with
      | ClsBaseModel =>
          (* obj.model_dump() if hasattr(obj, "model_dump") else obj.dict(),
             then the recursive call, inside a try *)
          let dumped :=
            match call_then dump_prediction "model_dump" calls with
            | Some r => r
            | None =>
                match call_then dump_prediction "dict" calls with
                | Some r => r
                | None => Raise no_dict_error
                end
            end in
          match dumped with
          | Ok r => Ok r
          | Raise e => if is_exception e then exported else Raise e
          end
      | ClsDataclass =>
          (* dump_prediction(asdict(obj)), outside any try *)
          match call_then dump_prediction "asdict" calls with
          | Some r => r
          | None => Raise asdict_error
          end
      | _ => exported
      end
  end.

(** [obj] is matched by none of the rules before the fallback: it is an
    object, not a dataclass instance, and none of its exports gives a
    result. *)
Definition unmatched (obj : value) : Prop :=
  match obj with
  | VObject cls _ calls =>
      cls <> ClsDataclass
      /\ (cls = ClsBaseModel -> export_fails dump_prediction "model_dump" calls)
      /\ export_fails dump_prediction "to_dict" calls
      /\ export_fails dump_prediction "dict" calls
  | _ => False
  end.

End ExtendedNormaliser.

(** ** A backend to run the orchestrator on

    The world counts the calls made.  The classifier answers [answer]; the
    structuring call answers a document or raises [failure]; the globals
    hold five extractors: [A] and [B] both give a [margin], [X] gives a
    grade, [Y] raises a backend error and [K] is interrupted from the
    keyboard. *)
Module Scenario.

Definition world : Type := nat.

Definition signature : Type := string.

Definition cls_name (cls : signature) : string := cls.

Definition analyzer_is_cancer (answer : result classification)
    (paragraphs : list text) (w : world) : result classification * world :=
  (answer, S w).

Definition backend_error : exn := Exn "BackendError" "no answer" true.

Definition keyboard_interrupt : exn := Exn "KeyboardInterrupt" "" false.

Definition jsonize (failure : option exn) (paragraphs : list text)
    (category : option string) (w : world) : result value * world :=
  match failure with
  | Some e => (Raise e, S w)
  | None => (Ok (VDict [(KStr "diagnosis", VStr "carcinoma")]), S w)
  end.

Definition known : list string := ["A"; "B"; "X"; "Y"; "K"].

Definition globals_get (items : string) : option signature :=
  if existsb (String.eqb items) known then Some items else None.

Definition predict (cls : signature) (report : text) (json_report : value)
    (w : world) : result value * world :=
  if String.eqb cls "A" then
    (Ok (VPrediction [(KStr "margin", VStr "free"); (KStr "size", VInt 12)]), S w)
  else if String.eqb cls "B" then
    (Ok (VPrediction [(KStr "margin", VStr "involved")]), S w)
  else if String.eqb cls "X" then
    (Ok (VPrediction [(KStr "grade", VInt 2)]), S w)
  else if String.eqb cls "K" then (Raise keyboard_interrupt, S w)
  else (Raise (Exn "BackendError" "timeout" true), S w).

Definition strftime (w : world) : string := "2025-10-05 12:00:00".

Definition reg : registry :=
  [("breast", ["X"; "Y"]); ("lung", ["A"; "B"]); ("liver", ["Missing"; "X"]);
   ("thyroid", ["X"; "K"; "A"])].

Definition start : state world := State 0 [].

(** [forward] on this backend. *)
Definition run (answer : result classification)
    (structuring_failure : option exn)
    (r : registry) (report : text) : result value * state world :=
  forward_with cls_name (analyzer_is_cancer answer)
               (jsonize structuring_failure)
               globals_get predict strftime r report "report-1" start.

Definition not_eligible : classification := Classification false None None.

Definition breast : classification := Classification true (Some "breast") None.

Definition thyroid : classification := Classification true (Some "thyroid") None.

Definition lung_described : classification :=
  Classification true (Some "lung") (Some "left upper lobe").

Definition others_undescribed : classification :=
  Classification true (Some "others") None.

(** The library conversions, for the extended normaliser: the text that
    identifies an object is taken to be its ISO text, and a decimal whose
    text is [sNaN] is a signalling NaN, which [float] refuses. *)
Definition isoformat (x : value) : result string :=
  match x with VObject _ ident _ => Ok ident | _ => Ok EmptyString end.

Definition snan_error : exn :=
  Exn "ValueError" "cannot convert signaling NaN to float" true.

Definition to_float (x : value) : result spec_float :=
  match x with
  | VObject ClsDecimal ident _ =>
      if String.eqb ident "sNaN" then Raise snan_error
      else Ok (S754_zero false)
  | _ => Ok (S754_zero false)
  end.

Definition to_int (x : value) : result Z := Ok 0%Z.

Definition tolist (x : value) : result value := Ok (VList []).

Definition a_datetime : value := VObject ClsDatetime "2025-10-05T12:00:00" [].

Definition a_signalling_nan : value := VObject ClsDecimal "sNaN" [].

End Scenario.

(** ** Shapes of values, for the normalisers *)



(** The containers of the value are dicts and lists only: no Prediction, no
    other mapping, no tuple and no set is left.  An object is a leaf. *)
Fixpoint plain_form (v : value) : bool :=
  match v with
  | VNone | VBool _ | VInt _ | VFloat _ | VStr _ => true
  | VDict items => forallb (fun '(_, x) => plain_form x) items
  | VList elems => forallb plain_form elems
  | VPrediction _ | VMapping _ _ | VTuple _ | VSet _ => false
  | VObject _ _ _ => true
  end.


(** The entries a dict comprehension keeps, in order. *)
Definition kept_entries (excluded : pykey -> result bool)
    (items : list (pykey * value)) : list (pykey * value) :=
  filter (fun kv => match excluded (fst kv) with
                    | Ok false => true
                    | _ => false
                    end) items.

(** A structure of primitives, dicts and sequences, whatever the keys. *)
Fixpoint dict_structure (v : value) : bool :=
  match v with
  | VNone | VBool _ | VInt _ | VFloat _ | VStr _ => true
  | VDict items => forallb (fun '(_, x) => dict_structure x) items
  | VList elems | VTuple elems | VSet elems => forallb dict_structure elems
  | VPrediction _ | VMapping _ _ | VObject _ _ _ => false
  end.

(** Every key of every dict reached through the containers passes
    [key_ok].  An object is a leaf, and so is a mapping that is not a
    dict. *)
Fixpoint keys_all (key_ok : pykey -> bool) (v : value) : bool :=
  match v with
  | VNone | VBool _ | VInt _ | VFloat _ | VStr _ => true
  | VPrediction items | VDict items =>
      forallb (fun '(k, x) => key_ok k && keys_all key_ok x) items
  | VList elems | VTuple elems | VSet elems =>
      forallb (keys_all key_ok) elems
  | VMapping _ _ | VObject _ _ _ => true
  end.




(** A key that [exclude_keys] and [exclude_private] let through. *)
Definition visible_key (exclude_private : bool) (exclude_keys : list string)
    (k : pykey) : bool :=
  negb (in_exclude_keys exclude_keys k)
  && (negb exclude_private || negb (is_private k)).



(** ** [dump_many_predictions] *)

(** An iterable of predictions: a list or a tuple gives its elements every
    time it is iterated, an iterator or a generator only the first time. *)
Inductive iterable : Type :=
| Reiterable (elems : list value)
| OneShot (elems : list value).

(** What the first [for ... in preds] sees. *)
Definition first_pass (preds : iterable) : list value :=
  match preds with
  | Reiterable elems | OneShot elems => elems
  end.

(** What a second [for ... in preds] sees, after a first one that went to
    the end. *)
Definition second_pass (preds : iterable) : list value :=
  match preds with
  | Reiterable elems => elems
  | OneShot _ => []
  end.

(** The loop that fills [mapping]: [i] is the index [enumerate] gives, and
    [key_fn], a Python callable, may raise. *)
Fixpoint keyed_mapping (key_fn : value -> nat -> result (option string))
    (i : nat) (pairs : list (value * value)) (mapping : dict) : result dict :=
  match pairs with
  | [] => Ok mapping
  | (p, d) :: rest =>
      match key_fn p i with
      | Raise e => Raise e
      | Ok (Some k) => keyed_mapping key_fn (S i) rest (dict_set mapping (KStr k) d)
      | Ok None => keyed_mapping key_fn (S i) rest mapping
      end
  end.

(** [dump_many_predictions]: [dump] is [dump_prediction] with the keyword
    arguments passed on, [json_dumps] is
    [json.dumps(_, ensure_ascii=False, indent=2)], which raises on a value
    it cannot serialise.  [preds] is iterated once for the dumps and once
    more, inside [zip], for the keys. *)
Definition dump_many_predictions_with
    (dump : value -> result value) (json_dumps : value -> result string)
    (preds : iterable)
    (key_fn : option (value -> nat -> result (option string)))
  : result string :=
  match list_comprehension dump (first_pass preds) with
  | Raise e => Raise e
  | Ok dumped_list =>
      match key_fn with
      | Some kf =>
          match keyed_mapping kf 0 (combine (second_pass preds) dumped_list) []
          with
          | Raise e => Raise e
          | Ok mapping => json_dumps (VDict mapping)
          end
      | None => json_dumps (VList dumped_list)
      end
  end.

Definition dump_many_predictions
    (isoformat : value -> result string) (to_float : value -> result spec_float)
    (to_int : value -> result Z) (tolist : value -> result value)
    (exclude_private : bool) (exclude_keys : list string)
    (custom_predicate : option (pykey -> value -> result bool))
    (json_dumps : value -> result string)
  : iterable -> option (value -> nat -> result (option string))
    -> result string :=
  dump_many_predictions_with
    (dump_prediction isoformat to_float to_int tolist exclude_private
                     exclude_keys custom_predicate)
    json_dumps.

(** ** Views of a run, for the orchestrator *)

(** The classes the identifiers of a list resolve to, in list order. *)
Definition resolved {signature : Type} (globals_get : string -> option signature)
    (ids : list string) : list signature :=
  flat_map (fun items => match globals_get items with
                         | Some cls => [cls]
                         | None => []
                         end) ids.

(** ** Model loading and set-up, [models/common.py] and [pipeline.py] *)

(** The [Literal] of [ReportJsonize.cancer_category]. *)
Definition jsonize_categories : list string :=
  ["stomach"; "colorectal"; "breast"; "esophagus"; "lung"; "prostate";
   "pancreas"; "thyroid"; "cervix"; "liver"].

Definition model_list : list (string * string) :=
  [("gemma4b", "ollama_chat/gemma3:4b");
   ("gemma1b", "ollama_chat/gemma3:1b");
   ("med8b", "ollama_chat/thewindmom/llama3-med42-8b");
   ("gemma12b", "ollama_chat/gemma3:12b");
   ("gemma27b", "ollama_chat/gemma3:27b");
   ("med70b", "ollama_chat/thewindmom/llama3-med42-70b");
   ("gpt", "ollama_chat/gpt-oss:20b");
   ("phi4", "ollama_chat/phi4");
   ("qwen30b", "ollama_chat/qwen3:30b")].

Definition localaddr : string := "http://localhost:11434".

(** The float [0.7]. *)
Definition float_0_7 : spec_float := S754_finite false 6305039478318694 (-53).

(** The keyword arguments [dspy.LM] is built with. *)
Record lm : Type := LM {
  lm_model : string;
  lm_api_base : string;
  lm_api_key : string;
  lm_model_type : string;
  lm_top_p : spec_float;
  lm_max_tokens : Z;
  lm_num_ctx : Z;
  lm_temperature : spec_float;
  lm_seed : Z
}.

(** What the set-up does to the outside. *)
Inductive setup_event : Type :=
| SetupPrint (line : string)
| Configure (model : lm).          (* dspy.configure(lm=model) *)

(** [model_list.get(name)], [None] for [name not in model_list]. *)
Fixpoint model_lookup (table : list (string * string)) (name : string)
  : option string :=
  match table with
  | [] => None
  | (k, v) :: rest => if String.eqb k name then Some v else model_lookup rest name
  end.

(** [", ".join(l)] *)
Fixpoint comma_joined (l : list string) : string :=
  match l with
  | [] => EmptyString
  | [x] => x
  | x :: rest => (x ++ ", " ++ comma_joined rest)%string
  end.

(** [str(l)] of a list of strings that need no escape. *)
Definition list_repr (l : list string) : string :=
  ("[" ++ comma_joined (map (fun s => "'" ++ s ++ "'") l) ++ "]")%string.

(** [load_model]: building the [dspy.LM] is taken not to raise. *)
Definition load_model (model_name : string) (trace : list setup_event)
  : result lm * list setup_event :=
  match model_lookup model_list model_name with
  | None =>
      (Raise (Exn "ValueError"
                  ("Model " ++ model_name ++ " not found. Available models: "
                   ++ list_repr (map fst model_list)) true),
       trace)
  | Some model =>
      (Ok (LM model localaddr "" "chat" float_0_7 16384 16384 float_0_7 10),
       trace ++ [SetupPrint ("Loaded model: " ++ model_name)])
  end.

(** [autoconf_dspy] *)
Definition autoconf_dspy (model_name : string) (trace : list setup_event)
  : result unit * list setup_event :=
  match load_model model_name trace with
  | (Raise e, trace') => (Raise e, trace')
  | (Ok model, trace') => (Ok tt, trace' ++ [Configure model])
  end.

(** [setup_pipeline], [pipeline.py] *)
Definition setup_pipeline (model_name : string) (trace : list setup_event)
  : result unit * list setup_event :=
  match autoconf_dspy model_name trace with
  | (Raise e, trace') => (Raise e, trace')
  | (Ok _, trace') => (Ok tt, trace' ++ [SetupPrint "Pipeline setup complete."])
  end.

(** ** Logger set-up, [util/logger.py] *)

Inductive log_formatter : Type :=
| JsonFormatter
| ColorFormatter.

Inductive log_target : Type :=
| Console                                      (* StreamHandler(sys.stdout) *)
| RotatingFile (path : string) (max_bytes backup_count : Z).

Record log_handler : Type := LogHandler {
  h_target : log_target;
  h_formatter : log_formatter;
  h_level : Z
}.

Record logger : Type := Logger {
  lg_level : Z;
  lg_propagate : bool;
  lg_handlers : list log_handler
}.

(** The loggers of the process that were changed, by the name they are
    kept under. *)
Definition loggers : Type := list (string * logger).

(** The name [logging.getLogger] keeps a logger under: the root logger
    answers to the empty name and to its own name, [root]. *)
Definition logger_key (name : string) : string :=
  if String.eqb name "" then "root" else name.

(** A logger nobody has changed: the root logger, which exists from the
    start, has level WARNING; any other is made on first use with level
    NOTSET; both propagate and have no handler. *)
Definition untouched_logger (key : string) : logger :=
  if String.eqb key "root" then Logger 30 true [] else Logger 0 true [].

Fixpoint find_logger (key : string) (reg : loggers) : option logger :=
  match reg with
  | [] => None
  | (n, l) :: rest => if String.eqb n key then Some l else find_logger key rest
  end.

(** [logging.getLogger(name)] *)
Definition get_logger (name : string) (reg : loggers) : logger :=
  match find_logger (logger_key name) reg with
  | Some l => l
  | None => untouched_logger (logger_key name)
  end.

Fixpoint store_logger (key : string) (l : logger) (reg : loggers) : loggers :=
  match reg with
  | [] => [(key, l)]
  | (n, l') :: rest =>
      if String.eqb n key then (n, l) :: rest
      else (n, l') :: store_logger key l rest
  end.

(** The logger of that name after it was changed. *)
Definition put_logger (name : string) (l : logger) (reg : loggers) : loggers :=
  store_logger (logger_key name) l reg.

(** [setup_logger]: opening the log file is taken not to raise.  The
    logger returned is [get_logger name] of the result. *)
Definition setup_logger (name : string) (level : Z) (log_file : option string)
    (max_bytes backup_count : Z) (json_format : bool) (reg : loggers)
  : loggers :=
  let existing := get_logger name reg in
  match lg_handlers existing with
  | _ :: _ => put_logger name (Logger level false (lg_handlers existing)) reg
  | [] =>
      let formatter := if json_format then JsonFormatter else ColorFormatter in
      let ch := LogHandler Console formatter level in
      let fhs :=
        match log_file with
        | Some path =>
            if PyStr.truthy path
            then [LogHandler (RotatingFile path max_bytes backup_count)
                             formatter level]
            else []
        | None => []
        end in
      put_logger name (Logger level false (ch :: fhs)) reg
  end.

(** ** Timing and the batch driver, [pipeline.py] and [experiment.py] *)

(** A file that [Path(input_folder).glob("*.txt")] yields: its name, its
    stem, and what reading it gives. *)
Record txt_file : Type := TxtFile {
  f_name : string;
  f_stem : string;
  f_read : result text
}.

(** What the driver does to the output folder. *)
Inductive file_event : Type :=
| Opened (path : string)                 (* open(path, "w") *)
| Dumped (path : string) (doc : value).  (* json.dump(doc, f, ...) returned *)

Definition dumped_path (e : file_event) : list string :=
  match e with
  | Dumped path _ => [path]
  | Opened _ => []
  end.

(** How often the classifier was called. *)
Definition classifier_calls (trace : list event) : nat :=
  length (filter is_classifier_call trace).

Section Batch.

Set Implicit Arguments.

Variable world : Type.
Variable signature : Type.
Variable cls_name : signature -> string.
Variable analyzer_is_cancer :
  list text -> world -> result classification * world.
Variable jsonize :
  list text -> option string -> world -> result value * world.
Variable globals_get : string -> option signature.
Variable predict :
  signature -> text -> value -> world -> result value * world.
Variable strftime : world -> string.
(** [time.perf_counter()] *)
Variable perf_counter : world -> spec_float.
(** [str(x)] of a float, for the f-string *)
Variable float_str : spec_float -> string.
(** [os.path.join] *)
Variable path_join : string -> string -> string.
(** [open(path, "w", encoding="utf-8")] *)
Variable open_write : string -> result unit.
(** [json.dump(doc, f, ensure_ascii=False, indent=2)] *)
Variable json_dump : value -> result unit.

(** [timeit]: the floats are binary64. *)
Definition timeit (A : Type) (func : M world A) : M world (A * spec_float) :=
  fun st =>
    let start_time := perf_counter (st_world st) in
    match func st with
    | (Ok r, st') =>
        let end_time := perf_counter (st_world st') in
        (Ok (r, SFsub 53 1024 end_time start_time), st')
    | (Raise e, st') => (Raise e, st')
    end.

(** [run_cancer_pipeline], through [run_pipeline] *)
Definition run_cancer_pipeline (report : text) (fname : string)
  : M world (value * spec_float) :=
  timeit (forward cls_name analyzer_is_cancer jsonize globals_get predict
                  strftime report fname).

Definition log_info (line : string) (st : state world) : state world :=
  State (st_world st) (st_trace st ++ [LogInfo line]).

(** [run_folder], over the files the glob yields. *)
Fixpoint run_folder (output_folder : string) (files : list txt_file)
    (st : state world) (fs : list file_event)
  : result unit * (state world * list file_event) :=
  match files with
  | [] => (Ok tt, (st, fs))
  | file :: rest =>
      let st1 := log_info ("Processing file: " ++ f_name file) st in
      match f_read file with
      | Raise e => (Raise e, (st1, fs))
      | Ok report =>
          match run_cancer_pipeline report (f_stem file) st1 with
          | (Raise e, st2) => (Raise e, (st2, fs))
          | (Ok (output, elapsed_time), st2) =>
              let st3 :=
                log_info ("Processed " ++ f_name file ++ " in "
                          ++ float_str elapsed_time ++ " seconds.") st2 in
              let output_file :=
                path_join output_folder (f_stem file ++ "_output.json") in
              match open_write output_file with
              | Raise e => (Raise e, (st3, fs))
              | Ok _ =>
                  match json_dump output with
                  | Raise e => (Raise e, (st3, fs ++ [Opened output_file]))
                  | Ok _ =>
                      run_folder output_folder rest
                        (log_info ("Output saved to: " ++ output_file) st3)
                        (fs ++ [Opened output_file; Dumped output_file output])
                  end
              end
          end
      end
  end.

End Batch.

Unset Implicit Arguments.

(** A folder of three files, the second of which cannot be read, driven on
    the scenario backend. *)
Definition scenario_files : list txt_file :=
  [TxtFile "a.txt" "a" (Ok example_report);
   TxtFile "b.txt" "b"
           (Raise (Exn "UnicodeDecodeError" "invalid start byte" true));
   TxtFile "c.txt" "c" (Ok example_report)].

Definition scenario_run_folder (files : list txt_file)
  : result unit * (state Scenario.world * list file_event) :=
  run_folder Scenario.cls_name
             (Scenario.analyzer_is_cancer (Ok Scenario.not_eligible))
             (Scenario.jsonize None) Scenario.globals_get Scenario.predict
             Scenario.strftime
             (fun w => S754_zero false) (fun x => "0.0")
             (fun folder name => (folder ++ "/" ++ name)%string)
             (fun path => Ok tt) (fun doc => Ok tt)
             "out" files Scenario.start [].

(** * Properties *)

(** ** Strings and paragraphs *)

Module PyStrFacts.
Import PyStr.

Lemma split_from_two (cur : text) (c c' : N) (rest : text) :
  split_from cur (c :: c' :: rest)
  = if is_newline c && is_newline c'
    then cur :: split_from [] rest
    else split_from (cur ++ [c]) (c' :: rest).
Proof. reflexivity. Qed.

Lemma split_from_not_nil (s cur : text) : split_from cur s <> [].
Proof.
  revert cur. induction s as [|c s IH]; intros cur; [discriminate|].
  destruct s as [|c' rest]; [discriminate|].
  rewrite split_from_two.
  destruct (is_newline c && is_newline c'); [discriminate | apply IH].
Qed.

Lemma join_cons (sep x : text) (l : list text) :
  l <> [] -> join sep (x :: l) = x ++ sep ++ join sep l.
Proof. destruct l; [congruence | reflexivity]. Qed.

Lemma join_cons_char (sep : text) (c : N) (x : text) (l : list text) :
  join sep ((c :: x) :: l) = c :: join sep (x :: l).
Proof. destruct l; reflexivity. Qed.

Lemma is_newline_eq (c : N) : is_newline c = true -> c = newline.
Proof. apply N.eqb_eq. Qed.

(** Splitting loses nothing: the pieces joined by the separator are the
    text again. *)
Lemma split_from_join_bounded (n : nat) :
  forall s cur, length s <= n ->
    join blank_line (split_from cur s) = cur ++ s.
Proof.
  induction n as [|n IH]; intros s cur Hlen.
  - destruct s; simpl in *; [now rewrite app_nil_r | lia].
  - destruct s as [|c [|c' rest]].
    + simpl. now rewrite app_nil_r.
    + reflexivity.
    + rewrite split_from_two. simpl in Hlen.
      destruct (is_newline c && is_newline c') eqn:E.
      * apply andb_true_iff in E as [E1 E2].
        apply is_newline_eq in E1, E2. subst c c'.
        rewrite join_cons by apply split_from_not_nil.
        rewrite (IH rest []) by lia. reflexivity.
      * rewrite (IH (c' :: rest)) by (simpl; lia).
        rewrite <- app_assoc. reflexivity.
Qed.

Lemma ends_with_newline_snoc (cur : text) (c : N) :
  ends_with_newline (cur ++ [c]) = is_newline c.
Proof.
  induction cur as [|a cur IH]; [reflexivity|].
  destruct cur as [|b cur]; [reflexivity | exact IH].
Qed.

Lemma contains_blank_cons2 (a b : N) (s : text) :
  contains_blank (a :: b :: s)
  = (is_newline a && is_newline b) || contains_blank (b :: s).
Proof. reflexivity. Qed.

Lemma contains_blank_snoc (cur : text) (c : N) :
  contains_blank (cur ++ [c])
  = contains_blank cur || (ends_with_newline cur && is_newline c).
Proof.
  induction cur as [|a cur IH]; [reflexivity|].
  destruct cur as [|b cur].
  - simpl. now rewrite orb_false_r.
  - change (((a :: b :: cur) ++ [c])) with (a :: b :: (cur ++ [c])).
    rewrite contains_blank_cons2.
    change (b :: cur ++ [c]) with ((b :: cur) ++ [c]).
    rewrite IH, contains_blank_cons2.
    change (ends_with_newline (a :: b :: cur))
      with (ends_with_newline (b :: cur)).
    now rewrite orb_assoc.
Qed.

(** Two characters that follow one another in a text without a blank line
    are not both newlines. *)
Lemma contains_blank_inside (cur : text) (c c' : N) (s : text) :
  contains_blank (cur ++ c :: c' :: s) = false ->
  is_newline c && is_newline c' = false.
Proof.
  induction cur as [|a cur IH]; intros H.
  - simpl app in H. rewrite contains_blank_cons2 in H.
    now apply orb_false_iff in H.
  - destruct cur as [|b cur].
    + simpl app in H, IH. rewrite contains_blank_cons2 in H.
      apply orb_false_iff in H as [_ H]. now apply IH.
    + change ((a :: b :: cur) ++ c :: c' :: s)
        with (a :: b :: (cur ++ c :: c' :: s)) in H.
      rewrite contains_blank_cons2 in H.
      apply orb_false_iff in H as [_ H]. now apply IH.
Qed.

(** No piece of the split has a blank line inside. *)
Lemma split_from_no_blank_bounded (n : nat) :
  forall s cur, length s <= n ->
    contains_blank cur = false ->
    (ends_with_newline cur = true -> starts_with_newline s = false) ->
    Forall (fun piece => contains_blank piece = false) (split_from cur s).
Proof.
  induction n as [|n IH]; intros s cur Hlen Hcur Hend.
  - destruct s; simpl in *; [repeat constructor; assumption | lia].
  - destruct s as [|c [|c' rest]].
    + repeat constructor. assumption.
    + repeat constructor. rewrite contains_blank_snoc, Hcur. simpl.
      destruct (ends_with_newline cur); [|reflexivity].
      simpl in Hend. now rewrite Hend.
    + rewrite split_from_two. simpl in Hlen.
      destruct (is_newline c && is_newline c') eqn:E.
      * constructor; [assumption|].
        apply IH; [lia | reflexivity | discriminate].
      * apply IH; [simpl; lia | |].
        -- rewrite contains_blank_snoc, Hcur. simpl.
           destruct (ends_with_newline cur); [|reflexivity].
           simpl in Hend. now rewrite Hend.
        -- rewrite ends_with_newline_snoc. intros Hc. simpl.
           rewrite Hc in E. exact E.
Qed.

Lemma split_blank_no_blank (s : text) :
  Forall (fun piece => contains_blank piece = false) (split_blank s).
Proof.
  apply (split_from_no_blank_bounded (length s));
    [lia | reflexivity | discriminate].
Qed.

Lemma split_blank_join (s : text) :
  join blank_line (split_blank s) = s.
Proof. apply (split_from_join_bounded (length s)); lia. Qed.

Lemma inner_pieces_closed_cons (piece : text) (rest : list text) :
  rest <> [] ->
  inner_pieces_closed (piece :: rest)
  <-> ends_with_newline piece = false /\ inner_pieces_closed rest.
Proof. destruct rest; [congruence | reflexivity]. Qed.

(** No piece of the split but the last ends with a newline. *)
Lemma split_from_closed_bounded (n : nat) :
  forall s cur, length s <= n ->
    (ends_with_newline cur = true -> starts_with_newline s = false) ->
    inner_pieces_closed (split_from cur s).
Proof.
  induction n as [|n IH]; intros s cur Hlen Hend.
  - destruct s; simpl in *; [exact I | lia].
  - destruct s as [|c [|c' rest]]; [exact I | exact I |].
    rewrite split_from_two. simpl in Hlen.
    destruct (is_newline c && is_newline c') eqn:E.
    + apply inner_pieces_closed_cons; [apply split_from_not_nil|].
      split; [|apply IH; [lia | discriminate]].
      apply andb_true_iff in E as [E1 _].
      destruct (ends_with_newline cur); [|reflexivity].
      simpl in Hend. rewrite Hend in E1 by reflexivity. discriminate.
    + apply IH; [simpl; lia|].
      rewrite ends_with_newline_snoc. intros Hc. simpl.
      rewrite Hc in E. exact E.
Qed.

Lemma split_blank_closed (s : text) :
  inner_pieces_closed (split_blank s).
Proof. apply (split_from_closed_bounded (length s)); [lia | discriminate]. Qed.

Lemma join_nil_inv (sep : text) (p : text) (rest : list text) :
  sep <> [] -> join sep (p :: rest) = [] -> p = [] /\ rest = [].
Proof.
  intros Hsep H. destruct rest as [|q rest].
  - simpl in H. now split.
  - rewrite join_cons in H by discriminate.
    apply app_eq_nil in H as [_ H]. apply app_eq_nil in H as [H _].
    congruence.
Qed.

(** A list of pieces without a blank line inside, none but the last ending
    with a newline, is what the split of their join gives. *)
Lemma split_from_of_join (rest : list text) :
  forall p cur,
    contains_blank (cur ++ p) = false ->
    (rest <> [] -> ends_with_newline (cur ++ p) = false) ->
    Forall (fun piece => contains_blank piece = false) rest ->
    inner_pieces_closed rest ->
    split_from cur (join blank_line (p :: rest)) = (cur ++ p) :: rest.
Proof.
  induction rest as [|q rest IHrest]; intros p.
  - induction p as [|c p IHp]; intros cur Hb He _ _.
    + simpl. now rewrite app_nil_r.
    + change (join blank_line [c :: p]) with (c :: p).
      destruct p as [|c' s']; [reflexivity|].
      rewrite split_from_two.
      rewrite (contains_blank_inside cur c c' s' Hb).
      change (c' :: s') with (join blank_line [c' :: s']).
      rewrite IHp.
      * now rewrite <- app_assoc.
      * now rewrite <- app_assoc.
      * congruence.
      * constructor.
      * exact I.
  - induction p as [|c p IHp]; intros cur Hb He Hall Hclosed.
    + rewrite join_cons by discriminate.
      change ([] ++ blank_line ++ join blank_line (q :: rest))
        with (newline :: newline :: join blank_line (q :: rest)).
      rewrite split_from_two. simpl andb. cbv iota.
      rewrite app_nil_r. f_equal.
      inversion Hall as [|? ? Hq Hrest]; subst.
      change (q :: rest) with (([] ++ q) :: rest).
      apply IHrest; simpl; try assumption.
      * intros Hne. destruct rest as [|q' rest']; [congruence|].
        apply Hclosed.
      * destruct rest as [|q' rest']; [exact I | apply Hclosed].
    + rewrite join_cons_char. unfold text in *.
      destruct (join blank_line (p :: q :: rest)) as [|c' s'] eqn:Ej.
      * apply join_nil_inv in Ej as [_ Ej]; [discriminate | discriminate].
      * rewrite split_from_two.
        assert (Hcc : is_newline c && is_newline c' = false).
        { destruct p as [|c0 p0].
          - rewrite join_cons in Ej by discriminate. simpl in Ej.
            injection Ej as <- _.
            specialize (He ltac:(discriminate)).
            rewrite ends_with_newline_snoc in He. rewrite He. reflexivity.
          - rewrite join_cons_char in Ej. injection Ej as <- _.
            exact (contains_blank_inside cur c c0 p0 Hb). }
        rewrite Hcc, IHp.
        -- now rewrite <- app_assoc.
        -- now rewrite <- app_assoc.
        -- now rewrite <- app_assoc.
        -- assumption.
        -- assumption.
Qed.

(** *** Trimming *)

(** [str.isspace] holds of the whitespace characters and of no other. *)
Lemma is_space_whitespace (c : N) : is_space c = is_whitespace c.
Proof.
  apply eq_true_iff_eq.
  unfold is_space, is_whitespace, whitespace_points.
  cbn [existsb].
  rewrite !orb_true_iff, !andb_true_iff, !N.leb_le, !N.eqb_eq.
  split; intros H; lia.
Qed.

Lemma all_space_cons (c : N) (s : text) :
  all_space (c :: s) = is_space c && all_space s.
Proof. unfold all_space. simpl. now rewrite is_space_whitespace. Qed.

Lemma lstrip_app_space (a s : text) :
  all_space a = true -> lstrip (a ++ s) = lstrip s.
Proof.
  induction a as [|c a IH]; intros H; [reflexivity|].
  rewrite all_space_cons in H.
  apply andb_true_iff in H as [Hc Ha]. simpl. rewrite Hc. now apply IH.
Qed.

Lemma lstrip_decomposition (s : text) :
  exists a, s = a ++ lstrip s /\ all_space a = true.
Proof.
  induction s as [|c s (a & Hs & Ha)]; [now exists []|].
  simpl. destruct (is_space c) eqn:E.
  - exists (c :: a). rewrite all_space_cons, E, Ha.
    split; [simpl; congruence | reflexivity].
  - now exists [].
Qed.

Lemma lstrip_head (s : text) :
  lstrip s = []
  \/ exists c r, lstrip s = c :: r /\ is_space c = false.
Proof.
  induction s as [|c s IH]; simpl; [now left|].
  destruct (is_space c) eqn:E; [exact IH | right; eauto].
Qed.

Lemma rstrip_keeps_head (c : N) (r : text) :
  is_space c = false -> rstrip (c :: r) = c :: rstrip r.
Proof. intros H. simpl. rewrite H. now destruct (rstrip r). Qed.

Lemma rstrip_cons (c : N) (r : text) :
  rstrip (c :: r)
  = match rstrip r with
    | [] => if is_space c then [] else [c]
    | r' => c :: r'
    end.
Proof. reflexivity. Qed.

Lemma rstrip_all_space (b : text) : all_space b = true -> rstrip b = [].
Proof.
  induction b as [|c b IH]; intros H; [reflexivity|].
  rewrite all_space_cons in H. apply andb_true_iff in H as [Hc Hb].
  rewrite rstrip_cons, IH, Hc by assumption. reflexivity.
Qed.

Lemma rstrip_nil_all_space (s : text) : rstrip s = [] -> all_space s = true.
Proof.
  induction s as [|c s IH]; intros H; [reflexivity|].
  rewrite rstrip_cons in H. destruct (rstrip s) eqn:E; [|discriminate].
  destruct (is_space c) eqn:Hc; [|discriminate].
  rewrite all_space_cons, Hc. now apply IH.
Qed.

Lemma rstrip_app_space (s b : text) :
  all_space b = true -> rstrip (s ++ b) = rstrip s.
Proof.
  intros Hb. induction s as [|c s IH].
  - simpl app. rewrite rstrip_all_space by assumption. reflexivity.
  - change ((c :: s) ++ b) with (c :: (s ++ b)).
    now rewrite !rstrip_cons, IH.
Qed.

Lemma rstrip_ends_nonspace (r : text) (c : N) :
  is_space c = false -> rstrip (r ++ [c]) = r ++ [c].
Proof.
  intros Hc. induction r as [|a r IH].
  - simpl. now rewrite Hc.
  - change ((a :: r) ++ [c]) with (a :: (r ++ [c])).
    rewrite rstrip_cons, IH. now destruct r.
Qed.

Lemma rstrip_decomposition (s : text) :
  exists b, s = rstrip s ++ b /\ all_space b = true.
Proof.
  induction s as [|c s (b & Hs & Hb)]; [now exists []|].
  rewrite rstrip_cons. destruct (rstrip s) as [|a r'] eqn:E.
  - destruct (is_space c) eqn:Hc.
    + exists (c :: s). split; [reflexivity|].
      rewrite all_space_cons, Hc. simpl in Hs. subst s. exact Hb.
    + exists b. split; [|exact Hb]. simpl in *. congruence.
  - exists b. split; [|exact Hb]. simpl in *. congruence.
Qed.

Lemma rstrip_last (s : text) :
  rstrip s = []
  \/ exists r c, rstrip s = r ++ [c] /\ is_space c = false.
Proof.
  induction s as [|a s IH]; [now left|].
  rewrite rstrip_cons. destruct (rstrip s) as [|x r'] eqn:E.
  - destruct (is_space a) eqn:Ha; [now left|].
    right. now exists [], a.
  - right. destruct IH as [IH | (r & c & IH & Hc)]; [discriminate|].
    exists (a :: r), c. split; [|exact Hc]. simpl. now rewrite IH.
Qed.

Lemma all_space_app (a b : text) :
  all_space (a ++ b) = all_space a && all_space b.
Proof. apply forallb_app. Qed.

(** A piece of whitespace only strips to nothing, and no other does. *)
Lemma strip_nil_iff (piece : text) :
  strip piece = [] <-> all_space piece = true.
Proof.
  unfold strip. split; intros H.
  - destruct (lstrip_decomposition piece) as (a & Hs & Ha).
    rewrite Hs, all_space_app, Ha. simpl.
    now apply rstrip_nil_all_space.
  - rewrite <- (app_nil_r piece), lstrip_app_space by assumption.
    reflexivity.
Qed.

(** The trimmed form of a piece is what [strip] returns. *)
Lemma trimmed_from_strip (piece p : text) :
  trimmed_from piece p -> p = strip piece.
Proof.
  intros (a & b & -> & Ha & Hb & (c & r & Hp & Hc) & (r' & c' & Hp' & Hc')).
  rewrite <- is_space_whitespace in Hc, Hc'.
  unfold strip. rewrite lstrip_app_space by assumption.
  assert (Hl : lstrip (p ++ b) = p ++ b).
  { rewrite Hp. simpl. now rewrite Hc. }
  rewrite Hl, rstrip_app_space by assumption.
  rewrite Hp'. symmetry. now apply rstrip_ends_nonspace.
Qed.

(** [strip] returns the trimmed form of a piece that has one. *)
Lemma strip_trimmed_from (piece : text) :
  strip piece <> [] -> trimmed_from piece (strip piece).
Proof.
  intros Hne. unfold strip in *.
  destruct (lstrip_decomposition piece) as (a & Hs & Ha).
  destruct (rstrip_decomposition (lstrip piece)) as (b & Hl & Hb).
  exists a, b. repeat split; try assumption.
  - rewrite <- Hl. exact Hs.
  - destruct (lstrip_head piece) as [E | (c & r & E & Hc)].
    + rewrite E in Hne. now contradiction Hne.
    + rewrite E, rstrip_keeps_head by assumption.
      rewrite is_space_whitespace in Hc. eauto.
  - destruct (rstrip_last (lstrip piece)) as [E | (r & c & E & Hc)];
      [contradiction|].
    rewrite is_space_whitespace in Hc. eauto.
Qed.

Lemma trimmed_from_not_nil (piece p : text) : trimmed_from piece p -> p <> [].
Proof. intros (_ & _ & _ & _ & _ & (c & r & -> & _) & _). discriminate. Qed.

Lemma lstrip_strip (s : text) : lstrip (strip s) = strip s.
Proof.
  unfold strip. destruct (lstrip_head s) as [-> | (c & r & -> & Hc)].
  - reflexivity.
  - rewrite rstrip_keeps_head by assumption. simpl. now rewrite Hc.
Qed.

Lemma rstrip_idempotent (s : text) : rstrip (rstrip s) = rstrip s.
Proof.
  destruct (rstrip_last s) as [-> | (r & c & -> & Hc)]; [reflexivity|].
  now apply rstrip_ends_nonspace.
Qed.

Lemma strip_idempotent (s : text) : strip (strip s) = strip s.
Proof.
  unfold strip at 1. rewrite lstrip_strip. unfold strip.
  apply rstrip_idempotent.
Qed.

Lemma nonempty_not_nil (s : text) : nonempty s = true <-> s <> [].
Proof. destruct s; simpl; split; congruence. Qed.

End PyStrFacts.

(** The split of the code is the only cut at blank-line boundaries. *)
Lemma blank_line_split_unique (report : text) (pieces : list text) :
  blank_line_split report pieces <-> pieces = PyStr.split_blank report.
Proof.
  split.
  - intros (Hne & Hjoin & Hall & Hclosed).
    destruct pieces as [|p rest]; [congruence|].
    subst report. unfold PyStr.split_blank.
    inversion Hall as [|? ? Hp Hrest]; subst.
    rewrite PyStrFacts.split_from_of_join; simpl; try assumption.
    + reflexivity.
    + intros Hr. destruct rest; [congruence | apply Hclosed].
    + destruct rest; [exact I | apply Hclosed].
  - intros ->. repeat split.
    + apply PyStrFacts.split_from_not_nil.
    + apply PyStrFacts.split_blank_join.
    + apply PyStrFacts.split_blank_no_blank.
    + apply PyStrFacts.split_blank_closed.
Qed.

(** The comprehension of the code keeps the trimmed forms and nothing
    else. *)
Lemma trimmed_kept_unique (pieces ps : list text) :
  trimmed_kept pieces ps
  <-> ps = map PyStr.strip
             (filter (fun p => PyStr.nonempty (PyStr.strip p)) pieces).
Proof.
  split.
  - induction 1 as [|piece rest ps Hsp _ IH|piece p rest ps Ht _ IH].
    + reflexivity.
    + simpl. apply PyStrFacts.strip_nil_iff in Hsp. rewrite Hsp. exact IH.
    + simpl. pose proof (PyStrFacts.trimmed_from_not_nil _ _ Ht) as Hne.
      apply PyStrFacts.trimmed_from_strip in Ht. subst p.
      apply PyStrFacts.nonempty_not_nil in Hne. rewrite Hne. simpl.
      now f_equal.
  - intros ->. induction pieces as [|piece rest IH]; [constructor|].
    simpl. destruct (PyStr.nonempty (PyStr.strip piece)) eqn:E.
    + simpl. apply kept_keep; [|exact IH].
      apply PyStrFacts.strip_trimmed_from.
      now apply PyStrFacts.nonempty_not_nil.
    + apply kept_drop; [|exact IH].
      apply PyStrFacts.strip_nil_iff.
      destruct (PyStr.strip piece); [reflexivity | discriminate].
Qed.

(** The paragraphs of the code are the paragraphs of the specification,
    and no other sequence is. *)
Lemma paragraphs_of_spec (report : text) (ps : list text) :
  spec_paragraphs report ps <-> ps = paragraphs_of report.
Proof.
  unfold spec_paragraphs, paragraphs_of. split.
  - intros (pieces & Hsplit & Hkept).
    apply blank_line_split_unique in Hsplit. subst pieces.
    now apply trimmed_kept_unique.
  - intros ->. exists (PyStr.split_blank report). split.
    + now apply blank_line_split_unique.
    + now apply trimmed_kept_unique.
Qed.

(** Every paragraph is trimmed and not empty. *)
Lemma paragraphs_trimmed (report : text) :
  Forall (fun p => PyStr.strip p = p /\ p <> []) (paragraphs_of report).
Proof.
  unfold paragraphs_of.
  induction (PyStr.split_blank report) as [|p l IH]; simpl; [constructor|].
  destruct (PyStr.nonempty (PyStr.strip p)) eqn:E; simpl; [|exact IH].
  constructor; [|exact IH]. split.
  - apply PyStrFacts.strip_idempotent.
  - now apply PyStrFacts.nonempty_not_nil.
Qed.

(** Every paragraph is a trimmed piece of the split, in the order of the
    pieces. *)
Lemma paragraphs_from_pieces (report : text) (p : text) :
  In p (paragraphs_of report) <->
  exists piece, In piece (PyStr.split_blank report)
                /\ p = PyStr.strip piece /\ p <> [].
Proof.
  unfold paragraphs_of. rewrite in_map_iff. split.
  - intros (piece & <- & Hin). apply filter_In in Hin as [Hin Ht].
    exists piece. repeat split; try assumption.
    now apply PyStrFacts.nonempty_not_nil.
  - intros (piece & Hin & -> & Hne). exists piece. split; [reflexivity|].
    apply filter_In. split; [assumption|].
    now apply PyStrFacts.nonempty_not_nil.
Qed.

(** ** Dicts *)

Lemma pykey_eqb_eq (a b : pykey) : pykey_eqb a b = true <-> a = b.
Proof.
  destruct a as [s|x|x|t x], b as [s'|y|y|t' y]; simpl; split; intros H;
    try discriminate; try congruence.
  - apply String.eqb_eq in H. now subst.
  - injection H as ->. apply String.eqb_refl.
  - apply Z.eqb_eq in H. now subst.
  - injection H as ->. apply Z.eqb_refl.
  - apply String.eqb_eq in H. now subst.
  - injection H as ->. apply String.eqb_refl.
  - apply andb_true_iff in H as [H1 H2].
    apply String.eqb_eq in H1, H2. now subst.
  - injection H as -> ->. now rewrite !String.eqb_refl.
Qed.

Lemma pykey_eqb_refl (k : pykey) : pykey_eqb k k = true.
Proof. now apply pykey_eqb_eq. Qed.

Lemma pykey_eqb_neq (a b : pykey) : pykey_eqb a b = false <-> a <> b.
Proof.
  rewrite <- pykey_eqb_eq. destruct (pykey_eqb a b); split; congruence.
Qed.

Lemma dict_get_set_same (d : dict) (k : pykey) (v : value) :
  dict_get (dict_set d k v) k = Some v.
Proof.
  induction d as [|[k' v'] d IH]; simpl.
  - now rewrite pykey_eqb_refl.
  - destruct (pykey_eqb k' k) eqn:E; simpl; rewrite E; [reflexivity | exact IH].
Qed.

Lemma dict_get_set_other (d : dict) (k k' : pykey) (v : value) :
  k <> k' -> dict_get (dict_set d k v) k' = dict_get d k'.
Proof.
  intros Hne. induction d as [|[k0 v0] d IH]; simpl.
  - apply pykey_eqb_neq in Hne. now rewrite Hne.
  - destruct (pykey_eqb k0 k) eqn:E; simpl.
    + apply pykey_eqb_eq in E. subst k0.
      apply pykey_eqb_neq in Hne. now rewrite Hne.
    + now rewrite IH.
Qed.

Lemma dict_get_none (d : dict) (k : pykey) :
  dict_get d k = None <-> ~ In k (dict_keys d).
Proof.
  induction d as [|[k' v'] d IH]; simpl.
  - split; [tauto | reflexivity].
  - destruct (pykey_eqb k' k) eqn:E.
    + apply pykey_eqb_eq in E. split; [discriminate | tauto].
    + apply pykey_eqb_neq in E. rewrite IH. tauto.
Qed.

Lemma dict_set_fresh (d : dict) (k : pykey) (v : value) :
  ~ In k (dict_keys d) -> dict_set d k v = d ++ [(k, v)].
Proof.
  induction d as [|[k' v'] d IH]; simpl; intros Hin; [reflexivity|].
  destruct (pykey_eqb k' k) eqn:E.
  - apply pykey_eqb_eq in E. tauto.
  - rewrite IH by tauto. reflexivity.
Qed.

Lemma dict_keys_set (d : dict) (k : pykey) (v : value) :
  dict_keys (dict_set d k v)
  = if existsb (fun k' => pykey_eqb k' k) (dict_keys d)
    then dict_keys d else dict_keys d ++ [k].
Proof.
  induction d as [|[k' v'] d IH]; simpl; [reflexivity|].
  destruct (pykey_eqb k' k) eqn:E; simpl; [reflexivity|].
  rewrite IH. now destruct (existsb _ (dict_keys d)).
Qed.

Lemma in_dict_keys_set (d : dict) (k k' : pykey) (v : value) :
  In k' (dict_keys (dict_set d k v)) <-> k' = k \/ In k' (dict_keys d).
Proof.
  rewrite dict_keys_set.
  destruct (existsb _ (dict_keys d)) eqn:E.
  - split; [tauto|]. intros [-> | H]; [|exact H].
    apply existsb_exists in E as (x & Hx & Heq).
    apply pykey_eqb_eq in Heq. now subst.
  - rewrite in_app_iff. simpl. intuition congruence.
Qed.

Lemma nodup_dict_keys_set (d : dict) (k : pykey) (v : value) :
  NoDup (dict_keys d) -> NoDup (dict_keys (dict_set d k v)).
Proof.
  intros Hnd. rewrite dict_keys_set.
  destruct (existsb _ (dict_keys d)) eqn:E; [exact Hnd|].
  apply NoDup_app; [exact Hnd | repeat constructor; simpl; tauto |].
  intros x Hx [Heq | []]. subst x.
  assert (existsb (fun k' => pykey_eqb k' k) (dict_keys d) = true); [|congruence].
  apply existsb_exists. exists k. split; [exact Hx | apply pykey_eqb_refl].
Qed.

(** Every entry of a dict after a store was there before or is the one
    stored. *)
Lemma in_dict_set (d : dict) (k : pykey) (v : value) (e : pykey * value) :
  In e (dict_set d k v) -> In e d \/ e = (k, v).
Proof.
  induction d as [|[k' v'] d IH]; simpl.
  - intros [<- | []]. now right.
  - destruct (pykey_eqb k' k) eqn:E; simpl.
    + apply pykey_eqb_eq in E. subst k'. intuition.
    + intuition.
Qed.

Lemma dict_update_cons (d other : dict) (k : pykey) (v : value) :
  dict_update d ((k, v) :: other) = dict_update (dict_set d k v) other.
Proof. reflexivity. Qed.

(** A key the update does not mention keeps its value. *)
Lemma dict_get_update_absent (other d : dict) (k : pykey) :
  dict_get other k = None ->
  dict_get (dict_update d other) k = dict_get d k.
Proof.
  revert d. induction other as [|[k' v'] other IH]; intros d H; [reflexivity|].
  simpl in H. destruct (pykey_eqb k' k) eqn:E; [discriminate|].
  rewrite dict_update_cons, IH by assumption.
  apply dict_get_set_other. now apply pykey_eqb_neq.
Qed.

(** A key the update mentions takes the value of the update. *)
Lemma dict_get_update_present (other d : dict) (k : pykey) (v : value) :
  NoDup (dict_keys other) ->
  dict_get other k = Some v ->
  dict_get (dict_update d other) k = Some v.
Proof.
  revert d. induction other as [|[k' v'] other IH]; intros d Hnd H;
    [discriminate|].
  simpl in H, Hnd. inversion Hnd as [|? ? Hnotin Hnd']; subst.
  rewrite dict_update_cons. destruct (pykey_eqb k' k) eqn:E.
  - injection H as ->. apply pykey_eqb_eq in E. subst k'.
    rewrite dict_get_update_absent by now apply dict_get_none.
    apply dict_get_set_same.
  - now apply IH.
Qed.

(** ** The comprehensions of the normaliser *)

Section Comprehensions.

Variable excluded : pykey -> result bool.
Variable f : value -> result value.

Lemma dict_comprehension_keys (items : list (pykey * value)) :
  forall acc d,
    dict_comprehension excluded f items acc = Ok d ->
    forall k, In k (dict_keys d) <->
              In k (dict_keys acc)
              \/ (In k (dict_keys items) /\ excluded k = Ok false).
Proof.
  induction items as [|[k0 v0] rest IH]; intros acc d H k; simpl in H.
  - injection H as <-. simpl. tauto.
  - destruct (excluded k0) as [[|]|e] eqn:Ex; try discriminate.
    + rewrite (IH _ _ H). simpl. intuition (subst; congruence).
    + destruct (f v0) as [v'|e]; [|discriminate].
      rewrite (IH _ _ H), in_dict_keys_set. simpl.
      intuition (subst; auto).
Qed.

Lemma dict_comprehension_nodup (items : list (pykey * value)) :
  forall acc d,
    dict_comprehension excluded f items acc = Ok d ->
    NoDup (dict_keys acc) -> NoDup (dict_keys d).
Proof.
  induction items as [|[k0 v0] rest IH]; intros acc d H Hnd; simpl in H.
  - now injection H as <-.
  - destruct (excluded k0) as [[|]|e]; try discriminate.
    + eapply IH; eassumption.
    + destruct (f v0) as [v'|e]; [|discriminate].
      eapply IH; [eassumption|]. now apply nodup_dict_keys_set.
Qed.

(** What holds of the entries stored holds of the entries of the result. *)
Lemma dict_comprehension_entries (Q : pykey * value -> Prop)
    (items : list (pykey * value)) :
  (forall k v v', In (k, v) items -> excluded k = Ok false ->
                  f v = Ok v' -> Q (k, v')) ->
  forall acc d,
    dict_comprehension excluded f items acc = Ok d ->
    Forall Q acc -> Forall Q d.
Proof.
  induction items as [|[k0 v0] rest IH]; intros HQ acc d H Hacc; simpl in H.
  - now injection H as <-.
  - assert (HQ' : forall k v v', In (k, v) rest -> excluded k = Ok false ->
                                 f v = Ok v' -> Q (k, v'))
      by (intros; eapply HQ; simpl; eauto).
    destruct (excluded k0) as [[|]|e] eqn:Ex; try discriminate.
    + eapply IH; eassumption.
    + destruct (f v0) as [v'|e] eqn:Ef; [|discriminate].
      eapply IH; [exact HQ' | eassumption |].
      apply Forall_forall. intros e He.
      destruct (in_dict_set _ _ _ _ He) as [Hin | ->].
      * eapply Forall_forall; eassumption.
      * eapply HQ; simpl; eauto.
Qed.

(** The comprehension returns when the tests and the conversions do. *)
Lemma dict_comprehension_total (items : list (pykey * value)) :
  (forall k v, In (k, v) items ->
               (exists b, excluded k = Ok b) /\ (exists r, f v = Ok r)) ->
  forall acc, exists d, dict_comprehension excluded f items acc = Ok d.
Proof.
  induction items as [|[k0 v0] rest IH]; intros Hok acc; simpl.
  - eauto.
  - destruct (Hok k0 v0 (or_introl eq_refl)) as [[b ->] [r ->]].
    assert (Hrest : forall k v, In (k, v) rest ->
               (exists b, excluded k = Ok b) /\ (exists r, f v = Ok r))
      by (intros; apply Hok; simpl; auto).
    destruct b; apply IH; exact Hrest.
Qed.

(** A dict of kept keys and converted values is rebuilt as it is. *)
Lemma dict_comprehension_fixed (d : dict) :
  forall acc,
    NoDup (dict_keys (acc ++ d)) ->
    Forall (fun kv => excluded (fst kv) = Ok false /\ f (snd kv) = Ok (snd kv)) d ->
    dict_comprehension excluded f d acc = Ok (acc ++ d).
Proof.
  induction d as [|[k v] d IH]; intros acc Hnd Hall; simpl.
  - now rewrite app_nil_r.
  - inversion Hall as [|? ? [Hk Hv] Hall']; subst. simpl in Hk, Hv.
    rewrite Hk, Hv.
    assert (Hfresh : ~ In k (dict_keys acc)).
    { unfold dict_keys in *. rewrite map_app in Hnd. simpl in Hnd.
      apply NoDup_remove_2 in Hnd. rewrite in_app_iff in Hnd. tauto. }
    rewrite dict_set_fresh by exact Hfresh.
    rewrite IH.
    + now rewrite <- app_assoc.
    + now rewrite <- app_assoc.
    + exact Hall'.
Qed.

Lemma list_comprehension_total (elems : list value) :
  Forall (fun v => exists r, f v = Ok r) elems ->
  exists l, list_comprehension f elems = Ok l.
Proof.
  induction 1 as [|v rest [r Hr] _ [l Hl]]; simpl; [eauto|].
  rewrite Hr, Hl. eauto.
Qed.

Lemma list_comprehension_each (elems : list value) :
  forall l, list_comprehension f elems = Ok l ->
            Forall2 (fun v r => f v = Ok r) elems l.
Proof.
  induction elems as [|v rest IH]; intros l H; simpl in H.
  - injection H as <-. constructor.
  - destruct (f v) as [r|e] eqn:Ef; [|discriminate].
    destruct (list_comprehension f rest) as [l'|e]; [|discriminate].
    injection H as <-. constructor; auto.
Qed.

Lemma list_comprehension_fixed (l : list value) :
  Forall (fun v => f v = Ok v) l -> list_comprehension f l = Ok l.
Proof.
  induction 1 as [|v rest Hv _ IH]; simpl; [reflexivity|].
  now rewrite Hv, IH.
Qed.

Lemma call_then_ok (attr : string) (calls : list (string * result value))
    (r : value) :
  call_then f attr calls = Some (Ok r) ->
  exists v, In (attr, Ok v) calls /\ f v = Ok r.
Proof.
  induction calls as [|[name outcome] rest IH]; simpl; [discriminate|].
  destruct (String.eqb name attr) eqn:E.
  - apply String.eqb_eq in E. subst name.
    destruct outcome as [v|e]; intros H; [|discriminate].
    injection H as H. eauto.
  - intros H. destruct (IH H) as (v & Hin & Hv). eauto.
Qed.

Lemma try_exports_cons (calls : list (string * result value))
    (otherwise : result value) (attr : string) (rest : list string) :
  try_exports f calls otherwise (attr :: rest)
  = match call_then f attr calls with
    | Some (Ok r) => Ok r
    | Some (Raise e) =>
        if is_exception e then try_exports f calls otherwise rest else Raise e
    | None => try_exports f calls otherwise rest
    end.
Proof. reflexivity. Qed.

(** What the exports return is the fallback or what one export gives. *)
Lemma try_exports_ok (calls : list (string * result value))
    (otherwise : result value) (attrs : list string) (r : value) :
  try_exports f calls otherwise attrs = Ok r ->
  otherwise = Ok r
  \/ exists attr, In attr attrs /\ call_then f attr calls = Some (Ok r).
Proof.
  induction attrs as [|attr rest IH]; [now left|].
  rewrite try_exports_cons.
  assert (Hrest : try_exports f calls otherwise rest = Ok r ->
            otherwise = Ok r
            \/ exists a, In a (attr :: rest)
                         /\ call_then f a calls = Some (Ok r)).
  { intros H. destruct (IH H) as [Ho | (a & Hin & Ha)]; [now left|].
    right. exists a. split; [now right | exact Ha]. }
  destruct (call_then f attr calls) as [[r'|e]|] eqn:E.
  - intros H. injection H as ->. right. exists attr. split; [now left | exact E].
  - destruct (is_exception e); [exact Hrest | discriminate].
  - exact Hrest.
Qed.


(** Exports that all fail give the fallback. *)
Lemma try_exports_fail (calls : list (string * result value))
    (otherwise : result value) (attrs : list string) :
  Forall (fun attr => export_fails f attr calls) attrs ->
  try_exports f calls otherwise attrs = otherwise.
Proof.
  induction 1 as [|attr rest Ha _ IH]; [reflexivity|].
  rewrite try_exports_cons. unfold export_fails in Ha.
  destruct (call_then f attr calls) as [[r|e]|]; [contradiction | | exact IH].
  now rewrite Ha.
Qed.

End Comprehensions.

(** ** The normaliser *)

(** A mapping that [to_plain] returns has no key twice. *)
Lemma to_plain_nodup (x : value) :
  forall d, to_plain x = Ok (VDict d) -> NoDup (dict_keys d).
Proof.
  induction x using value_induction; intros d Hd; simpl in Hd;
    try discriminate;
    try (destruct (list_comprehension to_plain elems); discriminate).
  - destruct (dict_comprehension _ _ store []) as [d'|e] eqn:E; [|discriminate].
    injection Hd as <-.
    eapply dict_comprehension_nodup; [exact E | constructor].
  - destruct (dict_comprehension _ _ items []) as [d'|e] eqn:E; [|discriminate].
    injection Hd as <-.
    eapply dict_comprehension_nodup; [exact E | constructor].
  - destruct (dict_comprehension _ _ items []) as [d'|e] eqn:E; [|discriminate].
    injection Hd as <-.
    eapply dict_comprehension_nodup; [exact E | constructor].
  - apply try_exports_ok in Hd as [Hd | (attr & _ & Hc)]; [discriminate|].
    apply call_then_ok in Hc as (v & Hin & Hv).
    rewrite Forall_forall in H.
    exact (H _ Hin v eq_refl _ Hv).
Qed.

Lemma dump_prediction_plain_nodup (x : value) (d : dict) :
  dump_prediction_plain x = Ok d -> NoDup (dict_keys d).
Proof.
  unfold dump_prediction_plain.
  destruct (to_plain x) as [r|e] eqn:E; [|discriminate].
  destruct r; intros H; injection H as <-;
    try (repeat constructor; simpl; tauto).
  eapply to_plain_nodup; eassumption.
Qed.

Lemma mapping_key_excluded_total (k : pykey) :
  exists b, mapping_key_excluded k = Ok b.
Proof. destruct k; simpl; eauto. Qed.

Lemma Forall2_image {A B : Type} (R : A -> B -> Prop) (Q : B -> Prop)
    (l : list A) (l' : list B) :
  Forall2 R l l' -> (forall x y, In x l -> R x y -> Q y) -> Forall Q l'.
Proof.
  induction 1 as [|x y l l' Hxy _ IH]; intros HQ; constructor.
  - apply (HQ x y); simpl; auto.
  - apply IH. intros a b Ha. apply HQ. now right.
Qed.

(** On a structure of primitives, mappings and sequences [to_plain] returns,
    and what it returns it leaves as it is. *)
Lemma to_plain_structure (key_ok : pykey -> bool) (v : value) :
  structure_of key_ok v = true ->
  exists r, to_plain v = Ok r /\ to_plain r = Ok r.
Proof.
  assert (Hseq : forall elems,
    Forall (fun x => structure_of key_ok x = true ->
                     exists r, to_plain x = Ok r /\ to_plain r = Ok r) elems ->
    forallb (structure_of key_ok) elems = true ->
    exists l, list_comprehension to_plain elems = Ok l
              /\ list_comprehension to_plain l = Ok l).
  { intros elems H Hs.
    rewrite forallb_forall in Hs. rewrite Forall_forall in H.
    destruct (list_comprehension_total to_plain elems) as [l Hl].
    { apply Forall_forall. intros x Hin.
      destruct (H _ Hin (Hs _ Hin)) as (r & Hr & _). eauto. }
    exists l. split; [exact Hl|].
    apply list_comprehension_fixed.
    apply list_comprehension_each in Hl.
    apply (Forall2_image _ _ _ _ Hl). intros x y Hin Hxy.
    destruct (H _ Hin (Hs _ Hin)) as (r & Hr & Hrr). congruence. }
  assert (Hmap : forall items,
    Forall (fun kv => structure_of key_ok (snd kv) = true ->
                      exists r, to_plain (snd kv) = Ok r /\ to_plain r = Ok r)
           items ->
    forallb (fun '(k, x) => key_ok k && structure_of key_ok x) items = true ->
    exists d, dict_comprehension mapping_key_excluded to_plain items [] = Ok d
              /\ dict_comprehension mapping_key_excluded to_plain d [] = Ok d).
  { intros items H Hs.
    rewrite forallb_forall in Hs. rewrite Forall_forall in H.
    assert (Hitem : forall k x, In (k, x) items ->
              exists r, to_plain x = Ok r /\ to_plain r = Ok r).
    { intros k x Hin. apply (H _ Hin).
      specialize (Hs _ Hin). simpl in Hs.
      now apply andb_true_iff in Hs. }
    destruct (dict_comprehension_total mapping_key_excluded to_plain items)
      with (acc := @nil (pykey * value)) as [d Hd].
    { intros k x Hin. split; [apply mapping_key_excluded_total|].
      destruct (Hitem _ _ Hin) as (r & Hr & _). eauto. }
    exists d. split; [exact Hd|].
    apply (dict_comprehension_fixed mapping_key_excluded to_plain d []).
    + eapply dict_comprehension_nodup; [exact Hd | constructor].
    + eapply dict_comprehension_entries; [|exact Hd | constructor].
      intros k x x' Hin Hk Hx. simpl. split; [exact Hk|].
      destruct (Hitem _ _ Hin) as (r & Hr & Hrr). congruence. }
  induction v using value_induction; intros Hs; simpl in Hs;
    try discriminate; try (eexists; split; reflexivity).
  - destruct (Hmap _ H Hs) as (d & Hd & Hdd).
    exists (VDict d). simpl. now rewrite Hd, Hdd.
  - destruct (Hmap _ H Hs) as (d & Hd & Hdd).
    exists (VDict d). simpl. now rewrite Hd, Hdd.
  - destruct (Hseq _ H Hs) as (l & Hl & Hll).
    exists (VList l). simpl. now rewrite Hl, Hll.
  - destruct (Hseq _ H Hs) as (l & Hl & Hll).
    exists (VList l). simpl. now rewrite Hl, Hll.
  - destruct (Hseq _ H Hs) as (l & Hl & Hll).
    exists (VList l). simpl. now rewrite Hl, Hll.
Qed.

Lemma to_plain_fixed_wrapped (r : value) :
  to_plain r = Ok r ->
  to_plain (VDict [(KStr "value", r)]) = Ok (VDict [(KStr "value", r)]).
Proof. intros H. simpl. now rewrite H. Qed.

(** C8.  On a value made of primitives (null, booleans, numbers, strings),
    of string-keyed mappings none of whose keys starts with the internal
    marker, and of sequences, the normaliser returns a mapping, and the
    normaliser applied to that mapping returns the same mapping. *)
Theorem dump_prediction_plain_idempotent (v : value) :
  plain_structure v = true ->
  exists d, dump_prediction_plain v = Ok d
            /\ dump_prediction_plain (VDict d) = Ok d.
Proof.
  intros Hs. destruct (to_plain_structure _ _ Hs) as (r & Hr & Hrr).
  unfold dump_prediction_plain at 1. rewrite Hr.
  destruct r as [ | b | z | f | s | store | items | items cs
                | l | l | l | c i cs];
    try (eexists; split; [reflexivity|];
         unfold dump_prediction_plain;
         now rewrite (to_plain_fixed_wrapped _ Hrr)).
  exists items. split; [reflexivity|].
  unfold dump_prediction_plain. now rewrite Hrr.
Qed.

Lemma dump_prediction_plain_prediction (store : list (pykey * value)) (d : dict) :
  dump_prediction_plain (VPrediction store) = Ok d <->
  dict_comprehension prediction_key_excluded to_plain store [] = Ok d.
Proof.
  unfold dump_prediction_plain. simpl.
  destruct (dict_comprehension _ _ store []); split; intros H; exact H.
Qed.

Lemma dump_prediction_plain_mapping (items : list (pykey * value)) (d : dict) :
  dump_prediction_plain (VDict items) = Ok d <->
  dict_comprehension mapping_key_excluded to_plain items [] = Ok d.
Proof.
  unfold dump_prediction_plain. simpl.
  destruct (dict_comprehension _ _ items []); split; intros H; exact H.
Qed.

Lemma prediction_key_kept (k : pykey) :
  prediction_key_excluded k = Ok false <->
  exists s, k = KStr s /\ PyStr.startswith_any bookkeeping_prefixes s = false.
Proof.
  destruct k as [s|z|b|t r]; unfold prediction_key_excluded; split;
    try discriminate; try (intros (t' & Ht & _); discriminate).
  - intros H. exists s. split; congruence.
  - intros (t & Ht & Hs). injection Ht as ->. now rewrite Hs.
Qed.

Lemma mapping_key_kept (k : pykey) :
  mapping_key_excluded k = Ok false <->
  (forall s, k = KStr s -> PyStr.startswith "_" s = false).
Proof.
  destruct k as [s|z|b|t r]; unfold mapping_key_excluded; split;
    try discriminate; try reflexivity.
  - intros H t Ht. injection Ht as <-. congruence.
  - intros H. now rewrite (H s eq_refl).
Qed.

(** C7, as the code has it.  The keys of a normalised Prediction are the
    keys of its store that do not start with one of the three bookkeeping
    names; the keys of a normalised mapping are its keys other than the
    strings that start with the internal marker; and a mapping of one marked
    key and one normal key is normalised to the normal key alone. *)
Theorem normaliser_key_exclusion :
  (forall store d,
      dump_prediction_plain (VPrediction store) = Ok d ->
      forall k, In k (dict_keys d) <->
                In k (dict_keys store)
                /\ exists s, k = KStr s
                             /\ PyStr.startswith_any bookkeeping_prefixes s = false)
  /\ (forall items d,
         dump_prediction_plain (VDict items) = Ok d ->
         forall k, In k (dict_keys d) <->
                   In k (dict_keys items)
                   /\ (forall s, k = KStr s -> PyStr.startswith "_" s = false))
  /\ (forall marked normal v1 v2 r,
         PyStr.startswith "_" marked = true ->
         PyStr.startswith "_" normal = false ->
         to_plain v2 = Ok r ->
         dump_prediction_plain (VDict [(KStr marked, v1); (KStr normal, v2)])
         = Ok [(KStr normal, r)]
         /\ dump_prediction_plain (VDict [(KStr normal, v2); (KStr marked, v1)])
            = Ok [(KStr normal, r)]).
Proof.
  split; [|split].
  - intros store d H k. apply dump_prediction_plain_prediction in H.
    rewrite (dict_comprehension_keys _ _ _ _ _ H k), prediction_key_kept.
    simpl. tauto.
  - intros items d H k. apply dump_prediction_plain_mapping in H.
    rewrite (dict_comprehension_keys _ _ _ _ _ H k), mapping_key_kept.
    simpl. tauto.
  - intros marked normal v1 v2 r Hm Hn Hr.
    unfold dump_prediction_plain. simpl. now rewrite Hm, Hn, Hr.
Qed.

(** C7 as the specification words it fails: a key of a Prediction's store
    that starts with the internal marker and is none of the bookkeeping
    names stays in the normalised mapping. *)
Lemma prediction_keeps_marked_key :
  ~ (forall store d,
        dump_prediction_plain (VPrediction store) = Ok d ->
        forall s, In (KStr s) (dict_keys d) -> PyStr.startswith "_" s = false).
Proof.
  intros H.
  specialize (H [(KStr "_note", VInt 1)] [(KStr "_note", VInt 1)] eq_refl
                "_note" (or_introl eq_refl)).
  discriminate H.
Qed.

(** ** The orchestrator *)

Section OrchestratorFacts.

Variable world : Type.
Variable signature : Type.
Variable cls_name : signature -> string.
Variable analyzer_is_cancer :
  list text -> world -> result classification * world.
Variable jsonize :
  list text -> option string -> world -> result value * world.
Variable globals_get : string -> option signature.
Variable predict :
  signature -> text -> value -> world -> result value * world.
Variable strftime : world -> string.

Local Abbreviation organ_step := (organ_step cls_name globals_get predict strftime).
Local Abbreviation fan_out := (fan_out cls_name globals_get predict strftime).
Local Abbreviation forward_with :=
  (forward_with cls_name analyzer_is_cancer jsonize globals_get predict strftime).
Local Abbreviation attempt_of := (attempt_of globals_get predict).
Local Abbreviation attempts := (attempts globals_get predict).
Local Abbreviation attempt_events := (attempt_events cls_name strftime).
Local Abbreviation fan_out_trace := (fan_out_trace cls_name globals_get predict strftime).
Local Abbreviation failure_log := (failure_log cls_name).
Local Abbreviation structuring := (structuring jsonize).
Local Abbreviation attempt := (attempt signature).

Lemma update_cancer_data_document (c : classification) (data organ_data : dict) :
  update_cancer_data (document_with c data) organ_data
  = Ok (document_with c (dict_update data organ_data)).
Proof. reflexivity. Qed.

(** One turn of the loop: the document takes the attempt's data, or the
    attempt's exception leaves; the world and the trace are the attempt's. *)
Lemma organ_step_run (report : text) (fname : string)
    (category : option string)
    (json_report : value) (c : classification) (data : dict)
    (items : string) (st : state world) :
  organ_step report fname category json_report (document_with c data) items st
  = (fan_out_result c data
       [fst (attempt_of report json_report items (st_world st))],
     State (snd (attempt_of report json_report items (st_world st)))
           (st_trace st
            ++ attempt_events report fname category json_report
                 (fst (attempt_of report json_report items (st_world st)))
                 (st_world st))).
Proof.
  destruct st as [w tr].
  unfold organ_step, attempt_of, fan_out_result, raised. simpl.
  destruct (globals_get items) as [cls|]; simpl.
  - unfold bind, clock, emit, try_except, backend, lift, ret. simpl.
    destruct (predict cls report json_report w) as [[resp|e] w'] eqn:Ep; simpl.
    + destruct (dump_prediction_plain resp) as [d|e] eqn:Ed; simpl.
      * rewrite <- !app_assoc. reflexivity.
      * destruct (is_exception e); simpl; rewrite <- !app_assoc; reflexivity.
    + destruct (is_exception e); simpl; rewrite <- !app_assoc; reflexivity.
  - reflexivity.
Qed.

Lemma fan_out_result_cons (c : classification) (data : dict) (a : attempt)
    (l : list attempt) :
  is_aborted a = false ->
  fan_out_result c data (a :: l)
  = fan_out_result c (dict_update data (merged_data a)) l.
Proof. destruct a; intros H; try discriminate; reflexivity. Qed.

(** The loop over any list: it returns the union of the successful
    attempts unless an attempt leaves it, with the trace of the attempts
    made. *)
Lemma fan_out_run (report : text) (fname : string) (category : option string)
    (json_report : value) (c : classification) (ids : list string) :
  forall (data : dict) (st : state world),
    fan_out report fname category json_report ids (document_with c data) st
    = (fan_out_result c data
         (fst (attempts report json_report ids (st_world st))),
       State (snd (attempts report json_report ids (st_world st)))
             (st_trace st
              ++ fan_out_trace report fname category json_report ids
                   (st_world st))).
Proof.
  induction ids as [|items rest IH]; intros data st.
  - destruct st as [w tr]. simpl. unfold ret. now rewrite app_nil_r.
  - simpl. unfold bind at 1. rewrite organ_step_run.
    destruct (attempt_of report json_report items (st_world st)) as [a w'].
    cbn [fst snd].
    destruct (is_aborted a) eqn:Ea.
    + destruct a; try discriminate. unfold fan_out_result.
      cbn [interruption is_aborted fst snd]. now rewrite app_nil_r.
    + rewrite (fan_out_result_cons c data a [] Ea).
      unfold fan_out_result at 1. cbn [interruption merge_all fold_left].
      rewrite IH. cbn [st_world st_trace].
      destruct (attempts report json_report rest w') as [l w''].
      cbn [fst snd]. rewrite (fan_out_result_cons c data a l Ea).
      now rewrite <- app_assoc.
Qed.

Lemma forward_classifier_raises (reg : registry) (report : text)
    (fname : string) (st : state world) (e : exn) (w1 : world) :
  analyzer_is_cancer (paragraphs_of report) (st_world st) = (Raise e, w1) ->
  forward_with reg report fname st
  = (Raise e, State w1 (st_trace st ++ prologue report fname)).
Proof.
  intros Hc. destruct st as [w tr]. simpl in Hc.
  unfold forward_with, bind, emit, backend. simpl.
  rewrite Hc. rewrite <- !app_assoc. reflexivity.
Qed.

Lemma forward_not_eligible (reg : registry) (report : text) (fname : string)
    (st : state world) (c : classification) (w1 : world) :
  analyzer_is_cancer (paragraphs_of report) (st_world st) = (Ok c, w1) ->
  cancer_excision_report c = false ->
  forward_with reg report fname st
  = (Ok not_eligible_report,
     State w1 (st_trace st ++ prologue report fname
               ++ [LogInfo "This is NOT a cancer excision report.";
                   PrintJson not_eligible_report])).
Proof.
  intros Hc He. destruct st as [w tr]. simpl in Hc.
  unfold forward_with, bind, emit, backend, ret. simpl.
  rewrite Hc, He. simpl. rewrite <- !app_assoc. reflexivity.
Qed.

(** An eligible report: the structuring stage, then the loop, unless the
    structuring stage raises what its handler does not catch. *)
Lemma forward_eligible (reg : registry) (report : text) (fname : string)
    (st : state world) (c : classification) (w1 : world) :
  analyzer_is_cancer (paragraphs_of report) (st_world st) = (Ok c, w1) ->
  cancer_excision_report c = true ->
  let category := cancer_category c in
  let ids := registry_get reg category in
  let before_loop :=
    st_trace st ++ prologue report fname ++ category_log c
    ++ [JsonizeCall (paragraphs_of report) category] in
  forward_with reg report fname st
  = match structuring (paragraphs_of report) category w1 with
    | (Raise e, w2) => (Raise e, State w2 before_loop)
    | (Ok json_report, w2) =>
        (fan_out_result c [] (fst (attempts report json_report ids w2)),
         State (snd (attempts report json_report ids w2))
               (before_loop
                ++ fan_out_trace report fname category json_report ids w2))
    end.
Proof.
  intros Hc He category ids before_loop.
  subst before_loop. destruct st as [w tr]. simpl in Hc.
  unfold forward_with, structuring, category_log.
  unfold bind, emit, backend, try_except, ret. simpl.
  rewrite Hc, He. fold category. fold ids.
  change (eligible_report c) with (document_with c []).
  destruct (opt_is category "others"); [|destruct (opt_truthy category)];
    simpl;
    destruct (jsonize (paragraphs_of report) category w1) as [[j|e] w2];
    simpl; try destruct (is_exception e); simpl;
    try rewrite fan_out_run; simpl; rewrite <- !app_assoc; reflexivity.
Qed.

Lemma merge_all_successes (l : list attempt) :
  forall data, merge_all data l = fold_left dict_update (successes l) data.
Proof.
  induction l as [|a l IH]; intros data; [reflexivity|].
  unfold merge_all, successes in *. simpl. rewrite IH.
  destruct a; reflexivity.
Qed.

Lemma attempt_of_for (report : text) (json_report : value) (items : string)
    (w : world) :
  attempt_for globals_get items (fst (attempt_of report json_report items w)).
Proof.
  unfold attempt_of, raised.
  destruct (globals_get items) as [cls|] eqn:Eg; [|simpl; auto].
  destruct (predict cls report json_report w) as [[resp|e] w1].
  - destruct (dump_prediction_plain resp) as [d|e]; [exact Eg|].
    destruct (is_exception e); exact Eg.
  - destruct (is_exception e); exact Eg.
Qed.

(** An attempt leaves the loop on an exception outside [Exception] only. *)
Lemma attempt_of_aborted (report : text) (json_report : value)
    (items : string) (w : world) (cls : signature) (e : exn) :
  fst (attempt_of report json_report items w) = Aborted cls e ->
  is_exception e = false.
Proof.
  unfold attempt_of, raised.
  destruct (globals_get items) as [cls'|]; [|discriminate].
  destruct (predict cls' report json_report w) as [[resp|e'] w1].
  - destruct (dump_prediction_plain resp) as [d|e'']; [discriminate|].
    destruct (is_exception e'') eqn:E; [discriminate|].
    simpl. intros H. injection H as _ <-. exact E.
  - destruct (is_exception e') eqn:E; [discriminate|].
    simpl. intros H. injection H as _ <-. exact E.
Qed.

(** What the handler logs is an exception it caught. *)
Lemma attempt_of_failed (report : text) (json_report : value)
    (items : string) (w : world) (cls : signature) (e : exn) :
  fst (attempt_of report json_report items w) = Failed cls e ->
  is_exception e = true.
Proof.
  unfold attempt_of, raised.
  destruct (globals_get items) as [cls'|]; [|discriminate].
  destruct (predict cls' report json_report w) as [[resp|e'] w1].
  - destruct (dump_prediction_plain resp) as [d|e'']; [discriminate|].
    destruct (is_exception e'') eqn:E; [|discriminate].
    simpl. intros H. injection H as _ <-. exact E.
  - destruct (is_exception e') eqn:E; [|discriminate].
    simpl. intros H. injection H as _ <-. exact E.
Qed.

Lemma interruption_not_exception (report : text) (json_report : value)
    (ids : list string) :
  forall w e,
    interruption (fst (attempts report json_report ids w)) = Some e ->
    is_exception e = false.
Proof.
  induction ids as [|items rest IH]; intros w e; simpl; [discriminate|].
  destruct (attempt_of report json_report items w) as [a w'] eqn:Ea.
  destruct (is_aborted a) eqn:Eab.
  - destruct a; try discriminate. simpl. intros H. injection H as <-.
    apply (attempt_of_aborted report json_report items w cls).
    now rewrite Ea.
  - specialize (IH w' e).
    destruct (attempts report json_report rest w') as [l w'']. simpl in *.
    destruct a; try discriminate; exact IH.
Qed.

(** When no attempt leaves the loop, every identifier has its attempt. *)
Lemma attempts_each (report : text) (json_report : value) (ids : list string) :
  forall w,
    interruption (fst (attempts report json_report ids w)) = None ->
    Forall2 (attempt_for globals_get) ids
            (fst (attempts report json_report ids w)).
Proof.
  induction ids as [|items rest IH]; intros w; simpl; [constructor|].
  pose proof (attempt_of_for report json_report items w) as Hfor.
  destruct (attempt_of report json_report items w) as [a w'] eqn:Ea.
  destruct (is_aborted a) eqn:Eab.
  - destruct a; discriminate.
  - specialize (IH w').
    destruct (attempts report json_report rest w') as [l w'']. simpl in *.
    intros Hi. constructor; [exact Hfor|].
    apply IH. destruct a; try discriminate; exact Hi.
Qed.

(** In any case the attempts are those of the first identifiers. *)
Lemma attempts_prefix (report : text) (json_report : value)
    (ids : list string) :
  forall w,
    Forall2 (attempt_for globals_get)
            (firstn (length (fst (attempts report json_report ids w))) ids)
            (fst (attempts report json_report ids w)).
Proof.
  induction ids as [|items rest IH]; intros w; simpl; [constructor|].
  pose proof (attempt_of_for report json_report items w) as Hfor.
  destruct (attempt_of report json_report items w) as [a w'] eqn:Ea.
  destruct (is_aborted a) eqn:Eab.
  - simpl. constructor; [exact Hfor | constructor].
  - specialize (IH w').
    destruct (attempts report json_report rest w') as [l w'']. simpl in *.
    constructor; [exact Hfor | exact IH].
Qed.

(** What a successful attempt merges is a dict: no key twice. *)
Lemma attempts_merged_nodup (report : text) (json_report : value)
    (ids : list string) :
  forall w cls d,
    In (Merged cls d) (fst (attempts report json_report ids w)) ->
    NoDup (dict_keys d).
Proof.
  induction ids as [|items rest IH]; intros w cls d; simpl; [tauto|].
  destruct (attempt_of report json_report items w) as [a w'] eqn:Ea.
  assert (Ha : a = Merged cls d -> NoDup (dict_keys d)).
  { intros ->. unfold attempt_of, raised in Ea.
    destruct (globals_get items) as [cls'|]; [|discriminate].
    destruct (predict cls' report json_report w) as [[resp|e] w1];
      [|destruct (is_exception e); discriminate].
    destruct (dump_prediction_plain resp) as [d'|e] eqn:Ed;
      [|destruct (is_exception e); discriminate].
    injection Ea as _ <- _. eapply dump_prediction_plain_nodup; eassumption. }
  destruct (is_aborted a) eqn:Eab.
  - simpl. intros [H | []]. now apply Ha.
  - specialize (IH w' cls d).
    destruct (attempts report json_report rest w') as [l w'']. simpl in *.
    intros [H | Hin]; [now apply Ha | auto].
Qed.

Lemma fan_out_trace_errors (report : text) (fname : string)
    (category : option string)
    (json_report : value) (ids : list string) :
  forall w,
    filter is_log_error (fan_out_trace report fname category json_report ids w)
    = flat_map failure_log (fst (attempts report json_report ids w)).
Proof.
  induction ids as [|items rest IH]; intros w; simpl; [reflexivity|].
  destruct (attempt_of report json_report items w) as [a w'].
  specialize (IH w').
  destruct (is_aborted a) eqn:Eab.
  - destruct a; try discriminate. reflexivity.
  - destruct (attempts report json_report rest w') as [l w'']. simpl in *.
    rewrite filter_app, IH. f_equal. destruct a; reflexivity.
Qed.

Lemma fan_out_trace_calls (report : text) (fname : string)
    (category : option string)
    (json_report : value) (ids : list string) :
  forall w,
    filter is_extractor_call
           (fan_out_trace report fname category json_report ids w)
    = flat_map (attempt_call cls_name report json_report)
               (fst (attempts report json_report ids w)).
Proof.
  induction ids as [|items rest IH]; intros w; simpl; [reflexivity|].
  destruct (attempt_of report json_report items w) as [a w'].
  specialize (IH w').
  destruct (is_aborted a) eqn:Eab.
  - destruct a; try discriminate. reflexivity.
  - destruct (attempts report json_report rest w') as [l w'']. simpl in *.
    rewrite filter_app, IH. f_equal. destruct a; reflexivity.
Qed.

Lemma fan_out_trace_no_classifier_call (report : text) (fname : string)
    (category : option string) (json_report : value) (ids : list string) :
  forall w,
    filter is_classifier_call
           (fan_out_trace report fname category json_report ids w) = [].
Proof.
  induction ids as [|items rest IH]; intros w; simpl; [reflexivity|].
  destruct (attempt_of report json_report items w) as [a w'].
  rewrite filter_app.
  destruct (is_aborted a); [|rewrite IH]; destruct a; reflexivity.
Qed.

Lemma category_log_no_call (c : classification) :
  filter is_classifier_call (category_log c) = []
  /\ filter is_extractor_call (category_log c) = []
  /\ filter is_log_error (category_log c) = [].
Proof.
  unfold category_log.
  destruct (opt_is (cancer_category c) "others");
    [|destruct (opt_truthy (cancer_category c))]; simpl; auto.
Qed.

Lemma cancer_data_of_document (c : classification) (data : dict) :
  cancer_data_of (document_with c data) = Some data.
Proof. reflexivity. Qed.

Lemma fan_out_result_returns (c : classification) (data : dict)
    (l : list attempt) :
  interruption l = None ->
  fan_out_result c data l = Ok (document_with c (merge_all data l)).
Proof. unfold fan_out_result. now intros ->. Qed.

Lemma fan_out_result_raises (c : classification) (data : dict)
    (l : list attempt) (e : exn) :
  interruption l = Some e -> fan_out_result c data l = Raise e.
Proof. unfold fan_out_result. now intros ->. Qed.

(** A document the loop returns is the merged one. *)
Lemma fan_out_result_ok (c : classification) (data : dict)
    (l : list attempt) (doc : value) :
  fan_out_result c data l = Ok doc ->
  interruption l = None /\ doc = document_with c (merge_all data l).
Proof.
  unfold fan_out_result. destruct (interruption l); [discriminate|].
  intros H. injection H as <-. now split.
Qed.

Lemma merge_all_absent (k : pykey) (l : list attempt) :
  forall data,
    (forall a, In a l -> dict_get (merged_data a) k = None) ->
    dict_get (merge_all data l) k = dict_get data k.
Proof.
  induction l as [|a l IH]; intros data Habs; [reflexivity|].
  unfold merge_all in *. simpl. rewrite IH.
  - apply dict_get_update_absent. apply Habs. now left.
  - intros b Hb. apply Habs. now right.
Qed.

Lemma merge_all_last_write (before after : list attempt) (cls : signature)
    (d data : dict) (k : pykey) (v : value) :
  NoDup (dict_keys d) ->
  dict_get d k = Some v ->
  (forall a, In a after -> dict_get (merged_data a) k = None) ->
  dict_get (merge_all data (before ++ Merged cls d :: after)) k = Some v.
Proof.
  intros Hnd Hk Habs. unfold merge_all. rewrite fold_left_app. simpl.
  fold (merge_all (dict_update (fold_left
          (fun acc a => dict_update acc (merged_data a)) before data) d) after).
  rewrite merge_all_absent by exact Habs.
  now apply dict_get_update_present.
Qed.

(** C1.  When the classification says the report is not eligible, the
    output document is exactly the three entries
    [cancer_excision_report: false], [cancer_category: null],
    [cancer_data: {}]; it has no key [cancer_category_others_description];
    and the run makes neither the structuring call nor any extractor call:
    the backend is left as the classifier left it. *)
Theorem not_eligible_output (reg : registry) (report : text) (fname : string)
    (st : state world) (c : classification) (w1 : world) :
  analyzer_is_cancer (paragraphs_of report) (st_world st) = (Ok c, w1) ->
  cancer_excision_report c = false ->
  exists doc new,
    forward_with reg report fname st = (Ok doc, State w1 (st_trace st ++ new))
    /\ doc = VDict [(KStr "cancer_excision_report", VBool false);
                    (KStr "cancer_category", VNone);
                    (KStr "cancer_data", VDict [])]
    /\ doc_get doc "cancer_category_others_description" = None
    /\ filter is_later_stage_call new = [].
Proof.
  intros Hc He. eexists. eexists.
  split; [apply (forward_not_eligible reg report fname st c w1 Hc He)|].
  repeat split.
Qed.

(** C5, as the code has it.  An exception of the classification call
    leaves [forward] as it was raised, before any other call is made.  An
    exception of the structuring call that derives from [Exception] is
    caught: the run goes on to the fan-out with the empty mapping as
    structured document.  An exception of the structuring call that does
    not derive from [Exception] is not caught: it leaves [forward] as it
    was raised and no extractor is called. *)
Theorem classification_fatal_structuring_degrades
    (reg : registry) (report : text) (fname : string) (st : state world) :
  (forall e w1,
      analyzer_is_cancer (paragraphs_of report) (st_world st) = (Raise e, w1) ->
      forward_with reg report fname st
      = (Raise e, State w1 (st_trace st ++ prologue report fname)))
  /\ (forall c w1 e w2,
         analyzer_is_cancer (paragraphs_of report) (st_world st) = (Ok c, w1) ->
         cancer_excision_report c = true ->
         jsonize (paragraphs_of report) (cancer_category c) w1 = (Raise e, w2) ->
         is_exception e = true ->
         let ids := registry_get reg (cancer_category c) in
         forward_with reg report fname st
         = (fan_out_result c [] (fst (attempts report (VDict []) ids w2)),
            State (snd (attempts report (VDict []) ids w2))
                  (st_trace st ++ prologue report fname ++ category_log c
                   ++ [JsonizeCall (paragraphs_of report) (cancer_category c)]
                   ++ fan_out_trace report fname (cancer_category c)
                        (VDict []) ids w2)))
  /\ (forall c w1 e w2,
         analyzer_is_cancer (paragraphs_of report) (st_world st) = (Ok c, w1) ->
         cancer_excision_report c = true ->
         jsonize (paragraphs_of report) (cancer_category c) w1 = (Raise e, w2) ->
         is_exception e = false ->
         forward_with reg report fname st
         = (Raise e,
            State w2
                  (st_trace st ++ prologue report fname ++ category_log c
                   ++ [JsonizeCall (paragraphs_of report) (cancer_category c)]))).
Proof.
  split; [|split].
  - intros e w1 Hc. now apply forward_classifier_raises.
  - intros c w1 e w2 Hc He Hj Hex ids.
    rewrite (forward_eligible reg report fname st c w1 Hc He).
    unfold structuring. rewrite Hj, Hex. rewrite <- !app_assoc. reflexivity.
  - intros c w1 e w2 Hc He Hj Hex.
    rewrite (forward_eligible reg report fname st c w1 Hc He).
    unfold structuring. rewrite Hj, Hex. reflexivity.
Qed.

(** C3, as the code has it.  For an eligible report whose structuring
    stage hands on a document, the identifiers of the registry's list are
    attempted in turn.  While no call and no normalisation raises an
    exception outside [Exception], the run returns a document whatever the
    extractors do: every identifier is attempted; one that does not
    resolve, and one whose call or whose normalisation raises, leaves an
    error in the log that names it and the loop goes on; [cancer_data] is
    the union, in list order, of the normalised results of the successful
    attempts and of nothing else.  An exception outside [Exception] is not
    caught: it leaves [forward], nothing is logged for it and the
    identifiers after it are not attempted. *)
Theorem extractor_failures_isolated (reg : registry) (report : text)
    (fname : string)
    (st : state world) (c : classification) (w1 : world)
    (json_report : value) (w2 : world) :
  analyzer_is_cancer (paragraphs_of report) (st_world st) = (Ok c, w1) ->
  cancer_excision_report c = true ->
  structuring (paragraphs_of report) (cancer_category c) w1
  = (Ok json_report, w2) ->
  let ids := registry_get reg (cancer_category c) in
  let tried := fst (attempts report json_report ids w2) in
  exists r st' new,
    forward_with reg report fname st = (r, st')
    /\ st_trace st' = st_trace st ++ new
    /\ filter is_log_error new = flat_map failure_log tried
    /\ filter is_extractor_call new
       = flat_map (attempt_call cls_name report json_report) tried
    /\ Forall2 (attempt_for globals_get) (firstn (length tried) ids) tried
    /\ (interruption tried = None ->
        length tried = length ids
        /\ exists doc,
             r = Ok doc
             /\ cancer_data_of doc
                = Some (fold_left dict_update (successes tried) []))
    /\ (forall e, interruption tried = Some e ->
                  is_exception e = false /\ r = Raise e).
Proof.
  intros Hc He Hs ids tried.
  eexists. eexists. eexists.
  split.
  { rewrite (forward_eligible reg report fname st c w1 Hc He), Hs.
    reflexivity. }
  cbn [st_trace].
  split; [repeat rewrite <- app_assoc; reflexivity|].
  destruct (category_log_no_call c) as (_ & Hcalls & Herrs).
  split.
  { unfold prologue. rewrite !filter_app, Herrs, fan_out_trace_errors.
    reflexivity. }
  split.
  { unfold prologue. rewrite !filter_app, Hcalls, fan_out_trace_calls.
    reflexivity. }
  split; [apply attempts_prefix|].
  split.
  - intros Hi. split.
    + symmetry. eapply Forall2_length. apply attempts_each. exact Hi.
    + eexists. split; [apply fan_out_result_returns; exact Hi|].
      rewrite cancer_data_of_document. f_equal. apply merge_all_successes.
  - intros e Hi. split.
    + eapply interruption_not_exception. exact Hi.
    + apply fan_out_result_raises. exact Hi.
Qed.

(** C2.  For an eligible report and any registry, a key of [cancer_data]
    holds the value of the last extractor of the list that produced it:
    when an extractor merges a result with the key and no later one of the
    list does, the final [cancer_data] has that extractor's value, whatever
    the earlier ones produced.  The run is one in which the structuring
    stage hands on a document and no extractor raises an exception outside
    [Exception], which would leave [forward] without a document. *)
Theorem last_write_wins (reg : registry) (report : text) (fname : string)
    (st : state world) (c : classification) (w1 : world)
    (json_report : value) (w2 : world)
    (before after : list attempt) (cls : signature) (d : dict)
    (k : pykey) (v : value) :
  analyzer_is_cancer (paragraphs_of report) (st_world st) = (Ok c, w1) ->
  cancer_excision_report c = true ->
  structuring (paragraphs_of report) (cancer_category c) w1
  = (Ok json_report, w2) ->
  let ids := registry_get reg (cancer_category c) in
  fst (attempts report json_report ids w2) = before ++ Merged cls d :: after ->
  interruption (before ++ Merged cls d :: after) = None ->
  dict_get d k = Some v ->
  (forall a, In a after -> dict_get (merged_data a) k = None) ->
  exists doc st' data,
    forward_with reg report fname st = (Ok doc, st')
    /\ cancer_data_of doc = Some data
    /\ dict_get data k = Some v.
Proof.
  intros Hc He Hs ids Hatt Hi Hk Habs.
  eexists. eexists. eexists.
  split.
  { rewrite (forward_eligible reg report fname st c w1 Hc He), Hs.
    fold ids. rewrite Hatt, (fan_out_result_returns c [] _ Hi).
    reflexivity. }
  split; [apply cancer_data_of_document|].
  apply merge_all_last_write; try assumption.
  apply (attempts_merged_nodup report json_report ids w2 cls).
  rewrite Hatt. apply in_or_app. right. now left.
Qed.

Lemma value_of_none (x : option string) : value_of x = VNone <-> x = None.
Proof. destruct x; simpl; split; congruence. Qed.

Lemma value_of_str (x : option string) (s : string) :
  value_of x = VStr s <-> x = Some s.
Proof. destruct x; simpl; split; congruence. Qed.

(** A document [forward] returns for an eligible report is the document of
    the classification with some [cancer_data]. *)
Lemma forward_eligible_document (reg : registry) (report : text)
    (fname : string) (st : state world) (c : classification) (w1 : world)
    (doc : value) (st' : state world) :
  analyzer_is_cancer (paragraphs_of report) (st_world st) = (Ok c, w1) ->
  cancer_excision_report c = true ->
  forward_with reg report fname st = (Ok doc, st') ->
  exists data, doc = document_with c data.
Proof.
  intros Hc He. rewrite (forward_eligible reg report fname st c w1 Hc He).
  destruct (structuring _ _ w1) as [[json_report|e] w2]; [|discriminate].
  intros H. injection H as H _.
  apply fan_out_result_ok in H as [_ ->]. eauto.
Qed.

(** C4, as the code has it.  For an eligible classification the output
    document that [forward] returns carries the classifier's
    [cancer_category] and [cancer_category_others_description] as they
    came; the orchestrator checks neither against the other, so that in the
    output the description is non-null exactly for the category [others]
    whenever, and only when, that holds of the classification. *)
Theorem description_copied_from_classifier (reg : registry)
    (report : text) (fname : string) (st : state world) (c : classification)
    (w1 : world) (doc : value) (st' : state world) :
  analyzer_is_cancer (paragraphs_of report) (st_world st) = (Ok c, w1) ->
  cancer_excision_report c = true ->
  forward_with reg report fname st = (Ok doc, st') ->
  doc_get doc "cancer_category" = Some (value_of (cancer_category c))
  /\ doc_get doc "cancer_category_others_description"
     = Some (value_of (cancer_category_others_description c))
  /\ ((doc_get doc "cancer_category_others_description" <> Some VNone
       <-> doc_get doc "cancer_category" = Some (VStr "others"))
      <-> (cancer_category_others_description c <> None
           <-> cancer_category c = Some "others")).
Proof.
  intros Hc He Hf.
  destruct (forward_eligible_document reg report fname st c w1 doc st' Hc He Hf)
    as [data ->].
  split; [reflexivity|]. split; [reflexivity|].
  change (doc_get (document_with c data) "cancer_category_others_description")
    with (Some (value_of (cancer_category_others_description c))).
  change (doc_get (document_with c data) "cancer_category")
    with (Some (value_of (cancer_category c))).
  assert (H1 : Some (value_of (cancer_category_others_description c)) <> Some VNone
               <-> cancer_category_others_description c <> None).
  { rewrite <- value_of_none. split; congruence. }
  assert (H2 : Some (value_of (cancer_category c)) = Some (VStr "others")
               <-> cancer_category c = Some "others").
  { rewrite <- value_of_str. split; congruence. }
  rewrite H1, H2. tauto.
Qed.

(** C10.  Every category of the classifier's enumeration other than
    [others] has a list in the registry that is not empty; the lookup of
    [others] and of null gives the empty list; and for an eligible report
    of such a category no extractor is attempted, nothing is logged as an
    error, [forward] returns unless the structuring call raises an
    exception outside [Exception], and in the document it returns
    [cancer_data] is empty. *)
Theorem registry_covers_categories :
  (forall cat, In cat cancer_categories -> cat <> "others" ->
               registry_get organmodels (Some cat) <> [])
  /\ registry_get organmodels (Some "others") = []
  /\ registry_get organmodels None = []
  /\ (forall report fname (st : state world) c w1,
         analyzer_is_cancer (paragraphs_of report) (st_world st) = (Ok c, w1) ->
         cancer_excision_report c = true ->
         cancer_category c = Some "others" \/ cancer_category c = None ->
         exists r st' new,
           forward cls_name analyzer_is_cancer jsonize globals_get predict
                   strftime report fname st = (r, st')
           /\ st_trace st' = st_trace st ++ new
           /\ filter is_extractor_call new = []
           /\ filter is_log_error new = []
           /\ match structuring (paragraphs_of report) (cancer_category c) w1
              with
              | (Ok _, _) =>
                  exists doc, r = Ok doc /\ cancer_data_of doc = Some []
              | (Raise e, _) => r = Raise e /\ is_exception e = false
              end).
Proof.
  split; [|split; [reflexivity | split; [reflexivity|]]].
  - intros cat Hin Hne. simpl in Hin.
    repeat (destruct Hin as [<- | Hin]; [try discriminate; congruence|]).
    contradiction.
  - intros report fname st c w1 Hc He Hcat.
    assert (Hreg : registry_get organmodels (cancer_category c) = [])
      by (destruct Hcat as [-> | ->]; reflexivity).
    destruct (category_log_no_call c) as (_ & Hcalls & Herrs).
    unfold forward.
    rewrite (forward_eligible organmodels report fname st c w1 Hc He), Hreg.
    assert (Hexc : forall e w2,
              structuring (paragraphs_of report) (cancer_category c) w1
              = (Raise e, w2) -> is_exception e = false).
    { unfold structuring. intros e w2.
      destruct (jsonize _ _ w1) as [[j|e'] w']; [discriminate|].
      destruct (is_exception e') eqn:E; [discriminate|].
      intros H. injection H as <- _. exact E. }
    destruct (structuring _ _ w1) as [[json_report|e] w2] eqn:Es.
    + eexists. eexists. eexists. split; [reflexivity|].
      cbn [st_trace fan_out_trace]. rewrite app_nil_r.
      split; [repeat rewrite <- app_assoc; reflexivity|].
      split; [unfold prologue; rewrite !filter_app, Hcalls; reflexivity|].
      split; [unfold prologue; rewrite !filter_app, Herrs; reflexivity|].
      eexists. split; reflexivity.
    + eexists. eexists. eexists. split; [reflexivity|].
      cbn [st_trace].
      split; [repeat rewrite <- app_assoc; reflexivity|].
      split; [unfold prologue; rewrite !filter_app, Hcalls; reflexivity|].
      split; [unfold prologue; rewrite !filter_app, Herrs; reflexivity|].
      split; [reflexivity | eapply Hexc; reflexivity].
Qed.

(** C6.  Whatever the backend does, the first call of a run is the call of
    the classifier, the only one of the run, and its argument is the
    paragraph sequence of the report as the specification has it: the
    report is cut at its blank-line boundaries, a piece of whitespace only
    is dropped, and every other piece gives, in order, the piece without
    the whitespace at its two ends, whose first and last characters are
    not whitespace.  There is one such sequence for a report, and for the
    report of the specification's example it is A, B, C. *)
Theorem paragraphs_sent_to_classifier :
  (forall reg report fname (st : state world),
      exists ps rest,
        st_trace (snd (forward_with reg report fname st))
        = st_trace st
          ++ [Print ("Processing report: " ++ fname);
              LogInfo ("Processing report: " ++ fname);
              ClassifierCall ps] ++ rest
        /\ spec_paragraphs report ps
        /\ filter is_classifier_call rest = [])
  /\ (forall report ps ps',
         spec_paragraphs report ps -> spec_paragraphs report ps' -> ps = ps')
  /\ (forall report, exists ps, spec_paragraphs report ps)
  /\ spec_paragraphs example_report
       [PyStr.of_string "A"; PyStr.of_string "B"; PyStr.of_string "C"].
Proof.
  split; [|split; [|split]].
  - intros reg report fname st. exists (paragraphs_of report).
    assert (Hspec : spec_paragraphs report (paragraphs_of report))
      by now apply paragraphs_of_spec.
    destruct (analyzer_is_cancer (paragraphs_of report) (st_world st))
      as [[c|e] w1] eqn:Hc.
    + destruct (cancer_excision_report c) eqn:He.
      * rewrite (forward_eligible reg report fname st c w1 Hc He).
        destruct (category_log_no_call c) as (Hlog & _ & _).
        destruct (structuring _ _ w1) as [[json_report|e] w2];
          cbn [snd st_trace]; unfold prologue;
          eexists; (split; [repeat rewrite <- app_assoc; reflexivity|]);
          (split; [exact Hspec|]).
        -- rewrite !filter_app, Hlog, fan_out_trace_no_classifier_call.
           reflexivity.
        -- rewrite !filter_app, Hlog. reflexivity.
      * rewrite (forward_not_eligible reg report fname st c w1 Hc He). simpl.
        eexists. split; [reflexivity|]. split; [exact Hspec | reflexivity].
    + rewrite (forward_classifier_raises reg report fname st e w1 Hc). simpl.
      exists []. split; [reflexivity|]. split; [exact Hspec | reflexivity].
  - intros report ps ps' H H'.
    apply paragraphs_of_spec in H, H'. congruence.
  - intros report. exists (paragraphs_of report). now apply paragraphs_of_spec.
  - now apply paragraphs_of_spec.
Qed.

End OrchestratorFacts.

(** ** The fallback of the normalisers *)

Lemma dump_prediction_unmatched
    (isoformat : value -> result string) (to_float : value -> result spec_float)
    (to_int : value -> result Z) (tolist : value -> result value)
    (exclude_private : bool) (exclude_keys : list string)
    (custom_predicate : option (pykey -> value -> result bool)) (obj : value) :
  unmatched isoformat to_float to_int tolist exclude_private exclude_keys
            custom_predicate obj ->
  dump_prediction isoformat to_float to_int tolist exclude_private
                  exclude_keys custom_predicate obj
  = _to_json_safe isoformat to_float to_int tolist obj.
Proof.
  destruct obj as [ | | | | | | | | | | | cls ident calls]; try contradiction.
  intros (Hdc & Hbm & Hto & Hdi).
  set (D := dump_prediction isoformat to_float to_int tolist exclude_private
                            exclude_keys custom_predicate) in *.
  set (safe := _to_json_safe isoformat to_float to_int tolist
                             (VObject cls ident calls)).
  assert (Hexp : try_exports D calls safe ["to_dict"; "dict"] = safe).
  { apply try_exports_fail. repeat constructor; assumption. }
  destruct cls; try exact Hexp; [|now destruct Hdc].
  specialize (Hbm eq_refl).
  unfold export_fails in Hbm, Hdi.
  change (D (VObject ClsBaseModel ident calls))
    with (match
             match call_then D "model_dump" calls with
             | Some r => r
             | None =>
                 match call_then D "dict" calls with
                 | Some r => r
                 | None => Raise no_dict_error
                 end
             end
           with
           | Ok r => Ok r
           | Raise e =>
               if is_exception e
               then try_exports D calls safe ["to_dict"; "dict"]
               else Raise e
           end).
  destruct (call_then D "model_dump" calls) as [[r|e]|].
  - contradiction.
  - now rewrite Hbm.
  - destruct (call_then D "dict" calls) as [[r|e]|] eqn:Ed.
    + contradiction.
    + now rewrite Hdi.
    + exact Hexp.
Qed.

(** C9, as the code has it.  The extended normaliser [dump_prediction]
    gives a value that none of its earlier rules matches to the JSON-safety
    coercion: a date or a time becomes the text that [isoformat] returns, a
    decimal the float that [float] returns, and what either call raises
    leaves the normaliser; a numpy integer becomes an integer, a numpy
    floating number a float and a numpy array what [tolist] gives, unless
    the conversion raises an exception that derives from [Exception], in
    which case the value is returned as it is; any other value is returned
    as it is.  The plain normaliser, the one the orchestrator calls, has no
    coercion: an object none of whose exports gives a result is returned as
    it is, whatever its class. *)
Theorem json_safe_fallback
    (isoformat : value -> result string) (to_float : value -> result spec_float)
    (to_int : value -> result Z) (tolist : value -> result value)
    (exclude_private : bool) (exclude_keys : list string)
    (custom_predicate : option (pykey -> value -> result bool))
    (cls : pyclass) (ident : string) (calls : list (string * result value)) :
  let obj := VObject cls ident calls in
  (unmatched isoformat to_float to_int tolist exclude_private exclude_keys
             custom_predicate obj ->
   dump_prediction isoformat to_float to_int tolist exclude_private
                   exclude_keys custom_predicate obj
   = match cls with
     | ClsDatetime | ClsDate =>
         match isoformat obj with
         | Ok s => Ok (VStr s)
         | Raise e => Raise e
         end
     | ClsDecimal =>
         match to_float obj with
         | Ok f => Ok (VFloat f)
         | Raise e => Raise e
         end
     | ClsNpFloating =>
         match to_float obj with
         | Ok f => Ok (VFloat f)
         | Raise e => if is_exception e then Ok obj else Raise e
         end
     | ClsNpInteger =>
         match to_int obj with
         | Ok z => Ok (VInt z)
         | Raise e => if is_exception e then Ok obj else Raise e
         end
     | ClsNdarray =>
         match tolist obj with
         | Ok l => Ok l
         | Raise e => if is_exception e then Ok obj else Raise e
         end
     | ClsBaseModel | ClsDataclass | ClsOther => Ok obj
     end)
  /\ (export_fails to_plain "dict" calls ->
      export_fails to_plain "to_dict" calls ->
      to_plain obj = Ok obj
      /\ dump_prediction_plain obj = Ok [(KStr "value", obj)]).
Proof.
  intros obj. split.
  - intros Hu. rewrite (dump_prediction_unmatched _ _ _ _ _ _ _ obj Hu).
    subst obj. unfold _to_json_safe, result_map, converted_or.
    destruct cls; try reflexivity.
    + now destruct (to_int _).
    + now destruct (to_float _).
  - intros Hd Ht.
    assert (Hp : to_plain obj = Ok obj).
    { subst obj.
      change (to_plain (VObject cls ident calls))
        with (try_exports to_plain calls (Ok (VObject cls ident calls))
                          ["dict"; "to_dict"]).
      apply try_exports_fail. repeat constructor; assumption. }
    split; [exact Hp|]. unfold dump_prediction_plain. now rewrite Hp.
Qed.

(** C9 as the specification words it fails for the normaliser of the
    orchestrator: a date that no earlier rule matches does not become
    text, it is returned as the object it was. *)
Lemma plain_normaliser_does_not_coerce :
  export_fails to_plain "dict" [] /\ export_fails to_plain "to_dict" []
  /\ dump_prediction_plain Scenario.a_datetime
     = Ok [(KStr "value", Scenario.a_datetime)]
  /\ forall s, dump_prediction_plain Scenario.a_datetime
               <> Ok [(KStr "value", VStr s)].
Proof.
  repeat split; try exact I. intros s H. discriminate H.
Qed.

(** ** The properties at work on the scenario backend *)

Example paragraphs_example :
  paragraphs_of example_report
  = [PyStr.of_string "A"; PyStr.of_string "B"; PyStr.of_string "C"].
Proof. reflexivity. Qed.

(** Three newlines in a row: the first two separate, the third opens the
    next piece and is trimmed away. *)
Example paragraphs_three_newlines :
  paragraphs_of (PyStr.blank_line ++ PyStr.of_string " x " ++ PyStr.blank_line
                 ++ PyStr.newline :: PyStr.of_string "y")
  = [PyStr.of_string "x"; PyStr.of_string "y"].
Proof. reflexivity. Qed.

(** Whitespace beyond the first 256 code points is trimmed as well: an
    ideographic space, U+3000, and an en quad, U+2000, around a word. *)
Example paragraphs_wide_spaces :
  paragraphs_of (12288%N :: PyStr.of_string "x" ++ [8192%N])
  = [PyStr.of_string "x"].
Proof. reflexivity. Qed.

Example dump_mapping_example :
  dump_prediction_plain
    (VDict [(KStr "_hidden", VInt 1); (KStr "grade", VInt 2)])
  = Ok [(KStr "grade", VInt 2)].
Proof. reflexivity. Qed.

Example dump_prediction_example :
  dump_prediction_plain
    (VPrediction [(KStr "_lm_usage", VNone); (KStr "_note", VInt 1);
                  (KStr "grade", VTuple [VInt 2; VStr "x"])])
  = Ok [(KStr "_note", VInt 1); (KStr "grade", VList [VInt 2; VStr "x"])].
Proof. reflexivity. Qed.

Example dump_scalar_example :
  dump_prediction_plain (VInt 5) = Ok [(KStr "value", VInt 5)].
Proof. reflexivity. Qed.

Example dump_object_example :
  dump_prediction_plain
    (VObject ClsOther "o" [("to_dict", Ok (VDict [(KStr "a", VInt 1)]));
                           ("dict", Raise Scenario.backend_error)])
  = Ok [(KStr "a", VInt 1)].
Proof. reflexivity. Qed.

(** A Prediction with a key that is not a string makes [to_plain] raise:
    an int has no [startswith], a bytes object refuses a string prefix. *)
Example dump_prediction_int_key :
  dump_prediction_plain (VPrediction [(KInt 1, VNone)])
  = Raise (Exn "AttributeError" "'int' object has no attribute 'startswith'"
               true).
Proof. reflexivity. Qed.

Example dump_prediction_bytes_key :
  dump_prediction_plain (VPrediction [(KBytes "a", VNone)])
  = Raise (Exn "TypeError" "a bytes-like object is required, not 'str'" true).
Proof. reflexivity. Qed.

(** The end-to-end scenario of the specification: [breast] is mapped to
    [X; Y], [X] gives a grade and [Y] fails. *)
Example scenario_breast :
  let out := Scenario.run (Ok Scenario.breast) None Scenario.reg example_report in
  fst out = Ok (document_with Scenario.breast [(KStr "grade", VInt 2)])
  /\ filter is_log_error (st_trace (snd out))
     = [LogError "Error processing Y: timeout"]
  /\ st_world (snd out) = 4.
Proof. repeat split. Qed.

Lemma not_eligible_output_witness :
  exists doc new,
    Scenario.run (Ok Scenario.not_eligible) None Scenario.reg example_report
    = (Ok doc, State 1 (st_trace Scenario.start ++ new))
    /\ doc = VDict [(KStr "cancer_excision_report", VBool false);
                    (KStr "cancer_category", VNone);
                    (KStr "cancer_data", VDict [])]
    /\ doc_get doc "cancer_category_others_description" = None
    /\ filter is_later_stage_call new = [].
Proof.
  exact (not_eligible_output
           Scenario.world Scenario.signature Scenario.cls_name
           (Scenario.analyzer_is_cancer (Ok Scenario.not_eligible))
           (Scenario.jsonize None) Scenario.globals_get Scenario.predict
           Scenario.strftime Scenario.reg example_report "report-1"
           Scenario.start Scenario.not_eligible 1 eq_refl eq_refl).
Defined.

Lemma last_write_wins_witness :
  registry_get Scenario.reg (cancer_category Scenario.lung_described) = ["A"; "B"]
  /\ dump_prediction_plain
       (VPrediction [(KStr "margin", VStr "free"); (KStr "size", VInt 12)])
     = Ok [(KStr "margin", VStr "free"); (KStr "size", VInt 12)]
  /\ exists doc st' data,
       Scenario.run (Ok Scenario.lung_described) None Scenario.reg example_report
       = (Ok doc, st')
       /\ cancer_data_of doc = Some data
       /\ dict_get data (KStr "margin") = Some (VStr "involved").
Proof.
  split; [reflexivity | split; [reflexivity|]].
  exact (last_write_wins
           Scenario.world Scenario.signature Scenario.cls_name
           (Scenario.analyzer_is_cancer (Ok Scenario.lung_described))
           (Scenario.jsonize None) Scenario.globals_get Scenario.predict
           Scenario.strftime Scenario.reg example_report "report-1"
           Scenario.start Scenario.lung_described 1
           (VDict [(KStr "diagnosis", VStr "carcinoma")]) 2
           [Merged "A" [(KStr "margin", VStr "free"); (KStr "size", VInt 12)]]
           [] "B" [(KStr "margin", VStr "involved")]
           (KStr "margin") (VStr "involved")
           eq_refl eq_refl eq_refl eq_refl eq_refl eq_refl
           (fun a (H : In a []) => match H with end)).
Defined.

Lemma extractor_failures_isolated_witness :
  exists r st' new,
    Scenario.run (Ok Scenario.breast) None Scenario.reg example_report
    = (r, st')
    /\ st_trace st' = st_trace Scenario.start ++ new
    /\ filter is_log_error new = [LogError "Error processing Y: timeout"]
    /\ filter is_extractor_call new
       = [ExtractorCall "X" example_report
            (VDict [(KStr "diagnosis", VStr "carcinoma")]);
          ExtractorCall "Y" example_report
            (VDict [(KStr "diagnosis", VStr "carcinoma")])]
    /\ exists doc,
         r = Ok doc /\ cancer_data_of doc = Some [(KStr "grade", VInt 2)].
Proof.
  destruct (extractor_failures_isolated
              Scenario.world Scenario.signature Scenario.cls_name
              (Scenario.analyzer_is_cancer (Ok Scenario.breast))
              (Scenario.jsonize None) Scenario.globals_get Scenario.predict
              Scenario.strftime Scenario.reg example_report "report-1"
              Scenario.start Scenario.breast 1
              (VDict [(KStr "diagnosis", VStr "carcinoma")]) 2
              eq_refl eq_refl eq_refl)
    as (r & st' & new & Hrun & Htrace & Herr & Hcall & _ & Hret & _).
  exists r, st', new. repeat split; try assumption.
  exact (proj2 (Hret eq_refl)).
Defined.

(** C3 as the specification words it fails: the registry list of [thyroid]
    is [X; K; A] and the call of [K] is interrupted from the keyboard.  The
    exception is not caught: [forward] raises it and returns no document,
    nothing is logged for [K], and [A] is never attempted. *)
Lemma extractor_interrupt_stops_fan_out :
  let out :=
    Scenario.run (Ok Scenario.thyroid) None Scenario.reg example_report in
  registry_get Scenario.reg (cancer_category Scenario.thyroid) = ["X"; "K"; "A"]
  /\ fst out = Raise Scenario.keyboard_interrupt
  /\ filter is_log_error (st_trace (snd out)) = []
  /\ filter is_extractor_call (st_trace (snd out))
     = [ExtractorCall "X" example_report
          (VDict [(KStr "diagnosis", VStr "carcinoma")]);
        ExtractorCall "K" example_report
          (VDict [(KStr "diagnosis", VStr "carcinoma")])].
Proof. repeat split. Qed.

Lemma description_copied_from_classifier_witness :
  let out :=
    Scenario.run (Ok Scenario.lung_described) None Scenario.reg example_report in
  fst out
  = Ok (document_with Scenario.lung_described
          [(KStr "margin", VStr "involved"); (KStr "size", VInt 12)])
  /\ doc_get (document_with Scenario.lung_described
                [(KStr "margin", VStr "involved"); (KStr "size", VInt 12)])
             "cancer_category" = Some (VStr "lung")
  /\ doc_get (document_with Scenario.lung_described
                [(KStr "margin", VStr "involved"); (KStr "size", VInt 12)])
             "cancer_category_others_description"
     = Some (VStr "left upper lobe").
Proof.
  intros out. split; [reflexivity|].
  destruct (description_copied_from_classifier
              Scenario.world Scenario.signature Scenario.cls_name
              (Scenario.analyzer_is_cancer (Ok Scenario.lung_described))
              (Scenario.jsonize None) Scenario.globals_get Scenario.predict
              Scenario.strftime Scenario.reg example_report "report-1"
              Scenario.start Scenario.lung_described 1
              (document_with Scenario.lung_described
                 [(KStr "margin", VStr "involved"); (KStr "size", VInt 12)])
              (snd out) eq_refl eq_refl eq_refl)
    as (Hcat & Hdesc & _).
  split; assumption.
Defined.

(** C4 as the specification words it fails: the classifier may answer a
    category that is not the designated one together with a description,
    and the output document then has a description that is not null under
    the category [lung]. *)
Lemma description_without_others :
  exists d,
    fst (Scenario.run (Ok Scenario.lung_described) None Scenario.reg
                      example_report) = Ok (VDict d)
    /\ dict_get d (KStr "cancer_category") = Some (VStr "lung")
    /\ dict_get d (KStr "cancer_category_others_description")
       = Some (VStr "left upper lobe")
    /\ ~ (dict_get d (KStr "cancer_category_others_description") <> Some VNone
          <-> dict_get d (KStr "cancer_category") = Some (VStr "other"))
    /\ ~ (dict_get d (KStr "cancer_category_others_description") <> Some VNone
          <-> dict_get d (KStr "cancer_category") = Some (VStr "others")).
Proof.
  eexists. split; [reflexivity|]. split; [reflexivity|].
  split; [reflexivity|].
  split; intros [H _]; simpl in H;
    assert (Hne : Some (VStr "left upper lobe") <> Some VNone) by discriminate;
    specialize (H Hne); discriminate H.
Qed.

Lemma classification_fatal_structuring_degrades_witness :
  Scenario.run (Raise (Exn "BackendError" "down" true)) None Scenario.reg
               example_report
  = (Raise (Exn "BackendError" "down" true),
     State 1 (prologue example_report "report-1"))
  /\ fst (Scenario.run (Ok Scenario.breast) (Some Scenario.backend_error)
                       Scenario.reg example_report)
     = Ok (document_with Scenario.breast [(KStr "grade", VInt 2)])
  /\ filter is_extractor_call
       (st_trace (snd (Scenario.run (Ok Scenario.breast)
                                    (Some Scenario.backend_error)
                                    Scenario.reg example_report)))
     = [ExtractorCall "X" example_report (VDict []);
        ExtractorCall "Y" example_report (VDict [])]
  /\ fst (Scenario.run (Ok Scenario.breast) (Some Scenario.keyboard_interrupt)
                       Scenario.reg example_report)
     = Raise Scenario.keyboard_interrupt.
Proof.
  pose proof (classification_fatal_structuring_degrades
                Scenario.world Scenario.signature Scenario.cls_name
                (Scenario.analyzer_is_cancer
                   (Raise (Exn "BackendError" "down" true)))
                (Scenario.jsonize None) Scenario.globals_get Scenario.predict
                Scenario.strftime Scenario.reg example_report "report-1"
                Scenario.start) as [Hfatal _].
  pose proof (classification_fatal_structuring_degrades
                Scenario.world Scenario.signature Scenario.cls_name
                (Scenario.analyzer_is_cancer (Ok Scenario.breast))
                (Scenario.jsonize (Some Scenario.backend_error))
                Scenario.globals_get Scenario.predict
                Scenario.strftime Scenario.reg example_report "report-1"
                Scenario.start) as (_ & Hdegrade & _).
  pose proof (classification_fatal_structuring_degrades
                Scenario.world Scenario.signature Scenario.cls_name
                (Scenario.analyzer_is_cancer (Ok Scenario.breast))
                (Scenario.jsonize (Some Scenario.keyboard_interrupt))
                Scenario.globals_get Scenario.predict
                Scenario.strftime Scenario.reg example_report "report-1"
                Scenario.start) as (_ & _ & Hleaves).
  specialize (Hfatal (Exn "BackendError" "down" true) 1 eq_refl).
  specialize (Hdegrade Scenario.breast 1 Scenario.backend_error 2
                       eq_refl eq_refl eq_refl eq_refl).
  specialize (Hleaves Scenario.breast 1 Scenario.keyboard_interrupt 2
                      eq_refl eq_refl eq_refl eq_refl).
  split; [exact Hfatal|].
  unfold Scenario.run. rewrite Hdegrade, Hleaves. repeat split.
Defined.

(** C5 as the specification words it fails: the structuring call is
    interrupted from the keyboard.  The exception is not caught: it leaves
    [forward], no document is returned and no extractor of the registry
    list [X; Y] is called. *)
Lemma structuring_interrupt_leaves_forward :
  let out :=
    Scenario.run (Ok Scenario.breast) (Some Scenario.keyboard_interrupt)
                 Scenario.reg example_report in
  registry_get Scenario.reg (cancer_category Scenario.breast) = ["X"; "Y"]
  /\ fst out = Raise Scenario.keyboard_interrupt
  /\ filter is_extractor_call (st_trace (snd out)) = []
  /\ is_exception Scenario.keyboard_interrupt = false.
Proof. repeat split. Qed.

Lemma paragraphs_sent_to_classifier_witness :
  spec_paragraphs example_report (paragraphs_of example_report)
  /\ paragraphs_of example_report
     = [PyStr.of_string "A"; PyStr.of_string "B"; PyStr.of_string "C"].
Proof.
  destruct (paragraphs_sent_to_classifier
              Scenario.world Scenario.signature Scenario.cls_name
              (Scenario.analyzer_is_cancer (Ok Scenario.not_eligible))
              (Scenario.jsonize None) Scenario.globals_get Scenario.predict
              Scenario.strftime) as (_ & Hone & _ & Hexample).
  assert (Hcode : spec_paragraphs example_report (paragraphs_of example_report))
    by now apply paragraphs_of_spec.
  split; [exact Hcode|].
  exact (Hone example_report _ _ Hcode Hexample).
Defined.

Lemma normaliser_key_exclusion_witness :
  dump_prediction_plain (VDict [(KStr "_hidden", VInt 1); (KStr "grade", VInt 2)])
  = Ok [(KStr "grade", VInt 2)]
  /\ dump_prediction_plain (VDict [(KStr "grade", VInt 2); (KStr "_hidden", VInt 1)])
     = Ok [(KStr "grade", VInt 2)].
Proof.
  exact (proj2 (proj2 normaliser_key_exclusion)
           "_hidden" "grade" (VInt 1) (VInt 2) (VInt 2)
           eq_refl eq_refl eq_refl).
Defined.

Lemma dump_prediction_plain_idempotent_witness :
  let v := VDict [(KStr "stage", VList [VInt 1; VTuple [VStr "x"; VNone]]);
                  (KStr "nodes", VDict [(KStr "count", VInt 3)])] in
  plain_structure v = true
  /\ exists d, dump_prediction_plain v = Ok d
               /\ dump_prediction_plain (VDict d) = Ok d.
Proof.
  intros v. split; [reflexivity|].
  apply (dump_prediction_plain_idempotent v). reflexivity.
Defined.

Lemma json_safe_fallback_witness :
  dump_prediction Scenario.isoformat Scenario.to_float Scenario.to_int
                  Scenario.tolist true bookkeeping_prefixes None
                  Scenario.a_datetime
  = Ok (VStr "2025-10-05T12:00:00")
  /\ dump_prediction Scenario.isoformat Scenario.to_float Scenario.to_int
                     Scenario.tolist true bookkeeping_prefixes None
                     Scenario.a_signalling_nan
     = Raise Scenario.snan_error
  /\ dump_prediction_plain Scenario.a_datetime
     = Ok [(KStr "value", Scenario.a_datetime)].
Proof.
  destruct (json_safe_fallback
              Scenario.isoformat Scenario.to_float Scenario.to_int
              Scenario.tolist true bookkeeping_prefixes None
              ClsDatetime "2025-10-05T12:00:00" []) as [Hext Hplain].
  destruct (json_safe_fallback
              Scenario.isoformat Scenario.to_float Scenario.to_int
              Scenario.tolist true bookkeeping_prefixes None
              ClsDecimal "sNaN" []) as [Hnan _].
  split; [|split].
  - apply Hext. simpl. repeat split; try discriminate.
  - apply Hnan. simpl. repeat split; try discriminate.
  - apply Hplain; exact I.
Defined.

Lemma registry_covers_categories_witness :
  registry_get organmodels (Some "breast") <> []
  /\ exists r st' new,
       forward Scenario.cls_name
               (Scenario.analyzer_is_cancer (Ok Scenario.others_undescribed))
               (Scenario.jsonize None) Scenario.globals_get Scenario.predict
               Scenario.strftime example_report "report-1" Scenario.start
       = (r, st')
       /\ st_trace st' = st_trace Scenario.start ++ new
       /\ filter is_extractor_call new = []
       /\ filter is_log_error new = []
       /\ exists doc, r = Ok doc /\ cancer_data_of doc = Some [].
Proof.
  destruct (registry_covers_categories
              Scenario.world Scenario.signature Scenario.cls_name
              (Scenario.analyzer_is_cancer (Ok Scenario.others_undescribed))
              (Scenario.jsonize None) Scenario.globals_get Scenario.predict
              Scenario.strftime) as (Hlists & _ & _ & Hrun).
  split.
  - apply Hlists; [simpl; tauto | discriminate].
  - apply (Hrun example_report "report-1" Scenario.start
                Scenario.others_undescribed 1 eq_refl eq_refl).
    left. reflexivity.
Defined.

(** * More of the repository *)

(** ** The plain normaliser: errors, shape and order *)









Lemma forallb_entries {A : Type} (p : value -> bool) (d : list (A * value)) :
  Forall (fun kv => p (snd kv) = true) d ->
  forallb (fun '(_, x) => p x) d = true.
Proof.
  intros H. apply forallb_forall. intros [k x] Hin.
  rewrite Forall_forall in H. exact (H _ Hin).
Qed.

Lemma to_plain_plain_form (v : value) :
  forall r, to_plain v = Ok r -> plain_form r = true.
Proof.
  assert (Hseq : forall elems,
    Forall (fun x => forall r, to_plain x = Ok r -> plain_form r = true) elems ->
    forall l, list_comprehension to_plain elems = Ok l ->
              forallb plain_form l = true).
  { intros elems H l Hl. rewrite Forall_forall in H.
    apply list_comprehension_each in Hl.
    apply forallb_forall. apply Forall_forall.
    apply (Forall2_image _ _ _ _ Hl). intros x y Hin Hxy. eauto. }
  assert (Hmap : forall excluded items,
    Forall (fun kv => forall r, to_plain (snd kv) = Ok r -> plain_form r = true)
           items ->
    forall d, dict_comprehension excluded to_plain items [] = Ok d ->
              plain_form (VDict d) = true).
  { intros excluded items H d Hd. rewrite Forall_forall in H. simpl.
    apply forallb_entries.
    eapply dict_comprehension_entries; [|exact Hd | constructor].
    intros k x x' Hin _ Hx. simpl. exact (H _ Hin _ Hx). }
  induction v using value_induction; intros r Hr; simpl in Hr;
    try (injection Hr as <-; reflexivity).
  - destruct (dict_comprehension _ _ store []) as [d|e] eqn:E; [|discriminate].
    injection Hr as <-. eapply Hmap; eassumption.
  - destruct (dict_comprehension _ _ items []) as [d|e] eqn:E; [|discriminate].
    injection Hr as <-. eapply Hmap; eassumption.
  - destruct (dict_comprehension _ _ items []) as [d|e] eqn:E; [|discriminate].
    injection Hr as <-. eapply Hmap; eassumption.
  - destruct (list_comprehension to_plain elems) as [l|e] eqn:E;
      [|discriminate]. injection Hr as <-. simpl. eauto.
  - destruct (list_comprehension to_plain elems) as [l|e] eqn:E;
      [|discriminate]. injection Hr as <-. simpl. eauto.
  - destruct (list_comprehension to_plain elems) as [l|e] eqn:E;
      [|discriminate]. injection Hr as <-. simpl. eauto.
  - apply try_exports_ok in Hr as [Hr | (attr & _ & Hc)].
    + injection Hr as <-. reflexivity.
    + apply call_then_ok in Hc as (y & Hin & Hy).
      rewrite Forall_forall in H. exact (H _ Hin y eq_refl _ Hy).
Qed.

(** X2.  What the plain normaliser returns has dicts and lists as its only
    containers: every Prediction and every other mapping has become a dict
    and every tuple and set a list, at any depth.  An object without a
    working export stays as a leaf. *)
Theorem plain_normaliser_shape (v : value) (d : dict) :
  dump_prediction_plain v = Ok d -> plain_form (VDict d) = true.
Proof.
  unfold dump_prediction_plain.
  destruct (to_plain v) as [r|e] eqn:E; [|discriminate].
  pose proof (to_plain_plain_form v r E) as Hr.
  destruct r; intros H; injection H as <-; simpl in *;
    try discriminate; rewrite ?Hr; reflexivity.
Qed.

Lemma plain_normaliser_shape_witness :
  let v := VPrediction [(KStr "nodes", VTuple [VSet [VInt 1]; VPrediction []])] in
  dump_prediction_plain v
  = Ok [(KStr "nodes", VList [VList [VInt 1]; VDict []])]
  /\ plain_form (VDict [(KStr "nodes", VList [VList [VInt 1]; VDict []])]) = true.
Proof.
  intros v. split; [reflexivity|].
  apply (plain_normaliser_shape v). reflexivity.
Defined.

Lemma dict_comprehension_order (excluded : pykey -> result bool)
    (f : value -> result value) (items : list (pykey * value)) :
  forall acc d,
    dict_comprehension excluded f items acc = Ok d ->
    NoDup (dict_keys acc ++ dict_keys items) ->
    exists d',
      d = acc ++ d'
      /\ Forall2 (fun kv kr => fst kr = fst kv /\ f (snd kv) = Ok (snd kr))
                 (kept_entries excluded items) d'.
Proof.
  induction items as [|[k0 v0] rest IH]; intros acc d H Hnd; simpl in H.
  - injection H as <-. exists []. split; [now rewrite app_nil_r | constructor].
  - simpl in Hnd. unfold kept_entries. simpl.
    destruct (excluded k0) as [[|]|e] eqn:Ex; try discriminate.
    + apply IH; [exact H | eapply NoDup_remove_1; exact Hnd].
    + destruct (f v0) as [v'|e] eqn:Ef; [|discriminate].
      assert (Hfresh : ~ In k0 (dict_keys acc)).
      { apply NoDup_remove_2 in Hnd. rewrite in_app_iff in Hnd. tauto. }
      rewrite dict_set_fresh in H by exact Hfresh.
      destruct (IH _ _ H) as (d' & -> & HF).
      { unfold dict_keys in *. rewrite map_app. simpl.
        now rewrite <- app_assoc. }
      exists ((k0, v') :: d'). split; [now rewrite <- app_assoc|].
      constructor; [split; [reflexivity | exact Ef] | exact HF].
Qed.

(** X3.  The normalised mapping is the kept entries of the input in their
    order, each with its value normalised: nothing is reordered, for a
    mapping and for a Prediction alike. *)
Theorem plain_normaliser_keeps_order (items : list (pykey * value)) (d : dict) :
  NoDup (dict_keys items) ->
  (dump_prediction_plain (VDict items) = Ok d ->
   Forall2 (fun kv kr => fst kr = fst kv /\ to_plain (snd kv) = Ok (snd kr))
           (kept_entries mapping_key_excluded items) d)
  /\ (dump_prediction_plain (VPrediction items) = Ok d ->
      Forall2 (fun kv kr => fst kr = fst kv /\ to_plain (snd kv) = Ok (snd kr))
              (kept_entries prediction_key_excluded items) d).
Proof.
  intros Hnd. split; intros H.
  - apply dump_prediction_plain_mapping in H.
    destruct (dict_comprehension_order _ _ _ _ _ H Hnd) as (d' & -> & HF).
    exact HF.
  - apply dump_prediction_plain_prediction in H.
    destruct (dict_comprehension_order _ _ _ _ _ H Hnd) as (d' & -> & HF).
    exact HF.
Qed.

Lemma plain_normaliser_keeps_order_witness :
  let items := [(KStr "stage", VTuple [VInt 2]); (KStr "_raw", VNone);
                (KStr "grade", VInt 3)] in
  NoDup (dict_keys items)
  /\ dump_prediction_plain (VDict items)
     = Ok [(KStr "stage", VList [VInt 2]); (KStr "grade", VInt 3)]
  /\ Forall2 (fun kv kr => fst kr = fst kv /\ to_plain (snd kv) = Ok (snd kr))
             (kept_entries mapping_key_excluded items)
             [(KStr "stage", VList [VInt 2]); (KStr "grade", VInt 3)].
Proof.
  intros items.
  assert (Hnd : NoDup (dict_keys items)).
  { repeat constructor; simpl; intuition discriminate. }
  split; [exact Hnd | split; [reflexivity|]].
  apply (proj1 (plain_normaliser_keeps_order items _ Hnd)). reflexivity.
Defined.

(** ** The extended normaliser: what it drops, when it returns *)

Lemma dict_loop_comprehension (skipped : pykey -> value -> result bool)
    (excluded : pykey -> result bool) (f g : value -> result value)
    (items : list (pykey * value)) :
  (forall k v, In (k, v) items ->
               skipped k v = excluded k /\ f v = g v) ->
  forall acc, dict_loop skipped f items acc
              = dict_comprehension excluded g items acc.
Proof.
  induction items as [|[k0 v0] rest IH]; intros Hag acc; simpl; [reflexivity|].
  destruct (Hag k0 v0 (or_introl eq_refl)) as [-> <-].
  assert (Hrest : forall k v, In (k, v) rest ->
             skipped k v = excluded k /\ f v = g v)
    by (intros; apply Hag; simpl; auto).
  destruct (excluded k0) as [[|]|e]; [now apply IH | | reflexivity].
  destruct (f v0); [now apply IH | reflexivity].
Qed.

Lemma list_comprehension_ext (f g : value -> result value) (l : list value) :
  (forall v, In v l -> f v = g v) ->
  list_comprehension f l = list_comprehension g l.
Proof.
  induction l as [|v rest IH]; intros Hag; simpl; [reflexivity|].
  rewrite (Hag v (or_introl eq_refl)), IH; [reflexivity|].
  intros; apply Hag; simpl; auto.
Qed.

Lemma dict_loop_entries (skipped : pykey -> value -> result bool)
    (f : value -> result value) (Q : pykey * value -> Prop)
    (items : list (pykey * value)) :
  (forall k v v', In (k, v) items -> skipped k v = Ok false ->
                  f v = Ok v' -> Q (k, v')) ->
  forall acc d,
    dict_loop skipped f items acc = Ok d -> Forall Q acc -> Forall Q d.
Proof.
  induction items as [|[k0 v0] rest IH]; intros HQ acc d H Hacc; simpl in H.
  - now injection H as <-.
  - assert (HQ' : forall k v v', In (k, v) rest -> skipped k v = Ok false ->
                                 f v = Ok v' -> Q (k, v'))
      by (intros; eapply HQ; simpl; eauto).
    destruct (skipped k0 v0) as [[|]|e0] eqn:Es;
      [eapply IH; eassumption | | discriminate].
    destruct (f v0) as [v'|e] eqn:Ef; [|discriminate].
    eapply IH; [exact HQ' | eassumption |].
    apply Forall_forall. intros e He.
    destruct (in_dict_set _ _ _ _ He) as [Hin | ->].
    + eapply Forall_forall; eassumption.
    + eapply HQ; simpl; eauto.
Qed.


Lemma dict_loop_keys (skipped : pykey -> value -> result bool)
    (f : value -> result value) (items : list (pykey * value)) :
  forall acc d,
    dict_loop skipped f items acc = Ok d ->
    forall k, In k (dict_keys d) <->
              In k (dict_keys acc)
              \/ exists v, In (k, v) items /\ skipped k v = Ok false.
Proof.
  induction items as [|[k0 v0] rest IH]; intros acc d H k; simpl in H.
  - injection H as <-. split; [tauto|]. intros [Hin | (v & [] & _)]. exact Hin.
  - destruct (skipped k0 v0) as [[|]|e0] eqn:Es; [| |discriminate].
    + rewrite (IH _ _ H). split.
      * intros [Hin | (v & Hin & Hs)]; [now left|]. right. exists v.
        simpl. auto.
      * intros [Hin | (v & [Heq | Hin] & Hs)]; [now left | | right; eauto].
        injection Heq as <- <-. congruence.
    + destruct (f v0) as [v'|e]; [|discriminate].
      rewrite (IH _ _ H), in_dict_keys_set. split.
      * intros [[-> | Hin] | (v & Hin & Hs)].
        -- right. exists v0. simpl. auto.
        -- now left.
        -- right. exists v. simpl. auto.
      * intros [Hin | (v & [Heq | Hin] & Hs)].
        -- left. now right.
        -- injection Heq as <- <-. left. now left.
        -- right. eauto.
Qed.

Lemma dict_entry_skipped_private (exclude_keys : list string)
    (k : pykey) (v : value) :
  Forall (fun s => PyStr.startswith "_" s = true) exclude_keys ->
  dict_entry_skipped true exclude_keys None k v = mapping_key_excluded k.
Proof.
  intros Hall. destruct k as [s| | |]; try reflexivity.
  unfold mapping_key_excluded, dict_entry_skipped, store_entry_skipped,
    in_exclude_keys, is_private, vetoed. simpl.
  destruct (existsb (String.eqb s) exclude_keys) eqn:E.
  - apply existsb_exists in E as (x & Hin & Heq).
    apply String.eqb_eq in Heq. subst x.
    rewrite Forall_forall in Hall. now rewrite (Hall _ Hin).
  - now destruct (PyStr.startswith "_" s).
Qed.

(** X4.  On a structure of primitives, dicts and sequences the two
    normalisers agree, when the extended one is called with
    [exclude_private=True], no predicate, and names to exclude that all
    start with the internal marker, as its defaults do. *)
Theorem extended_agrees_with_plain
    (isoformat : value -> result string) (to_float : value -> result spec_float)
    (to_int : value -> result Z) (tolist : value -> result value)
    (exclude_keys : list string) (v : value) :
  Forall (fun s => PyStr.startswith "_" s = true) exclude_keys ->
  dict_structure v = true ->
  dump_prediction isoformat to_float to_int tolist true exclude_keys None v
  = to_plain v.
Proof.
  intros Hall.
  assert (Hseq : forall elems,
    Forall (fun x => dict_structure x = true ->
              dump_prediction isoformat to_float to_int tolist true
                              exclude_keys None x = to_plain x) elems ->
    forallb dict_structure elems = true ->
    list_comprehension
      (dump_prediction isoformat to_float to_int tolist true exclude_keys None)
      elems
    = list_comprehension to_plain elems).
  { intros elems H Hs. rewrite forallb_forall in Hs.
    rewrite Forall_forall in H. apply list_comprehension_ext. auto. }
  induction v using value_induction; intros Hs; simpl in Hs;
    try discriminate; try reflexivity.
  - rewrite forallb_forall in Hs. rewrite Forall_forall in H. simpl.
    rewrite (dict_loop_comprehension _ mapping_key_excluded _ to_plain);
      [reflexivity|].
    intros k x Hin. split; [now apply dict_entry_skipped_private|].
    apply (H _ Hin). specialize (Hs _ Hin). exact Hs.
  - simpl. now rewrite (Hseq _ H Hs).
  - simpl. now rewrite (Hseq _ H Hs).
  - simpl. now rewrite (Hseq _ H Hs).
Qed.

Lemma extended_agrees_with_plain_witness :
  let v := VDict [(KStr "_inputs", VNone);
                  (KStr "margin", VTuple [VStr "free"; VInt 3]);
                  (KInt 7, VSet [])] in
  Forall (fun s => PyStr.startswith "_" s = true) bookkeeping_prefixes
  /\ dump_prediction Scenario.isoformat Scenario.to_float Scenario.to_int
                     Scenario.tolist true bookkeeping_prefixes None v
     = to_plain v
  /\ to_plain v
     = Ok (VDict [(KStr "margin", VList [VStr "free"; VInt 3]);
                  (KInt 7, VList [])]).
Proof.
  intros v.
  assert (Hall : Forall (fun s => PyStr.startswith "_" s = true)
                        bookkeeping_prefixes)
    by (repeat constructor).
  split; [exact Hall | split; [|reflexivity]].
  apply (extended_agrees_with_plain _ _ _ _ _ v Hall). reflexivity.
Defined.

Lemma forallb_keys_all (key_ok : pykey -> bool) (d : dict) :
  Forall (fun kv => key_ok (fst kv) = true /\ keys_all key_ok (snd kv) = true) d ->
  forallb (fun '(k, x) => key_ok k && keys_all key_ok x) d = true.
Proof.
  intros H. apply forallb_forall. intros [k x] Hin.
  rewrite Forall_forall in H. destruct (H _ Hin) as [Hk Hx].
  simpl in Hk, Hx. now rewrite Hk, Hx.
Qed.

Lemma store_kept_visible (exclude_private : bool) (exclude_keys : list string)
    (custom_predicate : option (pykey -> value -> result bool))
    (k : pykey) (v : value) :
  store_entry_skipped exclude_private exclude_keys custom_predicate k v
  = Ok false ->
  visible_key exclude_private exclude_keys k = true.
Proof.
  unfold store_entry_skipped, visible_key.
  destruct (in_exclude_keys exclude_keys k); [discriminate|].
  destruct exclude_private; [|reflexivity].
  simpl. destruct (is_private k); [discriminate | reflexivity].
Qed.

Lemma dict_kept_visible (exclude_private : bool) (exclude_keys : list string)
    (custom_predicate : option (pykey -> value -> result bool))
    (k : pykey) (v : value) :
  dict_entry_skipped exclude_private exclude_keys custom_predicate k v
  = Ok false ->
  visible_key exclude_private exclude_keys k = true.
Proof.
  destruct k as [s| | |];
    try (intros _; unfold visible_key; simpl; now destruct exclude_private).
  apply (store_kept_visible exclude_private exclude_keys custom_predicate
                            (KStr s) v).
Qed.

Lemma json_safe_keys_all
    (isoformat : value -> result string) (to_float : value -> result spec_float)
    (to_int : value -> result Z) (tolist : value -> result value)
    (ok : pykey -> bool) (x r : value) :
  (forall y l, tolist y = Ok l -> keys_all ok l = true) ->
  keys_all ok x = true ->
  _to_json_safe isoformat to_float to_int tolist x = Ok r ->
  keys_all ok r = true.
Proof.
  intros Htolist Hx.
  destruct x as [ | | | | | | | | | | | cls ident calls];
    try (intros H; injection H as <-; exact Hx).
  unfold _to_json_safe, result_map, converted_or.
  destruct cls; try (intros H; injection H as <-; reflexivity).
  - destruct (isoformat _); intros H; [injection H as <-; reflexivity
                                      | discriminate].
  - destruct (isoformat _); intros H; [injection H as <-; reflexivity
                                      | discriminate].
  - destruct (to_float _); intros H; [injection H as <-; reflexivity
                                     | discriminate].
  - destruct (to_int _) as [z|e]; [intros H; injection H as <-; reflexivity|].
    destruct (is_exception e); intros H; [injection H as <-; reflexivity
                                         | discriminate].
  - destruct (to_float _) as [z|e]; [intros H; injection H as <-; reflexivity|].
    destruct (is_exception e); intros H; [injection H as <-; reflexivity
                                         | discriminate].
  - destruct (tolist _) as [l|e] eqn:El.
    + intros H. injection H as <-. eapply Htolist. exact El.
    + destruct (is_exception e); intros H; [injection H as <-; reflexivity
                                           | discriminate].
Qed.

(** X5.  Whatever the extended normaliser returns, no dict in it, at any
    depth of dicts and lists, has a key listed in [exclude_keys], nor,
    under [exclude_private=True], a string key that starts with the
    internal marker; this holds for what Predictions become as for dicts.
    What [tolist] gives for a numpy array is taken to have no such key.  A
    mapping that is not a dict is not filtered: without an export it is
    returned as it is, with all its keys. *)
Theorem extended_hides_keys
    (isoformat : value -> result string) (to_float : value -> result spec_float)
    (to_int : value -> result Z) (tolist : value -> result value)
    (exclude_private : bool) (exclude_keys : list string)
    (custom_predicate : option (pykey -> value -> result bool)) :
  (forall x l, tolist x = Ok l ->
               keys_all (visible_key exclude_private exclude_keys) l = true) ->
  (forall v r,
      dump_prediction isoformat to_float to_int tolist exclude_private
                      exclude_keys custom_predicate v = Ok r ->
      keys_all (visible_key exclude_private exclude_keys) r = true)
  /\ (forall items,
         dump_prediction isoformat to_float to_int tolist exclude_private
                         exclude_keys custom_predicate (VMapping items [])
         = Ok (VMapping items [])).
Proof.
  intros Htolist. split; [|reflexivity].
  set (D := dump_prediction isoformat to_float to_int tolist exclude_private
                            exclude_keys custom_predicate).
  set (ok := visible_key exclude_private exclude_keys) in *.
  assert (Hseq : forall elems,
    Forall (fun x => forall r, D x = Ok r -> keys_all ok r = true) elems ->
    forall l, list_comprehension D elems = Ok l ->
              forallb (keys_all ok) l = true).
  { intros elems H l Hl. rewrite Forall_forall in H.
    apply list_comprehension_each in Hl.
    apply forallb_forall. apply Forall_forall.
    apply (Forall2_image _ _ _ _ Hl). intros x y Hin Hxy. eauto. }
  assert (Hexported : forall calls obj,
    Forall (fun c => forall v, snd c = Ok v ->
                     forall r, D v = Ok r -> keys_all ok r = true) calls ->
    keys_all ok obj = true ->
    forall attrs r,
      try_exports D calls (_to_json_safe isoformat to_float to_int tolist obj)
                  attrs = Ok r ->
      keys_all ok r = true).
  { intros calls obj H Hobj attrs r Hr.
    apply try_exports_ok in Hr as [Hr | (attr & _ & Hc)].
    - eapply json_safe_keys_all; eassumption.
    - apply call_then_ok in Hc as (y & Hin & Hy).
      rewrite Forall_forall in H. exact (H _ Hin y eq_refl _ Hy). }
  induction v using value_induction; intros r Hr; simpl in Hr; fold D in Hr;
    try (injection Hr as <-; reflexivity).
  - destruct (dict_loop _ D store []) as [d|e] eqn:E; [|discriminate].
    injection Hr as <-. simpl. apply forallb_keys_all.
    rewrite Forall_forall in H.
    eapply dict_loop_entries; [|exact E | constructor].
    intros k x x' Hin Hk Hx. simpl. split.
    + eapply store_kept_visible; exact Hk.
    + exact (H _ Hin _ Hx).
  - destruct (dict_loop _ D items []) as [d|e] eqn:E; [|discriminate].
    injection Hr as <-. simpl. apply forallb_keys_all.
    rewrite Forall_forall in H.
    eapply dict_loop_entries; [|exact E | constructor].
    intros k x x' Hin Hk Hx. simpl. split.
    + eapply dict_kept_visible; exact Hk.
    + exact (H _ Hin _ Hx).
  - eapply (Hexported calls (VMapping items calls)); try eassumption.
    reflexivity.
  - destruct (list_comprehension D elems) as [l|e] eqn:E; [|discriminate].
    injection Hr as <-. simpl. eauto.
  - destruct (list_comprehension D elems) as [l|e] eqn:E; [|discriminate].
    injection Hr as <-. simpl. eauto.
  - destruct (list_comprehension D elems) as [l|e] eqn:E; [|discriminate].
    injection Hr as <-. simpl. eauto.
  - assert (Hcall : forall attr x,
               call_then D attr calls = Some (Ok x) -> keys_all ok x = true).
    { intros attr x Hc. apply call_then_ok in Hc as (y & Hin & Hy).
      rewrite Forall_forall in H. exact (H _ Hin y eq_refl _ Hy). }
    assert (Hexp : forall r',
      try_exports D calls
        (_to_json_safe isoformat to_float to_int tolist
                       (VObject cls ident calls)) ["to_dict"; "dict"] = Ok r' ->
      keys_all ok r' = true).
    { intros r'. apply Hexported; [exact H | reflexivity]. }
    destruct cls; try (exact (Hexp r Hr)).
    + destruct (call_then D "model_dump" calls) as [[x|e1]|] eqn:E1.
      * injection Hr as <-. eauto.
      * destruct (is_exception e1); [exact (Hexp r Hr) | discriminate].
      * destruct (call_then D "dict" calls) as [[x|e2]|] eqn:E2.
        -- injection Hr as <-. eauto.
        -- destruct (is_exception e2); [exact (Hexp r Hr) | discriminate].
        -- exact (Hexp r Hr).
    + destruct (call_then D "asdict" calls) as [[x|e1]|] eqn:E1;
        try discriminate.
      injection Hr as <-. eauto.
Qed.

Lemma extended_hides_keys_witness :
  let v := VPrediction [(KStr "_note", VInt 1);
                        (KStr "nodes", VList [VDict [(KStr "_raw", VNone);
                                                     (KStr "count", VInt 3)]]);
                        (KStr "debug", VInt 0)] in
  let r := VDict [(KStr "nodes", VList [VDict [(KStr "count", VInt 3)]])] in
  dump_prediction Scenario.isoformat Scenario.to_float Scenario.to_int
                  Scenario.tolist true ["debug"] None v = Ok r
  /\ keys_all (visible_key true ["debug"]) r = true.
Proof.
  intros v r. split; [reflexivity|].
  apply (proj1 (extended_hides_keys Scenario.isoformat Scenario.to_float
                  Scenario.to_int Scenario.tolist true ["debug"] None
                  (fun x l (H : Scenario.tolist x = Ok l) =>
                     match H in _ = o
                           return match o with
                                  | Ok l' => keys_all (visible_key true ["debug"]) l' = true
                                  | Raise _ => True
                                  end with
                     | eq_refl => eq_refl
                     end)) v r).
  reflexivity.
Defined.








(** X7.  The extended normaliser never drops an entry of a dict whose key
    is not a string, whatever its arguments; every string-keyed entry it
    keeps of a dict, and every entry it keeps of a Prediction, is one the
    predicate accepted. *)
Theorem extended_predicate_scope
    (isoformat : value -> result string) (to_float : value -> result spec_float)
    (to_int : value -> result Z) (tolist : value -> result value)
    (exclude_private : bool) (exclude_keys : list string)
    (p : pykey -> value -> result bool) (items : list (pykey * value))
    (r : value) :
  (dump_prediction isoformat to_float to_int tolist exclude_private
                   exclude_keys (Some p) (VDict items) = Ok r ->
   exists out,
     r = VDict out
     /\ (forall k, (forall s, k <> KStr s) ->
                   In k (dict_keys items) -> In k (dict_keys out))
     /\ (forall s, In (KStr s) (dict_keys out) ->
                   exists x, In (KStr s, x) items /\ p (KStr s) x = Ok true))
  /\ (dump_prediction isoformat to_float to_int tolist exclude_private
                      exclude_keys (Some p) (VPrediction items) = Ok r ->
      exists out,
        r = VDict out
        /\ forall k, In k (dict_keys out) ->
                     exists x, In (k, x) items /\ p k x = Ok true).
Proof.
  set (D := dump_prediction isoformat to_float to_int tolist exclude_private
                            exclude_keys (Some p)).
  assert (Haccepted : forall k x,
    store_entry_skipped exclude_private exclude_keys (Some p) k x = Ok false ->
    p k x = Ok true).
  { intros k x. unfold store_entry_skipped, vetoed.
    destruct (in_exclude_keys exclude_keys k); [discriminate|].
    destruct (exclude_private && is_private k); [discriminate|].
    destruct (p k x) as [[|]|e]; try discriminate. reflexivity. }
  split; intros Hr; simpl in Hr; fold D in Hr.
  - destruct (dict_loop _ D items []) as [out|e] eqn:E; [|discriminate].
    injection Hr as <-. exists out. split; [reflexivity|].
    pose proof (dict_loop_keys _ _ _ _ _ E) as Hkeys. split.
    + intros k Hk Hin. apply Hkeys. right.
      unfold dict_keys in Hin. apply in_map_iff in Hin as ([k' x] & Heq & Hin).
      simpl in Heq. subst k'. exists x. split; [exact Hin|].
      destruct k; try reflexivity. now contradiction (Hk s).
    + intros s Hin. apply Hkeys in Hin as [[] | (x & Hin & Hs)].
      exists x. split; [exact Hin|]. now apply Haccepted.
  - destruct (dict_loop _ D items []) as [out|e] eqn:E; [|discriminate].
    injection Hr as <-. exists out. split; [reflexivity|].
    pose proof (dict_loop_keys _ _ _ _ _ E) as Hkeys.
    intros k Hin. apply Hkeys in Hin as [[] | (x & Hin & Hs)].
    exists x. split; [exact Hin|]. now apply Haccepted.
Qed.

Lemma extended_predicate_scope_witness :
  let p := fun (k : pykey) (x : value) => Ok false in
  dump_prediction Scenario.isoformat Scenario.to_float Scenario.to_int
                  Scenario.tolist true bookkeeping_prefixes (Some p)
                  (VDict [(KStr "grade", VInt 2); (KInt 7, VInt 3)])
  = Ok (VDict [(KInt 7, VInt 3)])
  /\ exists out,
       VDict [(KInt 7, VInt 3)] = VDict out
       /\ (forall k, (forall s, k <> KStr s) ->
                     In k (dict_keys [(KStr "grade", VInt 2); (KInt 7, VInt 3)]) ->
                     In k (dict_keys out))
       /\ (forall s, In (KStr s) (dict_keys out) ->
                     exists x, In (KStr s, x) [(KStr "grade", VInt 2); (KInt 7, VInt 3)]
                               /\ p (KStr s) x = Ok true).
Proof.
  intros p. split; [reflexivity|].
  apply (proj1 (extended_predicate_scope Scenario.isoformat Scenario.to_float
                  Scenario.to_int Scenario.tolist true bookkeeping_prefixes p
                  [(KStr "grade", VInt 2); (KInt 7, VInt 3)]
                  (VDict [(KInt 7, VInt 3)]))).
  reflexivity.
Defined.

(** ** [dump_many_predictions] *)

Lemma nth_error_combine {A B : Type} (l : list A) (l' : list B) :
  forall n a b,
    nth_error (combine l l') n = Some (a, b) <->
    nth_error l n = Some a /\ nth_error l' n = Some b.
Proof.
  revert l'. induction l as [|x l IH]; intros l' n a b.
  - simpl. destruct n; simpl; split; try discriminate; intros [H _];
      discriminate.
  - destruct l' as [|y l'].
    + simpl. destruct n; simpl; split; try discriminate; intros [_ H];
        discriminate.
    + destruct n as [|n]; simpl.
      * split; [intros H; injection H as <- <-; auto|].
        intros [H1 H2]. injection H1 as <-. injection H2 as <-. reflexivity.
      * apply IH.
Qed.

(** When the key function returns on every pair, the loop returns a
    mapping in which a key no prediction is given keeps what it had, and a
    key given holds the dump of the last prediction given it. *)
Lemma keyed_mapping_returns (key_fn : value -> nat -> result (option string))
    (key_of : value -> nat -> option string) (pairs : list (value * value)) :
  forall i mapping,
    (forall n p d, nth_error pairs n = Some (p, d) ->
                   key_fn p (i + n) = Ok (key_of p (i + n))) ->
    exists m,
      keyed_mapping key_fn i pairs mapping = Ok m
      /\ (forall k,
             (forall n p d, nth_error pairs n = Some (p, d) ->
                            key_of p (i + n) <> Some k) ->
             dict_get m (KStr k) = dict_get mapping (KStr k))
      /\ (forall k n p d,
             nth_error pairs n = Some (p, d) ->
             key_of p (i + n) = Some k ->
             (forall n' p' d', n < n' -> nth_error pairs n' = Some (p', d') ->
                               key_of p' (i + n') <> Some k) ->
             dict_get m (KStr k) = Some d).
Proof.
  induction pairs as [|[p0 d0] rest IH]; intros i mapping Hfn.
  - exists mapping. split; [reflexivity|]. split; [reflexivity|].
    intros k n p d Hn. destruct n; discriminate.
  - pose proof (Hfn 0 p0 d0 eq_refl) as H0. rewrite Nat.add_0_r in H0.
    set (mapping' := match key_of p0 i with
                     | Some k => dict_set mapping (KStr k) d0
                     | None => mapping
                     end).
    destruct (IH (S i) mapping') as (m & Hm & Habs & Hlast).
    { intros n p d Hn. replace (S i + n) with (i + S n) by lia.
      apply (Hfn (S n) p d Hn). }
    exists m. split; [|split].
    + simpl. rewrite H0. subst mapping'. now destruct (key_of p0 i).
    + intros k Hno. rewrite Habs.
      * pose proof (Hno 0 p0 d0 eq_refl) as Hk. rewrite Nat.add_0_r in Hk.
        subst mapping'. destruct (key_of p0 i) as [k'|]; [|reflexivity].
        apply dict_get_set_other. congruence.
      * intros n p d Hn. replace (S i + n) with (i + S n) by lia.
        apply (Hno (S n) p d Hn).
    + intros k n p d Hn Hk Hafter. destruct n as [|n]; simpl in Hn.
      * injection Hn as <- <-. rewrite Nat.add_0_r in Hk.
        rewrite Habs.
        -- subst mapping'. rewrite Hk. apply dict_get_set_same.
        -- intros n' p' d' Hn'. replace (S i + n') with (i + S n') by lia.
           apply (Hafter (S n') p' d'); [lia | exact Hn'].
      * apply (Hlast k n p d Hn).
        -- replace (S i + n) with (i + S n) by lia. exact Hk.
        -- intros n' p' d' Hlt Hn'. replace (S i + n') with (i + S n') by lia.
           apply (Hafter (S n') p' d'); [lia | exact Hn'].
Qed.

Lemma list_comprehension_raises (f : value -> result value) (l : list value)
    (v : value) (e : exn) :
  In v l -> f v = Raise e -> exists e', list_comprehension f l = Raise e'.
Proof.
  induction l as [|x rest IH]; intros Hin Hv; [destruct Hin|]. simpl.
  destruct (f x) as [r|e0] eqn:Ef; [|eauto].
  destruct Hin as [-> | Hin]; [congruence|].
  destruct (IH Hin Hv) as [e' ->]. eauto.
Qed.

(** X8.  [dump_many_predictions] with a key function, on predictions that
    can be iterated again (a list, a tuple), serialises a mapping in which
    a key holds the dump of the last prediction given that key; a
    prediction given no key is left out.  On predictions that can be
    iterated once only (a generator) the second pass finds nothing: the
    mapping serialised is empty, whatever the keys.  Every prediction is
    dumped first: if the dump of any of them raises the call raises,
    whatever key it would have had. *)
Theorem dump_many_predictions_keyed
    (dump : value -> result value) (json_dumps : value -> result string)
    (preds : list value)
    (key_fn : value -> nat -> result (option string))
    (key_of : value -> nat -> option string) :
  (forall dumped,
      list_comprehension dump preds = Ok dumped ->
      (forall i p, nth_error preds i = Some p ->
                   key_fn p i = Ok (key_of p i)) ->
      exists mapping,
        dump_many_predictions_with dump json_dumps (Reiterable preds)
                                   (Some key_fn)
        = json_dumps (VDict mapping)
        /\ (forall k i p d,
               nth_error preds i = Some p ->
               nth_error dumped i = Some d ->
               key_of p i = Some k ->
               (forall j p', i < j -> nth_error preds j = Some p' ->
                             key_of p' j <> Some k) ->
               dict_get mapping (KStr k) = Some d)
        /\ (forall k,
               (forall i p, nth_error preds i = Some p -> key_of p i <> Some k) ->
               dict_get mapping (KStr k) = None))
  /\ (forall dumped,
         list_comprehension dump preds = Ok dumped ->
         dump_many_predictions_with dump json_dumps (OneShot preds)
                                    (Some key_fn)
         = json_dumps (VDict [])
         /\ dump_many_predictions_with dump json_dumps (OneShot preds) None
            = json_dumps (VList dumped))
  /\ (forall p e,
         In p preds -> dump p = Raise e ->
         (exists e',
             dump_many_predictions_with dump json_dumps (Reiterable preds)
                                        (Some key_fn)
             = Raise e')
         /\ (exists e',
                dump_many_predictions_with dump json_dumps (OneShot preds)
                                           (Some key_fn)
                = Raise e')).
Proof.
  split; [|split].
  - intros dumped Hd Hfn. unfold dump_many_predictions_with.
    cbn [first_pass second_pass]. rewrite Hd.
    destruct (keyed_mapping_returns key_fn key_of (combine preds dumped) 0 [])
      as (m & Hm & Habs & Hlast).
    { intros n p d Hn. apply nth_error_combine in Hn as [Hp _].
      simpl. now apply Hfn. }
    rewrite Hm. exists m. split; [reflexivity|]. split.
    + intros k i p d Hp Hdi Hk Hafter.
      apply (Hlast k i p d).
      * apply nth_error_combine. auto.
      * exact Hk.
      * intros n' p' d' Hlt Hn'. apply nth_error_combine in Hn' as [Hp' _].
        simpl. eauto.
    + intros k Hno. rewrite Habs; [reflexivity|].
      intros n p d Hn. apply nth_error_combine in Hn as [Hp _]. simpl. eauto.
  - intros dumped Hd. unfold dump_many_predictions_with.
    cbn [first_pass second_pass]. rewrite Hd. split; reflexivity.
  - intros p e Hin Hp. unfold dump_many_predictions_with.
    cbn [first_pass].
    destruct (list_comprehension_raises dump preds p e Hin Hp) as [e' ->].
    eauto.
Qed.

Lemma dump_many_predictions_keyed_witness :
  let key_of := fun (p : value) (i : nat) =>
                  match p with
                  | VDict _ => Some "case"
                  | _ => None
                  end in
  let key_fn := fun (p : value) (i : nat) => Ok (key_of p i) in
  let json_dumps := fun (x : value) =>
                      match x with
                      | VDict [] => Ok "{}"
                      | _ => Raise (Exn "TypeError" "not serializable" true)
                      end in
  let preds := [VDict [(KStr "grade", VInt 1)]; VInt 5;
                VDict [(KStr "grade", VInt 2)]] in
  (exists mapping,
      dump_many_predictions Scenario.isoformat Scenario.to_float Scenario.to_int
                            Scenario.tolist true bookkeeping_prefixes None
                            json_dumps (Reiterable preds) (Some key_fn)
      = json_dumps (VDict mapping)
      /\ dict_get mapping (KStr "case") = Some (VDict [(KStr "grade", VInt 2)])
      /\ dict_get mapping (KStr "other") = None)
  /\ dump_many_predictions Scenario.isoformat Scenario.to_float Scenario.to_int
                           Scenario.tolist true bookkeeping_prefixes None
                           json_dumps (OneShot preds) (Some key_fn)
     = Ok "{}".
Proof.
  intros key_of key_fn json_dumps preds.
  pose proof (dump_many_predictions_keyed
                (dump_prediction Scenario.isoformat Scenario.to_float
                   Scenario.to_int Scenario.tolist true
                   bookkeeping_prefixes None)
                json_dumps preds key_fn key_of) as (Hlist & Honce & _).
  split.
  - destruct (Hlist [VDict [(KStr "grade", VInt 1)]; VInt 5;
                     VDict [(KStr "grade", VInt 2)]] eq_refl
                    (fun i p _ => eq_refl))
      as (mapping & Hrun & Hlast & Habsent).
    exists mapping. split; [exact Hrun | split].
    + apply (Hlast "case" 2 (VDict [(KStr "grade", VInt 2)])
                   (VDict [(KStr "grade", VInt 2)])); try reflexivity.
      intros j p' Hlt Hj. destruct j as [|[|[|j]]]; try lia.
      destruct j; discriminate.
    + apply Habsent. intros i p Hi.
      destruct i as [|[|[|i]]]; simpl in Hi;
        try (injection Hi as <-; discriminate).
      destruct i; discriminate.
  - exact (proj1 (Honce [VDict [(KStr "grade", VInt 1)]; VInt 5;
                         VDict [(KStr "grade", VInt 2)]] eq_refl)).
Defined.

(** ** More on the orchestrator *)

Section OrchestratorMore.

Variable world : Type.
Variable signature : Type.
Variable cls_name : signature -> string.
Variable analyzer_is_cancer :
  list text -> world -> result classification * world.
Variable jsonize :
  list text -> option string -> world -> result value * world.
Variable globals_get : string -> option signature.
Variable predict :
  signature -> text -> value -> world -> result value * world.
Variable strftime : world -> string.

Local Abbreviation forward_with :=
  (forward_with cls_name analyzer_is_cancer jsonize globals_get predict strftime).
Local Abbreviation attempts := (attempts globals_get predict).
Local Abbreviation structuring := (structuring jsonize).

Lemma structuring_raises (paragraphs : list text) (category : option string)
    (w w' : world) (e : exn) :
  structuring paragraphs category w = (Raise e, w') -> is_exception e = false.
Proof.
  unfold structuring.
  destruct (jsonize paragraphs category w) as [[j|e'] w'']; [discriminate|].
  destruct (is_exception e') eqn:E; [discriminate|].
  intros H. injection H as <- _. exact E.
Qed.

(** X9.  [forward] raises an exception that derives from [Exception] only
    when the classifier does, and then the same exception, with nothing
    done after the classifier's call; any other exception that leaves it
    is outside [Exception] and was raised for an eligible report, by the
    structuring call or by an extractor.  Every document it returns has
    the key [cancer_excision_report], holding the classifier's flag, the
    key [cancer_category], and a mapping under [cancer_data], and has the
    key [cancer_category_others_description] exactly when the report is
    eligible. *)
Theorem forward_outcome (reg : registry) (report : text) (fname : string)
    (st st' : state world) :
  (forall e,
      forward_with reg report fname st = (Raise e, st') ->
      (analyzer_is_cancer (paragraphs_of report) (st_world st)
       = (Raise e, st_world st')
       /\ st_trace st' = st_trace st ++ prologue report fname)
      \/ (is_exception e = false
          /\ exists c w1,
               analyzer_is_cancer (paragraphs_of report) (st_world st)
               = (Ok c, w1)
               /\ cancer_excision_report c = true))
  /\ (forall doc,
         forward_with reg report fname st = (Ok doc, st') ->
         exists c w1 data,
           analyzer_is_cancer (paragraphs_of report) (st_world st) = (Ok c, w1)
           /\ doc_get doc "cancer_excision_report"
              = Some (VBool (cancer_excision_report c))
           /\ doc_get doc "cancer_category" <> None
           /\ cancer_data_of doc = Some data
           /\ (doc_get doc "cancer_category_others_description" <> None
               <-> cancer_excision_report c = true)).
Proof.
  destruct (analyzer_is_cancer (paragraphs_of report) (st_world st))
    as [[c|e0] w1] eqn:Hc.
  - destruct (cancer_excision_report c) eqn:He.
    + rewrite (forward_eligible _ _ _ _ _ _ _ _ reg report fname st c w1 Hc He).
      destruct (structuring _ _ w1) as [[json_report|e1] w2] eqn:Es.
      * split.
        -- intros e H. injection H as H _. right. split; [|eauto].
           unfold fan_out_result in H.
           destruct (interruption _) as [e'|] eqn:Ei; [|discriminate].
           injection H as <-.
           eapply interruption_not_exception. exact Ei.
        -- intros doc H. injection H as H _.
           apply fan_out_result_ok in H as [_ ->].
           eexists c, w1, _.
           split; [reflexivity|]. rewrite He.
           split; [reflexivity|]. split; [discriminate|].
           split; [reflexivity|]. split; [reflexivity | discriminate].
      * split; [|discriminate].
        intros e H. injection H as <- _. right. split; [|eauto].
        eapply structuring_raises. exact Es.
    + rewrite (forward_not_eligible _ _ _ _ _ _ _ _ reg report fname st c w1
                                    Hc He).
      split; [discriminate|].
      intros doc H. injection H as <- _. exists c, w1, [].
      split; [reflexivity|]. rewrite He.
      split; [reflexivity|]. split; [discriminate|].
      split; [reflexivity|].
      split; [intros H; now destruct H | discriminate].
  - rewrite (forward_classifier_raises _ _ _ _ _ _ _ _ reg report fname st e0 w1
                                       Hc).
    split; [|discriminate].
    intros e H. injection H as <- <-. left. split; reflexivity.
Qed.

(** The calls the attempts made are those of the first identifiers that
    resolve, all of them when no attempt left the loop. *)
Lemma attempt_calls_resolved (report : text) (json_report : value)
    (ids : list string) :
  forall w,
    exists n,
      flat_map (attempt_call cls_name report json_report)
               (fst (attempts report json_report ids w))
      = map (fun cls => ExtractorCall (cls_name cls) report json_report)
            (firstn n (resolved globals_get ids))
      /\ (interruption (fst (attempts report json_report ids w)) = None ->
          n = length (resolved globals_get ids)).
Proof.
  induction ids as [|items rest IH]; intros w.
  - exists 0. split; reflexivity.
  - simpl.
    pose proof (attempt_of_for _ _ globals_get predict report json_report
                               items w) as Hfor.
    destruct (attempt_of globals_get predict report json_report items w)
      as [a w'] eqn:Ea.
    cbn [fst] in Hfor.
    destruct (IH w') as (n & Hn & Hall).
    unfold resolved in *. cbn [flat_map].
    destruct (is_aborted a) eqn:Eab.
    + destruct a as [| |cls e|]; try discriminate. simpl in Hfor.
      rewrite Hfor. exists 1. split; [reflexivity | discriminate].
    + destruct (attempts report json_report rest w') as [l w''].
      cbn [fst flat_map] in *.
      destruct a as [i|cls e|cls e|cls d]; try discriminate; simpl in Hfor.
      * destruct Hfor as [_ Hnone]. rewrite Hnone.
        exists n. split; [exact Hn | exact Hall].
      * rewrite Hfor. exists (S n). split.
        -- simpl. now rewrite Hn.
        -- intros Hi. simpl. f_equal. now apply Hall.
      * rewrite Hfor. exists (S n). split.
        -- simpl. now rewrite Hn.
        -- intros Hi. simpl. f_equal. now apply Hall.
Qed.

(** X10.  For an eligible report whose structuring stage hands on a
    document, the calls to the extractors are, in the order of the
    registry's list, those of the first identifiers that resolve, each
    with the raw text of the report and the document of the structuring
    stage: an identifier that does not resolve costs no call.  When
    [forward] returns, every identifier that resolves was called: an
    exception under [Exception] does not stop the calls that follow, only
    an exception outside it does. *)
Theorem extractor_calls_in_order (reg : registry) (report : text)
    (fname : string)
    (st : state world) (c : classification) (w1 : world)
    (json_report : value) (w2 : world) :
  analyzer_is_cancer (paragraphs_of report) (st_world st) = (Ok c, w1) ->
  cancer_excision_report c = true ->
  structuring (paragraphs_of report) (cancer_category c) w1
  = (Ok json_report, w2) ->
  let ids := registry_get reg (cancer_category c) in
  exists r st' new n,
    forward_with reg report fname st = (r, st')
    /\ st_trace st' = st_trace st ++ new
    /\ filter is_extractor_call new
       = map (fun cls => ExtractorCall (cls_name cls) report json_report)
             (firstn n (resolved globals_get ids))
    /\ (forall doc, r = Ok doc -> n = length (resolved globals_get ids))
    /\ (forall e, r = Raise e -> is_exception e = false).
Proof.
  intros Hc He Hs ids.
  destruct (attempt_calls_resolved report json_report ids w2)
    as (n & Hn & Hall).
  eexists. eexists. eexists. exists n.
  split.
  { rewrite (forward_eligible _ _ _ _ _ _ _ _ reg report fname st c w1 Hc He),
      Hs. reflexivity. }
  cbn [st_trace].
  split; [repeat rewrite <- app_assoc; reflexivity|].
  destruct (category_log_no_call c) as (_ & Hcalls & _).
  split.
  { unfold prologue.
    rewrite !filter_app, Hcalls, fan_out_trace_calls. exact Hn. }
  split.
  - intros doc Hdoc. apply fan_out_result_ok in Hdoc as [Hi _].
    now apply Hall.
  - intros e Hr. unfold fan_out_result in Hr.
    destruct (interruption _) as [e'|] eqn:Ei; [|discriminate].
    injection Hr as <-. eapply interruption_not_exception. exact Ei.
Qed.

Lemma in_dict_keys_update (other : dict) :
  forall d k, In k (dict_keys (dict_update d other)) <->
              In k (dict_keys d) \/ In k (dict_keys other).
Proof.
  induction other as [|[k0 v0] other IH]; intros d k.
  - simpl. tauto.
  - rewrite dict_update_cons, IH, in_dict_keys_set. simpl. intuition.
Qed.

Lemma in_dict_keys_updates (ds : list dict) :
  forall d k, In k (dict_keys (fold_left dict_update ds d)) <->
              In k (dict_keys d)
              \/ exists d', In d' ds /\ In k (dict_keys d').
Proof.
  induction ds as [|d0 ds IH]; intros d k; simpl.
  - split; [tauto|]. intros [H | (d' & [] & _)]. exact H.
  - rewrite IH, in_dict_keys_update. split.
    + intros [[H | H] | (d' & Hin & Hk)]; eauto.
    + intros [H | (d' & [<- | Hin] & Hk)]; eauto.
Qed.

(** X11.  For an eligible report, in the document [forward] returns the
    keys of [cancer_data] are the keys of the results of the successful
    extractors, all of them and no other: a merge may replace the value of
    a key, it never removes a key. *)
Theorem cancer_data_keys (reg : registry) (report : text) (fname : string)
    (st : state world) (c : classification) (w1 : world)
    (json_report : value) (w2 : world) (doc : value) (st' : state world) :
  analyzer_is_cancer (paragraphs_of report) (st_world st) = (Ok c, w1) ->
  cancer_excision_report c = true ->
  structuring (paragraphs_of report) (cancer_category c) w1
  = (Ok json_report, w2) ->
  forward_with reg report fname st = (Ok doc, st') ->
  let ids := registry_get reg (cancer_category c) in
  let tried := fst (attempts report json_report ids w2) in
  exists data,
    cancer_data_of doc = Some data
    /\ forall k, In k (dict_keys data) <->
                 exists d, In d (successes tried) /\ In k (dict_keys d).
Proof.
  intros Hc He Hs Hf ids tried.
  rewrite (forward_eligible _ _ _ _ _ _ _ _ reg report fname st c w1 Hc He),
    Hs in Hf.
  injection Hf as Hf _. apply fan_out_result_ok in Hf as [_ ->].
  eexists. split; [apply cancer_data_of_document|].
  intros k. fold ids tried.
  rewrite merge_all_successes, in_dict_keys_updates. simpl. tauto.
Qed.

(** X12.  The name tag of a report reaches the log and nothing else: two
    runs that differ in the tag alone return the same document, or raise
    the same exception, and leave the backend in the same state. *)
Theorem name_tag_only_logged (reg : registry) (report : text)
    (fname fname' : string) (st : state world) :
  fst (forward_with reg report fname st)
  = fst (forward_with reg report fname' st)
  /\ st_world (snd (forward_with reg report fname st))
     = st_world (snd (forward_with reg report fname' st)).
Proof.
  destruct (analyzer_is_cancer (paragraphs_of report) (st_world st))
    as [[c|e0] w1] eqn:Hc.
  - destruct (cancer_excision_report c) eqn:He.
    + rewrite (forward_eligible _ _ _ _ _ _ _ _ reg report fname st c w1 Hc He),
        (forward_eligible _ _ _ _ _ _ _ _ reg report fname' st c w1 Hc He).
      destruct (structuring _ _ w1) as [[json_report|e1] w2];
        split; reflexivity.
    + rewrite (forward_not_eligible _ _ _ _ _ _ _ _ reg report fname st c w1
                                    Hc He),
        (forward_not_eligible _ _ _ _ _ _ _ _ reg report fname' st c w1 Hc He).
      split; reflexivity.
  - rewrite (forward_classifier_raises _ _ _ _ _ _ _ _ reg report fname st e0
                                       w1 Hc),
      (forward_classifier_raises _ _ _ _ _ _ _ _ reg report fname' st e0 w1 Hc).
    split; reflexivity.
Qed.

End OrchestratorMore.

(** ** More on the paragraphs *)



Lemma contains_blank_tail (c : N) (s : text) :
  contains_blank s = true -> contains_blank (c :: s) = true.
Proof.
  destruct s as [|a b]; [discriminate|]. intros H.
  rewrite PyStrFacts.contains_blank_cons2, H. apply orb_true_r.
Qed.

Lemma contains_blank_suffix (a s : text) :
  contains_blank s = true -> contains_blank (a ++ s) = true.
Proof.
  induction a as [|c a IH]; intros H; [exact H|].
  simpl app. apply contains_blank_tail. auto.
Qed.

Lemma contains_blank_prefix (s b : text) :
  contains_blank s = true -> contains_blank (s ++ b) = true.
Proof.
  induction s as [|c s IH]; [discriminate|].
  destruct s as [|c' s]; [discriminate|].
  change ((c :: c' :: s) ++ b) with (c :: c' :: (s ++ b)).
  rewrite !PyStrFacts.contains_blank_cons2.
  intros H. apply orb_true_iff in H as [H | H].
  - rewrite H. reflexivity.
  - change (c' :: s ++ b) with ((c' :: s) ++ b). rewrite (IH H).
    apply orb_true_r.
Qed.

Lemma newline_is_space : is_whitespace PyStr.newline = true.
Proof. reflexivity. Qed.

(** A trimmed piece without a blank line has none either, and ends with
    no newline. *)
Lemma trimmed_from_clean (piece p : text) :
  trimmed_from piece p ->
  contains_blank piece = false ->
  contains_blank p = false /\ ends_with_newline p = false.
Proof.
  intros (a & b & -> & _ & _ & _ & (r & c & -> & Hc)) Hb. split.
  - destruct (contains_blank (r ++ [c])) eqn:E; [|reflexivity].
    rewrite contains_blank_suffix in Hb; [discriminate|].
    now apply contains_blank_prefix.
  - rewrite PyStrFacts.ends_with_newline_snoc.
    destruct (PyStr.is_newline c) eqn:En; [|reflexivity].
    apply PyStrFacts.is_newline_eq in En. subst c.
    rewrite newline_is_space in Hc. discriminate.
Qed.

(** Every paragraph has no blank line inside and no newline at its end. *)
Lemma paragraphs_clean (report : text) :
  Forall (fun p => contains_blank p = false
                   /\ ends_with_newline p = false
                   /\ PyStr.strip p = p /\ p <> [])
         (paragraphs_of report).
Proof.
  pose proof (PyStrFacts.split_blank_no_blank report) as Hpieces.
  unfold paragraphs_of.
  induction Hpieces as [|piece l Hpiece _ IH]; simpl; [constructor|].
  destruct (PyStr.nonempty (PyStr.strip piece)) eqn:E; simpl; [|exact IH].
  apply PyStrFacts.nonempty_not_nil in E.
  constructor; [|exact IH].
  destruct (trimmed_from_clean piece (PyStr.strip piece)
              (PyStrFacts.strip_trimmed_from piece E) Hpiece) as [Hb He].
  repeat split; try assumption.
  apply PyStrFacts.strip_idempotent.
Qed.

(** X14.  No paragraph given to the classifier has a blank line inside or a
    newline at its end. *)
Theorem paragraphs_hold_no_blank_line (report : text) :
  Forall (fun p => contains_blank p = false
                   /\ ends_with_newline p = false)
         (paragraphs_of report).
Proof.
  eapply Forall_impl; [|apply paragraphs_clean].
  intros p (Hb & He & _). auto.
Qed.

Lemma inner_pieces_closed_all (l : list text) :
  Forall (fun p => ends_with_newline p = false) l ->
  inner_pieces_closed l.
Proof.
  induction 1 as [|p l Hp _ IH]; [exact I|].
  destruct l as [|q l]; [exact I | split; assumption].
Qed.

Lemma split_blank_join_clean (l : list text) :
  l <> [] ->
  Forall (fun p => contains_blank p = false
                   /\ ends_with_newline p = false) l ->
  PyStr.split_blank (join PyStr.blank_line l) = l.
Proof.
  intros Hne Hall. symmetry. apply blank_line_split_unique.
  repeat split; try assumption.
  - eapply Forall_impl; [|exact Hall]. now intros p [Hb _].
  - apply inner_pieces_closed_all.
    eapply Forall_impl; [|exact Hall]. now intros p [_ He].
Qed.

Lemma trimmed_paragraphs_kept (l : list text) :
  Forall (fun p => PyStr.strip p = p /\ p <> []) l ->
  map PyStr.strip (filter (fun p => PyStr.nonempty (PyStr.strip p)) l) = l.
Proof.
  induction 1 as [|p l [Hs Hne] _ IH]; simpl; [reflexivity|].
  rewrite Hs. apply PyStrFacts.nonempty_not_nil in Hne. rewrite Hne.
  simpl. now rewrite Hs, IH.
Qed.

(** X15.  Splitting is a round trip on its own result: the paragraphs of a
    report, joined by blank lines and split again, are the same
    paragraphs. *)
Theorem paragraphs_round_trip (report : text) :
  paragraphs_of (join PyStr.blank_line (paragraphs_of report))
  = paragraphs_of report.
Proof.
  pose proof (paragraphs_clean report) as Hclean.
  destruct (paragraphs_of report) as [|p l] eqn:E; [reflexivity|].
  unfold paragraphs_of at 1.
  rewrite split_blank_join_clean.
  - apply trimmed_paragraphs_kept.
    eapply Forall_impl; [|exact Hclean]. intros q (_ & _ & Hs & Hne). auto.
  - discriminate.
  - eapply Forall_impl; [|exact Hclean]. intros q (Hb & He & _). auto.
Qed.

Section ParagraphsMore.

Variable world : Type.
Variable signature : Type.
Variable cls_name : signature -> string.
Variable analyzer_is_cancer :
  list text -> world -> result classification * world.
Variable jsonize :
  list text -> option string -> world -> result value * world.
Variable globals_get : string -> option signature.
Variable predict :
  signature -> text -> value -> world -> result value * world.
Variable strftime : world -> string.

Local Abbreviation forward_with :=
  (forward_with cls_name analyzer_is_cancer jsonize globals_get predict strftime).


End ParagraphsMore.

(** ** Set-up *)

Lemma model_lookup_in (table : list (string * string)) (name model : string) :
  model_lookup table name = Some model -> In (name, model) table.
Proof.
  induction table as [|[k v] rest IH]; simpl; [discriminate|].
  destruct (String.eqb k name) eqn:E.
  - apply String.eqb_eq in E. subst k. intros H. injection H as <-. now left.
  - intros H. right. auto.
Qed.

Lemma model_lookup_none (table : list (string * string)) (name : string) :
  model_lookup table name = None <-> ~ In name (map fst table).
Proof.
  induction table as [|[k v] rest IH]; simpl; [tauto|].
  destruct (String.eqb k name) eqn:E.
  - apply String.eqb_eq in E. split; [discriminate | tauto].
  - apply String.eqb_neq in E. rewrite IH. tauto.
Qed.

(** X16.  [setup_pipeline] with a name that is no key of [model_list]
    raises the ValueError of [load_model] and does nothing else: no model
    is configured and nothing is printed.  With a key it configures, once,
    a model of the table's entry for that key, served at [localaddr]. *)
Theorem setup_pipeline_outcome (model_name : string)
    (trace : list setup_event) :
  (~ In model_name (map fst model_list) ->
   exists e, setup_pipeline model_name trace = (Raise e, trace)
             /\ exc_class e = "ValueError")
  /\ (In model_name (map fst model_list) ->
      exists model,
        In (model_name, lm_model model) model_list
        /\ lm_api_base model = localaddr
        /\ setup_pipeline model_name trace
           = (Ok tt, trace ++ [SetupPrint ("Loaded model: " ++ model_name);
                               Configure model;
                               SetupPrint "Pipeline setup complete."])).
Proof.
  unfold setup_pipeline, autoconf_dspy, load_model. split; intros H.
  - apply model_lookup_none in H. rewrite H. eexists. split; reflexivity.
  - destruct (model_lookup model_list model_name) as [m|] eqn:E.
    + exists (LM m localaddr "" "chat" float_0_7 16384 16384 float_0_7 10).
      split; [|split; [reflexivity|]].
      * exact (model_lookup_in model_list model_name m E).
      * rewrite <- !app_assoc. reflexivity.
    + apply model_lookup_none in E. contradiction.
Qed.

Lemma setup_pipeline_outcome_witness :
  (exists e, setup_pipeline "GPT" [] = (Raise e, [])
             /\ exc_class e = "ValueError")
  /\ exists model,
       In ("gpt", lm_model model) model_list
       /\ lm_api_base model = localaddr
       /\ setup_pipeline "gpt" []
          = (Ok tt, [SetupPrint "Loaded model: gpt"; Configure model;
                     SetupPrint "Pipeline setup complete."]).
Proof.
  split.
  - apply (proj1 (setup_pipeline_outcome "GPT" [])). simpl.
    intuition discriminate.
  - apply (proj2 (setup_pipeline_outcome "gpt" [])). simpl. tauto.
Defined.

(** X17.  The registry has extractors for exactly the ten categories the
    structuring signature accepts, and for no other string; the
    classifier's enumeration is these ten and [others]. *)
Theorem registry_keys_exact (category : string) :
  (registry_get organmodels (Some category) <> []
   <-> In category jsonize_categories)
  /\ (In category cancer_categories
      <-> In category jsonize_categories \/ category = "others").
Proof.
  split.
  - split.
    + unfold organmodels, registry_get.
      repeat match goal with
             | |- context [String.eqb ?k category] =>
                 let E := fresh "E" in
                 destruct (String.eqb k category) eqn:E;
                 [apply String.eqb_eq in E; subst category; simpl; tauto|]
             end.
      congruence.
    + simpl. intros H.
      repeat (destruct H as [<- | H]; [discriminate|]). contradiction.
  - simpl. intuition.
Qed.

(** ** The logger *)

Lemma find_store_logger_same (key : string) (l : logger) (reg : loggers) :
  find_logger key (store_logger key l reg) = Some l.
Proof.
  induction reg as [|[n l'] rest IH]; simpl.
  - now rewrite String.eqb_refl.
  - destruct (String.eqb n key) eqn:E; simpl; rewrite E; [reflexivity | exact IH].
Qed.

Lemma find_store_logger_other (key other : string) (l : logger) (reg : loggers) :
  other <> key ->
  find_logger other (store_logger key l reg) = find_logger other reg.
Proof.
  intros Hne. induction reg as [|[n l'] rest IH]; simpl.
  - apply not_eq_sym in Hne. apply String.eqb_neq in Hne. now rewrite Hne.
  - destruct (String.eqb n key) eqn:E; simpl.
    + apply String.eqb_eq in E. subst n.
      apply not_eq_sym in Hne. apply String.eqb_neq in Hne. now rewrite Hne.
    + now rewrite IH.
Qed.

Lemma get_put_logger_same (name : string) (l : logger) (reg : loggers) :
  get_logger name (put_logger name l reg) = l.
Proof.
  unfold get_logger, put_logger. now rewrite find_store_logger_same.
Qed.

Lemma get_put_logger_other (name other : string) (l : logger) (reg : loggers) :
  logger_key other <> logger_key name ->
  get_logger other (put_logger name l reg) = get_logger other reg.
Proof.
  intros Hne. unfold get_logger, put_logger.
  now rewrite find_store_logger_other.
Qed.

(** Two names kept under one key are names of one logger. *)
Lemma get_logger_alias (name other : string) (reg : loggers) :
  logger_key other = logger_key name ->
  get_logger other reg = get_logger name reg.
Proof. unfold get_logger. now intros ->. Qed.

Lemma setup_logger_same (name : string) (level : Z) (log_file : option string)
    (max_bytes backup_count : Z) (json_format : bool) (reg : loggers) :
  let l := get_logger name
             (setup_logger name level log_file max_bytes backup_count
                           json_format reg) in
  lg_level l = level /\ lg_propagate l = false /\ lg_handlers l <> []
  /\ (lg_handlers (get_logger name reg) <> [] ->
      lg_handlers l = lg_handlers (get_logger name reg)).
Proof.
  unfold setup_logger.
  destruct (lg_handlers (get_logger name reg)) as [|h hs] eqn:E;
    rewrite get_put_logger_same; simpl; repeat split; try discriminate.
  intros H. now destruct H.
Qed.

(** X18.  Once [setup_logger] has run for a name the logger has a handler,
    so that a later call for the same name, whatever its arguments, adds
    none and changes none: a log file or a format asked for only then is
    ignored.  The later call still sets the logger's level.  The empty
    name and [root] are two names of the root logger, so that a call for
    one is a call for the other; no call touches a logger that
    [logging.getLogger] keeps apart from the one named. *)
Theorem setup_logger_handlers_once (name : string) (reg : loggers)
    (level level' : Z) (log_file log_file' : option string)
    (max_bytes max_bytes' backup_count backup_count' : Z)
    (json_format json_format' : bool) :
  let reg1 := setup_logger name level log_file max_bytes backup_count
                           json_format reg in
  let reg2 := setup_logger name level' log_file' max_bytes' backup_count'
                           json_format' reg1 in
  lg_handlers (get_logger name reg1) <> []
  /\ lg_handlers (get_logger name reg2) = lg_handlers (get_logger name reg1)
  /\ lg_level (get_logger name reg2) = level'
  /\ lg_propagate (get_logger name reg2) = false
  /\ (forall other, logger_key other <> logger_key name ->
                    get_logger other reg2 = get_logger other reg)
  /\ (forall other, logger_key other = logger_key name ->
                    get_logger other reg2 = get_logger name reg2)
  /\ logger_key "" = logger_key "root".
Proof.
  intros reg1 reg2.
  destruct (setup_logger_same name level log_file max_bytes backup_count
                              json_format reg) as (_ & _ & Hne & _).
  destruct (setup_logger_same name level' log_file' max_bytes' backup_count'
                              json_format' reg1) as (Hl & Hp & _ & Hkeep).
  fold reg1 in Hne. fold reg2 in Hl, Hp, Hkeep.
  repeat split; auto.
  - intros other Hother. unfold reg2, reg1, setup_logger.
    repeat match goal with
           | |- context [match ?x with [] => _ | _ :: _ => _ end] => destruct x
           end;
      rewrite !get_put_logger_other by exact Hother; reflexivity.
  - intros other Hother. now apply get_logger_alias.
Qed.

(** ** The further properties at work on the scenario backend *)

Lemma forward_outcome_witness :
  (exists c w1 data,
      Scenario.analyzer_is_cancer (Ok Scenario.breast)
        (paragraphs_of example_report) (st_world Scenario.start) = (Ok c, w1)
      /\ doc_get (document_with Scenario.breast [(KStr "grade", VInt 2)])
                 "cancer_excision_report"
         = Some (VBool (cancer_excision_report c))
      /\ doc_get (document_with Scenario.breast [(KStr "grade", VInt 2)])
                 "cancer_category" <> None
      /\ cancer_data_of (document_with Scenario.breast [(KStr "grade", VInt 2)])
         = Some data
      /\ (doc_get (document_with Scenario.breast [(KStr "grade", VInt 2)])
                  "cancer_category_others_description" <> None
          <-> cancer_excision_report c = true))
  /\ is_exception Scenario.keyboard_interrupt = false.
Proof.
  split.
  - exact (proj2 (forward_outcome
                    Scenario.world Scenario.signature Scenario.cls_name
                    (Scenario.analyzer_is_cancer (Ok Scenario.breast))
                    (Scenario.jsonize None) Scenario.globals_get
                    Scenario.predict Scenario.strftime Scenario.reg
                    example_report "report-1" Scenario.start
                    (snd (Scenario.run (Ok Scenario.breast) None Scenario.reg
                                       example_report)))
                 (document_with Scenario.breast [(KStr "grade", VInt 2)])
                 eq_refl).
  - destruct (proj1 (forward_outcome
                       Scenario.world Scenario.signature Scenario.cls_name
                       (Scenario.analyzer_is_cancer (Ok Scenario.thyroid))
                       (Scenario.jsonize None) Scenario.globals_get
                       Scenario.predict Scenario.strftime Scenario.reg
                       example_report "report-1" Scenario.start
                       (snd (Scenario.run (Ok Scenario.thyroid) None
                                          Scenario.reg example_report)))
                    Scenario.keyboard_interrupt eq_refl)
      as [[Hc _] | [He _]]; [discriminate Hc | exact He].
Defined.

Lemma extractor_calls_in_order_witness :
  let liver := Classification true (Some "liver") None in
  registry_get Scenario.reg (cancer_category liver) = ["Missing"; "X"]
  /\ resolved Scenario.globals_get ["Missing"; "X"] = ["X"]
  /\ exists r st' new n,
       Scenario.run (Ok liver) None Scenario.reg example_report = (r, st')
       /\ st_trace st' = st_trace Scenario.start ++ new
       /\ filter is_extractor_call new
          = map (fun cls => ExtractorCall cls example_report
                              (VDict [(KStr "diagnosis", VStr "carcinoma")]))
                (firstn n ["X"])
       /\ (forall doc, r = Ok doc -> n = 1)
       /\ (forall e, r = Raise e -> is_exception e = false).
Proof.
  intros liver. split; [reflexivity | split; [reflexivity|]].
  exact (extractor_calls_in_order
           Scenario.world Scenario.signature Scenario.cls_name
           (Scenario.analyzer_is_cancer (Ok liver))
           (Scenario.jsonize None) Scenario.globals_get Scenario.predict
           Scenario.strftime Scenario.reg example_report "report-1"
           Scenario.start liver 1
           (VDict [(KStr "diagnosis", VStr "carcinoma")]) 2
           eq_refl eq_refl eq_refl).
Defined.

Lemma cancer_data_keys_witness :
  exists data,
    cancer_data_of
      (document_with Scenario.lung_described
         [(KStr "margin", VStr "involved"); (KStr "size", VInt 12)])
    = Some data
    /\ forall k, In k (dict_keys data) <->
                 exists d, In d [[(KStr "margin", VStr "free");
                                  (KStr "size", VInt 12)];
                                 [(KStr "margin", VStr "involved")]]
                           /\ In k (dict_keys d).
Proof.
  exact (cancer_data_keys
           Scenario.world Scenario.signature Scenario.cls_name
           (Scenario.analyzer_is_cancer (Ok Scenario.lung_described))
           (Scenario.jsonize None) Scenario.globals_get Scenario.predict
           Scenario.strftime Scenario.reg example_report "report-1"
           Scenario.start Scenario.lung_described 1
           (VDict [(KStr "diagnosis", VStr "carcinoma")]) 2
           (document_with Scenario.lung_described
              [(KStr "margin", VStr "involved"); (KStr "size", VInt 12)])
           (snd (Scenario.run (Ok Scenario.lung_described) None Scenario.reg
                              example_report))
           eq_refl eq_refl eq_refl eq_refl).
Defined.


Lemma setup_logger_handlers_once_witness :
  let reg1 := setup_logger "root" 10 None 5000000 3 false [] in
  let reg2 := setup_logger "root" 20 (Some "run.log") 5000000 3 true reg1 in
  lg_handlers (get_logger "" reg2) = [LogHandler Console ColorFormatter 10]
  /\ lg_level (get_logger "" reg2) = 20%Z
  /\ get_logger "app" reg2 = get_logger "app" []
  /\ lg_level (get_logger "" []) = 30%Z.
Proof.
  intros reg1 reg2. subst reg2 reg1.
  destruct (setup_logger_handlers_once "root" [] 10 20 None
              (Some "run.log") 5000000 5000000 3 3 false true)
    as (_ & Hsame & Hlevel & _ & Hother & Halias & _).
  rewrite (Halias "" eq_refl).
  split; [exact Hsame | split; [exact Hlevel|]].
  split; [|reflexivity].
  apply Hother. discriminate.
Defined.

(** ** The batch driver *)

Section BatchFacts.

Variable world : Type.
Variable signature : Type.
Variable cls_name : signature -> string.
Variable analyzer_is_cancer :
  list text -> world -> result classification * world.
Variable jsonize :
  list text -> option string -> world -> result value * world.
Variable globals_get : string -> option signature.
Variable predict :
  signature -> text -> value -> world -> result value * world.
Variable strftime : world -> string.
Variable perf_counter : world -> spec_float.
Variable float_str : spec_float -> string.
Variable path_join : string -> string -> string.
Variable open_write : string -> result unit.
Variable json_dump : value -> result unit.

Local Abbreviation forward_with :=
  (forward_with cls_name analyzer_is_cancer jsonize globals_get predict strftime).

(** A run of [forward] calls the classifier once. *)
Lemma forward_classifier_calls (reg : registry) (report : text)
    (fname : string) (st : state world) :
  filter is_classifier_call
         (st_trace (snd (forward_with reg report fname st)))
  = filter is_classifier_call (st_trace st)
    ++ [ClassifierCall (paragraphs_of report)].
Proof.
  destruct (analyzer_is_cancer (paragraphs_of report) (st_world st))
    as [[c|e0] w1] eqn:Hc.
  - destruct (cancer_excision_report c) eqn:He.
    + rewrite (forward_eligible _ _ _ _ _ _ _ _ reg report fname st c w1 Hc He).
      destruct (category_log_no_call c) as (Hlog & _ & _).
      destruct (structuring _ _ _ w1) as [[json_report|e1] w2];
        cbn [snd st_trace]; unfold prologue;
        rewrite !filter_app, Hlog, ?fan_out_trace_no_classifier_call;
        rewrite ?app_nil_r; reflexivity.
    + rewrite (forward_not_eligible _ _ _ _ _ _ _ _ reg report fname st c w1
                                    Hc He).
      cbn [snd st_trace]. unfold prologue. rewrite !filter_app. reflexivity.
  - rewrite (forward_classifier_raises _ _ _ _ _ _ _ _ reg report fname st e0
                                       w1 Hc).
    cbn [snd st_trace]. unfold prologue. rewrite filter_app. reflexivity.
Qed.

Lemma log_info_calls (line : string) (st : state world) :
  classifier_calls (st_trace (log_info line st))
  = classifier_calls (st_trace st).
Proof.
  unfold classifier_calls, log_info. simpl. rewrite filter_app. simpl.
  now rewrite app_nil_r.
Qed.

(** X19.  [run_folder] goes through the files in order and stops at the
    first one that fails, be it the reading, the pipeline, or the writing
    of the output: the outputs written are those of a prefix of
    the files, each named after the stem of its file; no file after the
    failing one is classified; and the call returns only when every file
    has its output. *)
Theorem run_folder_stops_at_failure (output_folder : string)
    (files : list txt_file) :
  forall (st : state world) (fs : list file_event),
    let r := run_folder cls_name analyzer_is_cancer jsonize globals_get
                        predict strftime perf_counter float_str path_join
                        open_write json_dump output_folder files st fs in
    exists n,
      n <= length files
      /\ flat_map dumped_path (snd (snd r))
         = flat_map dumped_path fs
           ++ map (fun f => path_join output_folder
                                      (f_stem f ++ "_output.json"))
                  (firstn n files)
      /\ classifier_calls (st_trace st) + n
         <= classifier_calls (st_trace (fst (snd r)))
         <= classifier_calls (st_trace st) + n + 1
      /\ (fst r = Ok tt ->
          n = length files
          /\ classifier_calls (st_trace (fst (snd r)))
             = classifier_calls (st_trace st) + n)
      /\ (forall e, fst r = Raise e -> n < length files).
Proof.
  induction files as [|file rest IH]; intros st fs r.
  - exists 0. subst r. simpl. rewrite app_nil_r.
    repeat split; try lia. discriminate.
  - subst r. cbn [run_folder].
    pose proof (log_info_calls ("Processing file: " ++ f_name file) st) as Hst1.
    destruct (f_read file) as [report|e0].
    2:{ exists 0. cbn [fst snd firstn map length]. rewrite app_nil_r.
        repeat split; rewrite ?Hst1; try lia; discriminate. }
    unfold run_cancer_pipeline, timeit.
    pose proof (forward_classifier_calls organmodels report (f_stem file)
                  (log_info ("Processing file: " ++ f_name file) st)) as Hcall.
    unfold forward.
    destruct (forward_with organmodels report (f_stem file)
                (log_info ("Processing file: " ++ f_name file) st))
      as [[output|e1] st2] eqn:Hrun; cbn [snd] in Hcall.
    2:{ exists 0. cbn [fst snd firstn map length]. rewrite app_nil_r.
        assert (Hst2 : classifier_calls (st_trace st2)
                       = classifier_calls (st_trace st) + 1).
        { unfold classifier_calls in *. rewrite Hcall, length_app, Hst1.
          simpl. lia. }
        repeat split; rewrite ?Hst2; try lia; discriminate. }
    assert (Hst2 : classifier_calls (st_trace st2)
                   = classifier_calls (st_trace st) + 1).
    { unfold classifier_calls in *. rewrite Hcall, length_app, Hst1.
      simpl. lia. }
    set (elapsed := SFsub 53 1024 (perf_counter (st_world st2))
                          (perf_counter
                             (st_world (log_info ("Processing file: "
                                                  ++ f_name file) st)))).
    set (st3 := log_info ("Processed " ++ f_name file ++ " in "
                          ++ float_str elapsed ++ " seconds.") st2).
    assert (Hst3 : classifier_calls (st_trace st3)
                   = classifier_calls (st_trace st) + 1)
      by (unfold st3; now rewrite log_info_calls).
    destruct (open_write (path_join output_folder (f_stem file ++ "_output.json")))
      as [[]|e2].
    2:{ exists 0. cbn [fst snd firstn map length]. rewrite app_nil_r.
        repeat split; rewrite ?Hst3; try lia; discriminate. }
    destruct (json_dump output) as [[]|e3].
    2:{ exists 0. cbn [fst snd firstn map length].
        rewrite flat_map_app. simpl flat_map at 2. rewrite !app_nil_r.
        repeat split; rewrite ?Hst3; try lia; discriminate. }
    set (st4 := log_info ("Output saved to: "
                          ++ path_join output_folder
                               (f_stem file ++ "_output.json")) st3).
    assert (Hst4 : classifier_calls (st_trace st4)
                   = classifier_calls (st_trace st) + 1)
      by (unfold st4; now rewrite log_info_calls).
    destruct (IH st4
                (fs ++ [Opened (path_join output_folder
                                          (f_stem file ++ "_output.json"));
                        Dumped (path_join output_folder
                                          (f_stem file ++ "_output.json"))
                               output]))
      as (n & Hn & Hpaths & Hcalls & Hok & Hraise).
    cbv zeta in Hpaths, Hcalls, Hok, Hraise.
    exists (S n).
    split; [simpl; lia|]. split.
    + rewrite Hpaths, flat_map_app. simpl. now rewrite <- app_assoc.
    + rewrite Hst4 in Hcalls, Hok. split; [lia|]. split.
      * intros Hr. destruct (Hok Hr) as [-> Hc]. simpl. split; lia.
      * intros e Hr. specialize (Hraise e Hr). simpl. lia.
Qed.

End BatchFacts.

Example run_folder_example :
  fst (scenario_run_folder scenario_files)
  = Raise (Exn "UnicodeDecodeError" "invalid start byte" true)
  /\ flat_map dumped_path (snd (snd (scenario_run_folder scenario_files)))
     = ["out/a_output.json"]
  /\ classifier_calls (st_trace (fst (snd (scenario_run_folder scenario_files))))
     = 1.
Proof. repeat split. Qed.

Lemma run_folder_stops_at_failure_witness :
  exists n,
    n <= 3
    /\ flat_map dumped_path (snd (snd (scenario_run_folder scenario_files)))
       = map (fun f => ("out" ++ "/" ++ (f_stem f ++ "_output.json"))%string)
             (firstn n scenario_files)
    /\ n < 3.
Proof.
  destruct (run_folder_stops_at_failure
              Scenario.world Scenario.signature Scenario.cls_name
              (Scenario.analyzer_is_cancer (Ok Scenario.not_eligible))
              (Scenario.jsonize None) Scenario.globals_get Scenario.predict
              Scenario.strftime
              (fun w => S754_zero false) (fun x => "0.0")
              (fun folder name => (folder ++ "/" ++ name)%string)
              (fun path => Ok tt) (fun doc => Ok tt)
              "out" scenario_files Scenario.start [])
    as (n & Hn & Hpaths & _ & _ & Hraise).
  exists n. split; [exact Hn | split; [exact Hpaths|]].
  exact (Hraise (Exn "UnicodeDecodeError" "invalid start byte" true) eq_refl).
Defined.
